(** * Alignment (ST.003) and indentation (ST.005) checkers: a shallow embedding

    The two Python modules [rules/st_rules/rule_003.py] and
    [rules/st_rules/rule_005.py] are embedded as Rocq functions.  Python
    [str] values are Rocq [string]s whose characters are code points below
    256, Python [int]s are [Z], lists are [list]s, insertion-ordered [dict]s
    are association lists, and the report callback is modelled by the list
    of its calls, in call order. *)

From Stdlib Require Import ZArith List String Ascii Bool Lia.
From Stdlib Require Import Sorting.Sorted Sorting.Permutation.
From Stdlib Require Import Numbers.DecimalString.
Import ListNotations.

Local Open Scope string_scope.
Local Open Scope Z_scope.

(* ================================================================== *)
(** ** Python string primitives *)
(* ================================================================== *)

Module PyStr.

Definition tab : ascii := "009"%char.
Definition nl : ascii := "010"%char.
Definition cr : ascii := "013"%char.

(** [str.isspace] on one character; also the class [\s] of [re] on [str]
    patterns.  Code points 9-13, 28-32, 133 and 160. *)
Definition isspace (c : ascii) : bool :=
  let n := N_of_ascii c in
  ((9 <=? n) && (n <=? 13) || (28 <=? n) && (n <=? 32)
   || (n =? 133) || (n =? 160))%N.

Definition len (s : string) : Z := Z.of_nat (String.length s).

Fixpoint lstrip (s : string) : string :=
  match s with
  | String c s' => if isspace c then lstrip s' else s
  | EmptyString => EmptyString
  end.

(** [s.rstrip(chars)] for the set of characters accepted by [p]. *)
Fixpoint rstrip_by (p : ascii -> bool) (s : string) : string :=
  match s with
  | EmptyString => EmptyString
  | String c s' =>
      match rstrip_by p s' with
      | EmptyString => if p c then EmptyString else String c EmptyString
      | r => String c r
      end
  end.

Definition rstrip (s : string) : string := rstrip_by isspace s.
Definition strip (s : string) : string := lstrip (rstrip s).

(** [s.rstrip(',')] *)
Definition rstrip_comma (s : string) : string :=
  rstrip_by (Ascii.eqb ",") s.

Fixpoint find_char_from (c : ascii) (s : string) (i : Z) : Z :=
  match s with
  | EmptyString => -1
  | String a s' => if Ascii.eqb a c then i else find_char_from c s' (i + 1)
  end.

(** [s.find(c)] for a one-character needle: first index, or [-1]. *)
Definition find_char (c : ascii) (s : string) : Z := find_char_from c s 0.

(** [s.count(c)] for a one-character needle. *)
Fixpoint count_char (c : ascii) (s : string) : Z :=
  match s with
  | EmptyString => 0
  | String a s' => (if Ascii.eqb a c then 1 else 0) + count_char c s'
  end.

Definition startswith (p s : string) : bool := String.prefix p s.

Fixpoint endswith (suf s : string) : bool :=
  String.eqb s suf ||
  match s with
  | String _ s' => endswith suf s'
  | EmptyString => false
  end.

(** [sub in s] *)
Fixpoint contains (sub s : string) : bool :=
  String.prefix sub s ||
  match s with
  | String _ s' => contains sub s'
  | EmptyString => false
  end.

Fixpoint drop (n : nat) (s : string) : string :=
  match n, s with
  | O, _ => s
  | S n', String _ s' => drop n' s'
  | S _, EmptyString => EmptyString
  end.

Fixpoint take (n : nat) (s : string) : string :=
  match n, s with
  | O, _ => EmptyString
  | S n', String c s' => String c (take n' s')
  | S _, EmptyString => EmptyString
  end.

(** Slice bounds as Python normalises them: a negative bound counts from
    the end, and every bound is clamped to [0, len s]. *)
Definition norm_index (s : string) (k : Z) : nat :=
  Z.to_nat (Z.min (len s) (if k <? 0 then Z.max 0 (len s + k) else k)).

(** [s[k:]] *)
Definition slice_from (s : string) (k : Z) : string := drop (norm_index s k) s.
(** [s[:k]] *)
Definition slice_to (s : string) (k : Z) : string := take (norm_index s k) s.

(** [s.split('\n')] *)
Fixpoint split_lines (s : string) : list string :=
  match s with
  | EmptyString => [EmptyString]
  | String c s' =>
      if Ascii.eqb c nl then EmptyString :: split_lines s'
      else match split_lines s' with
           | h :: t => String c h :: t
           | [] => [String c EmptyString]
           end
  end.

(** ['\n'.join(lines)] *)
Fixpoint join_lines (l : list string) : string :=
  match l with
  | [] => EmptyString
  | [x] => x
  | x :: rest => x ++ String nl (join_lines rest)
  end.

Fixpoint spaces (n : nat) : string :=
  match n with
  | O => EmptyString
  | S n' => String " " (spaces n')
  end.

(** [s.expandtabs(2)]: a tab advances to the next even column; the column
    restarts after a line feed or a carriage return. *)
Fixpoint expandtabs_from (col : nat) (s : string) : string :=
  match s with
  | EmptyString => EmptyString
  | String c s' =>
      if Ascii.eqb c tab then
        let incr := (2 - Nat.modulo col 2)%nat in
        spaces incr ++ expandtabs_from (col + incr) s'
      else if Ascii.eqb c nl || Ascii.eqb c cr then
        String c (expandtabs_from 0 s')
      else String c (expandtabs_from (col + 1) s')
  end.

Definition expandtabs (s : string) : string := expandtabs_from 0 s.

(** [len(s) - len(s.lstrip())] *)
Definition leading_ws (s : string) : Z := len s - len (lstrip s).

(** [str(n)] for an [int], as an f-string prints it. *)
Definition str_of_int (n : Z) : string := NilZero.string_of_int (Z.to_int n).

(** Truthiness of a [str]: non-empty. *)
Definition truthy (s : string) : bool := negb (String.eqb s EmptyString).

End PyStr.

(* ================================================================== *)
(** ** The fragment of Python's [re] the rules use *)
(* ================================================================== *)

Module Re.
Import PyStr.

(** Backtracking regular expressions with Python's priorities: the left
    alternative first, greedy repetition.  No pattern of the two modules
    repeats a sub-pattern that can match the empty string. *)
Inductive regex : Type :=
| Eps
| Chr (p : ascii -> bool)
| Seq (a b : regex)
| Alt (a b : regex)
| Star (a : regex)
| Grp (n : nat) (a : regex)
| Ref (n : nat)
| Bol
| Eol.

Definition caps := list (nat * string).

Fixpoint get_cap (n : nat) (c : caps) : option string :=
  match c with
  | [] => None
  | (m, v) :: c' => if Nat.eqb m n then Some v else get_cap n c'
  end.

Section Matcher.
Context {R : Type}.

(** [run fuel r pos s c k]: match [r] against the remaining input [s],
    which starts at offset [pos] of the subject, then continue with
    [k]; [None] makes the caller backtrack. *)
Fixpoint run (fuel : nat) :
  regex -> nat -> string -> caps ->
  (nat -> string -> caps -> option R) -> option R :=
  match fuel with
  | O => fun _ _ _ _ _ => None
  | S f =>
      fix go (r : regex) (pos : nat) (s : string) (c : caps)
             (k : nat -> string -> caps -> option R) {struct r} : option R :=
        match r with
        | Eps => k pos s c
        | Chr p =>
            match s with
            | String a s' => if p a then k (S pos) s' c else None
            | EmptyString => None
            end
        | Seq a b => go a pos s c (fun pos' s' c' => go b pos' s' c' k)
        | Alt a b =>
            match go a pos s c k with
            | Some x => Some x
            | None => go b pos s c k
            end
        | Star a =>
            match go a pos s c
                    (fun pos' s' c' =>
                       if (pos <? pos')%nat then run f (Star a) pos' s' c' k
                       else None) with
            | Some x => Some x
            | None => k pos s c
            end
        | Grp n a =>
            go a pos s c
               (fun pos' s' c' => k pos' s' ((n, take (pos' - pos) s) :: c'))
        | Ref n =>
            match get_cap n c with
            | Some t =>
                if String.prefix t s
                then k (pos + String.length t)%nat (drop (String.length t) s) c
                else None
            | None => None
            end
        | Bol => if (pos =? 0)%nat then k pos s c else None
        | Eol =>
            match s with
            | EmptyString => k pos s c
            | String a EmptyString => if Ascii.eqb a nl then k pos s c else None
            | _ => None
            end
        end
  end.
End Matcher.

Definition fuel_for (s : string) : nat := S (S (String.length s)).

(** [re.match(r, s)]: the groups of the first match anchored at 0. *)
Definition re_match (r : regex) (s : string) : option caps :=
run (fuel_for s) r 0%nat s [] (fun _ _ c => Some c).

Fixpoint search_from (fuel : nat) (r : regex) (pos : nat) (s : string)
: option caps :=
match run fuel r pos s [] (fun _ _ c => Some c) with
| Some c => Some c
| None =>
    match s with
    | String _ s' => search_from fuel r (S pos) s'
    | EmptyString => None
    end
end.

(** [re.search(r, s)]: the groups of the leftmost match. *)
Definition re_search (r : regex) (s : string) : option caps :=
search_from (fuel_for s) r 0%nat s.

(** [m.group(n)], with Python's [None] (and a failed match) as [None]. *)
Definition group (n : nat) (m : option caps) : option string :=
match m with
| Some c => get_cap n c
| None => None
end.

Definition is_match (m : option caps) : bool :=
match m with Some _ => true | None => false end.

(** Pattern combinators. *)
Definition chr (c : ascii) : regex := Chr (Ascii.eqb c).
Definition plus (a : regex) : regex := Seq a (Star a).
Definition opt (a : regex) : regex := Alt a Eps.
Fixpoint lit (s : string) : regex :=
match s with
| EmptyString => Eps
| String c s' => Seq (chr c) (lit s')
end.
Fixpoint seqs (l : list regex) : regex :=
match l with
| [] => Eps
| [r] => r
| r :: l' => Seq r (seqs l')
end.
Fixpoint alts (l : list regex) : regex :=
match l with
| [] => Eps
| [r] => r
| r :: l' => Alt r (alts l')
end.

Definition in_range (lo hi : ascii) (c : ascii) : bool :=
(N_of_ascii lo <=? N_of_ascii c)%N && (N_of_ascii c <=? N_of_ascii hi)%N.

Definition upper (c : ascii) : bool := in_range "A" "Z" c.
Definition lower (c : ascii) : bool := in_range "a" "z" c.
Definition digit (c : ascii) : bool := in_range "0" "9" c.
(** [[a-zA-Z_]] and [[a-zA-Z0-9_]] *)
Definition ident_start (c : ascii) : bool :=
lower c || upper c || Ascii.eqb c "_".
Definition ident_char (c : ascii) : bool := ident_start c || digit c.
Definition dquote : ascii := "034"%char.
Definition squote : ascii := "'"%char.
(** Any character but a double quote, a single quote, [=] and [\s]. *)
Definition name_char (c : ascii) : bool :=
negb (Ascii.eqb c dquote || Ascii.eqb c squote || Ascii.eqb c "="
      || isspace c).

Definition ws : regex := Chr isspace.

End Re.

(* ================================================================== *)
(** ** The report callback *)
(* ================================================================== *)

(** One call [log_error_func(file_path, rule_id, error_message, line_number)]. *)
Record report : Type := mkReport {
  r_file : string;
  r_rule : string;
  r_msg : string;
  r_line : Z
}.

(* ================================================================== *)
(** ** rule_005.py: ST.005, indentation level *)
(* ================================================================== *)

Module Rule005.
Import PyStr Re.

(** The pattern [<<-?([A-Z]+)\s*$] of the heredoc start. *)
Definition heredoc_start_re : regex :=
  seqs [lit "<<"; opt (chr "-"); Grp 1 (plus (Chr upper)); Star ws; Eol].

(** The dictionary [_check_heredoc_state] returns. *)
Record heredoc_state : Type := mkHeredoc {
  in_heredoc : bool;
  terminator : option string
}.

(** [current_terminator and line_stripped == current_terminator] *)
Definition terminator_matches (current_terminator : option string)
  (line_stripped : string) : bool :=
  match current_terminator with
  | Some t => truthy t && String.eqb line_stripped t
  | None => false
  end.

Definition _check_heredoc_state (line : string) (current_in_heredoc : bool)
  (current_terminator : option string) : heredoc_state :=
  let line_stripped := strip line in
  let unchanged := mkHeredoc current_in_heredoc current_terminator in
  if negb current_in_heredoc then
    match re_search heredoc_start_re line with
    | Some c => mkHeredoc true (get_cap 1 c)
    | None => unchanged
    end
  else if terminator_matches current_terminator line_stripped then
    mkHeredoc false None
  else unchanged.

Fixpoint indentation_from (s : string) (leading_spaces : Z) : Z :=
  match s with
  | EmptyString => leading_spaces
  | String c s' =>
      if Ascii.eqb c " " then indentation_from s' (leading_spaces + 1)
      else if Ascii.eqb c tab then -1
      else leading_spaces
  end.

Definition _get_indentation_level (line : string) : Z := indentation_from line 0.

Definition top_level_keywords : list string :=
  ["resource "; "data "; "variable "; "output "; "locals "; "terraform ";
   "provider "].

Definition starts_with_keyword (line_content : string) : bool :=
  existsb (fun k => startswith k line_content) top_level_keywords.

Definition indent_message (indent_level expected_indent : Z) : string :=
  "Indentation level incorrect. Current indentation: "
  ++ str_of_int indent_level ++ " spaces, Expected: "
  ++ str_of_int expected_indent ++ " spaces".

(** The expected indentation of the closing part of a line that closes and
    reopens; [brace_level] and [bracket_level] are the levels after the line. *)
Definition close_reopen_expected (close_braces close_brackets
  brace_level bracket_level fallback : Z) : Z :=
  if 0 <? close_brackets then
    (brace_level + Z.max 0 (bracket_level - close_brackets)) * 2
  else if 0 <? close_braces then
    (Z.max 0 (brace_level - close_braces) + bracket_level) * 2
  else fallback.

(** The indentation [_validate_line_indentation] computes from the nesting
    level, once the line is neither a header, nor oddly indented, nor an
    unindented assignment. *)
Definition nesting_expected (line_content : string)
  (current_nesting_level brace_level bracket_level : Z) : Z :=
  let close_braces := count_char "}" line_content in
  let close_brackets := count_char "]" line_content in
  let open_braces := count_char "{" line_content in
  let open_brackets := count_char "[" line_content in
  let has_closing := (0 <? close_braces) || (0 <? close_brackets) in
  let has_opening := (0 <? open_braces) || (0 <? open_brackets) in
  let net_close_braces := close_braces - open_braces in
  let net_close_brackets := close_brackets - open_brackets in
  let brackets_balanced := (open_brackets =? close_brackets) && (0 <? open_brackets) in
  let braces_balanced := (open_braces =? close_braces) && (0 <? open_braces) in
  let no_net_close := (net_close_braces <=? 0) && (net_close_brackets <=? 0) in
  let reset1 := (brackets_balanced || braces_balanced) && no_net_close in
  let is_parameter_assignment :=
    contains "=" line_content && negb (startswith "#" line_content) in
  let reset2 := is_parameter_assignment && no_net_close in
  let has_closing := if reset1 || reset2 then false else has_closing in
  let has_opening := if reset1 || reset2 then false else has_opening in
  if has_closing && ((0 <? net_close_braces) || (0 <? net_close_brackets)) then
    let total_net_close := net_close_braces + net_close_brackets in
    if (total_net_close =? 0) && has_opening then
      close_reopen_expected close_braces close_brackets brace_level bracket_level
        (Z.max 0 ((current_nesting_level - total_net_close) * 2))
    else Z.max 0 ((current_nesting_level - total_net_close) * 2)
  else if has_closing && has_opening then
    close_reopen_expected close_braces close_brackets brace_level bracket_level
      (current_nesting_level * 2)
  else current_nesting_level * 2.

(** [_validate_line_indentation] logs at most one error; [Some e] is the
    expected indentation of that error, [None] is no error. *)
Definition validate_expected (line_content : string) (indent_level : Z)
  (is_tfvars_file : bool)
  (current_nesting_level brace_level bracket_level : Z) : option Z :=
  if starts_with_keyword line_content && contains " " line_content
     && negb (endswith "{" line_content) && negb (contains " = " line_content)
  then (if 0 <? indent_level then Some 0 else None)
  else if (0 <? indent_level) && negb (indent_level mod 2 =? 0) then
    Some (if indent_level =? 1 then 2
          else if indent_level =? 3 then 2
          else if indent_level =? 5 then 6
          else if indent_level =? 7 then 6
          else if indent_level =? 9 then 8
          else indent_level - 1)
  else if (indent_level =? 0) && contains "=" line_content
          && negb (startswith "#" line_content) && negb is_tfvars_file
          && negb (starts_with_keyword line_content)
  then Some 2
  else
    let expected_indent :=
      nesting_expected line_content current_nesting_level brace_level bracket_level in
    let expected_indent :=
      if negb (indent_level mod 2 =? 0) then
        (if indent_level <? expected_indent then indent_level + 1
         else indent_level - 1)
      else expected_indent in
    if negb (indent_level =? expected_indent) then Some expected_indent else None.

Definition _validate_line_indentation (file_path : string) (line_num : Z)
  (line_content : string) (indent_level : Z) (is_tfvars_file : bool)
  (lines : list string) (current_nesting_level brace_level bracket_level : Z)
  : list report :=
  match validate_expected line_content indent_level is_tfvars_file
          current_nesting_level brace_level bracket_level with
  | Some e => [mkReport file_path "ST.005" (indent_message indent_level e) line_num]
  | None => []
  end.

(** The local variables the loop of [check_st005_indentation_level] carries
    from one line to the next. *)
Record scan_state : Type := mkScan {
  heredoc : heredoc_state;
  brace_level : Z;
  bracket_level : Z
}.

Definition initial_scan : scan_state := mkScan (mkHeredoc false None) 0 0.

(** What the body of the loop does to a line: [Blank], [InHeredoc] and
    [Comment] are the three [continue]s before the levels are touched,
    [TabIndent] the one after, [Validated] a call of the validator. *)
Inductive line_fate : Type :=
| Blank | InHeredoc | Comment | TabIndent | Validated.

(** One iteration of the loop: the next state, the fate of the line and the
    errors it logs. *)
Definition scan_line (file_path : string) (is_tfvars_file : bool)
  (lines : list string) (st : scan_state) (line_num : Z) (line : string)
  : scan_state * line_fate * list report :=
  if String.eqb (strip line) "" then (st, Blank, [])
  else
    let hs := _check_heredoc_state line (in_heredoc (heredoc st))
                (terminator (heredoc st)) in
    if in_heredoc hs then (mkScan hs (brace_level st) (bracket_level st), InHeredoc, [])
    else
      let line_content := strip line in
      if startswith "#" line_content then
        (mkScan hs (brace_level st) (bracket_level st), Comment, [])
      else
        let open_braces := count_char "{" line in
        let close_braces := count_char "}" line in
        let open_brackets := count_char "[" line in
        let close_brackets := count_char "]" line in
        let net_brace_change := open_braces - close_braces in
        let net_bracket_change := open_brackets - close_brackets in
        let current_nesting_level := brace_level st + bracket_level st in
        let brace_level' := Z.max 0 (brace_level st + net_brace_change) in
        let bracket_level' := Z.max 0 (bracket_level st + net_bracket_change) in
        let st' := mkScan hs brace_level' bracket_level' in
        let indent_level := _get_indentation_level line in
        if indent_level =? -1 then (st', TabIndent, [])
        else
          (st', Validated,
           _validate_line_indentation file_path line_num line_content indent_level
             is_tfvars_file lines current_nesting_level brace_level' bracket_level').

Fixpoint scan_lines (file_path : string) (is_tfvars_file : bool)
  (lines : list string) (st : scan_state) (line_num : Z) (rest : list string)
  : list report :=
  match rest with
  | [] => []
  | line :: rest' =>
      let '(st', _, errs) := scan_line file_path is_tfvars_file lines st line_num line in
      errs ++ scan_lines file_path is_tfvars_file lines st' (line_num + 1) rest'
  end.

(** The local variables of the loop once it has gone through [rest]. *)
Fixpoint scan_state_after (file_path : string) (is_tfvars_file : bool)
  (lines : list string) (st : scan_state) (line_num : Z) (rest : list string)
  : scan_state :=
  match rest with
  | [] => st
  | line :: rest' =>
      scan_state_after file_path is_tfvars_file lines
        (fst (fst (scan_line file_path is_tfvars_file lines st line_num line)))
        (line_num + 1) rest'
  end.

(** [check_st005_indentation_level(file_path, content, log_error_func)]: the
    calls of [log_error_func], in order. *)
Definition check_st005_indentation_level (file_path content : string)
  : list report :=
  let lines := split_lines content in
  let is_tfvars_file := endswith ".tfvars" file_path in
  scan_lines file_path is_tfvars_file lines initial_scan 1 lines.

End Rule005.

(* ================================================================== *)
(** ** rule_003.py: ST.003, parameter alignment *)
(* ================================================================== *)

Module Rule003.
Import PyStr Re.

(** A Python exception ([IndexError]) is [None]. *)
Definition exc (A : Type) : Type := option A.

Definition bind {A B : Type} (m : exc A) (f : A -> exc B) : exc B :=
  match m with
  | Some a => f a
  | None => None
  end.

Notation "x <- m ;; k" := (bind m (fun x => k))
  (at level 61, m at next level, right associativity).

(** An error of the alignment rule: [(line_number, message)]. *)
Definition error : Type := (Z * string)%type.

(** A member of a section: [(line_content, line_idx)], the index counted
    from the first line of the block body. *)
Definition entry : Type := (string * nat)%type.

(** *** Heredoc tracking

    The three scans of the module (the partition of a block, the check of a
    section, the scan of a [.tfvars] file) open with the same statements:
    leave the heredoc on its terminator, skip the line when still inside,
    enter a heredoc on a start marker. *)

Record heredoc_state : Type := mkHeredoc {
  in_heredoc : bool;
  heredoc_terminator : option string
}.

Definition no_heredoc : heredoc_state := mkHeredoc false None.

Definition heredoc_start_re : regex :=
  seqs [lit "<<"; opt (chr "-"); Grp 1 (plus (Chr upper)); Star ws; Eol].

Definition opt_truthy (t : option string) : bool :=
  match t with
  | Some s => truthy s
  | None => false
  end.

Definition opt_eqb (s : string) (t : option string) : bool :=
  match t with
  | Some u => String.eqb s u
  | None => false
  end.

(** [heredoc_track hs line line_stripped] is [(skip, hs')]: [skip] tells
    that the scan [continue]s on this line. *)
Definition heredoc_track (hs : heredoc_state) (line line_stripped : string)
  : bool * heredoc_state :=
  let hs1 :=
    if in_heredoc hs && opt_truthy (heredoc_terminator hs)
       && opt_eqb line_stripped (heredoc_terminator hs)
    then mkHeredoc false None else hs in
  if in_heredoc hs1 then (true, hs1)
  else
    match re_search heredoc_start_re line with
    | Some c => (false, mkHeredoc true (get_cap 1 c))
    | None => (false, hs1)
    end.

(** *** Messages *)

Definition msg_after_one (block_type : string) : string :=
  "Parameter assignment should have exactly one space after '=' in " ++ block_type.

Definition msg_after_multiple (block_type : string) : string :=
  "Parameter assignment should have exactly one space after '=' in "
  ++ block_type ++ ", found multiple spaces".

Definition msg_single_spacing (block_type : string) : string :=
  "Parameter assignment equals sign spacing incorrect in " ++ block_type ++ ". "
  ++ "Expected exactly 1 space between parameter name and '='".

Definition msg_not_aligned (block_type : string)
  (required_spaces_before_equals expected_equals_location : Z) : string :=
  "Parameter assignment equals sign not aligned in " ++ block_type ++ ". "
  ++ "Expected " ++ str_of_int required_spaces_before_equals
  ++ " spaces between parameter name and '=', "
  ++ "equals sign should be at column " ++ str_of_int (expected_equals_location + 1).

Definition msg_too_many (block_type : string) (expected_equals_location : Z)
  : string :=
  "Parameter assignment equals sign not aligned in " ++ block_type ++ ". "
  ++ "Too many spaces before '=', equals sign should be at column "
  ++ str_of_int (expected_equals_location + 1).

(** *** Exemptions *)

Definition _has_st004_issue (line : string) : bool :=
  contains (String tab "") line.

(** [block_lines[relative_line_idx - 1]] raises outside the list. *)
Definition _has_st005_issue (line : string) (indent_level : Z)
  (relative_line_idx : nat) (block_lines : list string) : exc bool :=
  let actual_indent := leading_ws line in
  if negb (actual_indent mod 2 =? 0) then Some true
  else if (actual_indent =? 4)
          && negb (match block_lines with [] => true | _ => false end)
          && (0 <? relative_line_idx)%nat
  then
    prev_line <- nth_error block_lines (relative_line_idx - 1)%nat ;;
    Some (contains "ST.005" prev_line)
  else Some false.

Definition meta_parameters : list string :=
  ["count"; "for_each"; "provider"; "depends_on"; "lifecycle"].

Definition _has_st008_issue (param_name : string) (relative_line_idx : nat)
  (block_lines : list string) (meta : list string) : bool :=
  existsb (String.eqb param_name) meta.

Definition _should_skip_alignment_check (line param_name : string)
  (relative_line_idx : nat) (indent_level : Z) (block_lines : list string)
  : exc bool :=
  if _has_st004_issue line then Some true
  else
    st005 <- _has_st005_issue line indent_level relative_line_idx block_lines ;;
    if (st005 : bool) then Some true
    else if _has_st008_issue param_name relative_line_idx block_lines meta_parameters
    then Some true
    else Some false.

(** *** Spacing after the equals sign *)

Definition _check_equals_after_spacing (line : string) (relative_line_idx : nat)
  (block_type : string) (block_start_line : Z) : list error :=
  let actual_line_num := block_start_line + Z.of_nat relative_line_idx + 1 in
  let equals_pos := find_char "=" line in
  if equals_pos =? -1 then []
  else
    let after_equals := slice_from line (equals_pos + 1) in
    if negb (startswith " " after_equals) then
      [(actual_line_num, msg_after_one block_type)]
    else if startswith "  " after_equals then
      [(actual_line_num, msg_after_multiple block_type)]
    else [].

Definition _check_parameter_spacing (line : string) (relative_line_idx : nat)
  (block_type : string) (block_start_line : Z) : list error :=
  _check_equals_after_spacing line relative_line_idx block_type block_start_line.

(** *** Alignment within a group *)

(** One tuple of [param_data]. *)
Record param : Type := mkParam {
  p_name : string;
  p_line : string;
  p_idx : nat;
  p_equals_pos : Z;
  p_is_nested_block : bool
}.

Definition is_quote (c : ascii) : bool := Ascii.eqb c dquote || Ascii.eqb c squote.

(** The pattern of a parameter name before the equals sign: optional
    leading blanks, an optional quote (group 1), the name (group 2), the
    same quote again, optional blanks, end. *)
Definition param_name_re : regex :=
  seqs [Bol; Star ws; Grp 1 (opt (Chr is_quote)); Grp 2 (plus (Chr name_char));
        Ref 1; Star ws; Eol].

(** [line_stripped.startswith('(') and ('==' in line or '!=' in line)] *)
Definition is_expression_content (line : string) : bool :=
  startswith "(" (strip line) && (contains "==" line || contains "!=" line).

(** The tuple the first loop of [_check_group_alignment] appends for a
    member, if any. *)
Definition param_of (e : entry) : option param :=
  let '(line, relative_line_idx) := e in
  let equals_pos := find_char "=" line in
  if equals_pos =? -1 then None
  else
    let before_equals := slice_to line equals_pos in
    if startswith "[" (strip before_equals)
       || (String.eqb (strip before_equals) "" && startswith "[" (strip line))
    then None
    else if is_expression_content line then None
    else
      let after_equals := strip (slice_from line (equals_pos + 1)) in
      let is_nested_block := startswith "{" after_equals in
      match group 2 (re_match param_name_re before_equals) with
      | Some param_name =>
          Some (mkParam param_name line relative_line_idx equals_pos is_nested_block)
      | None => None
      end.

Fixpoint param_data (group_lines : list entry) : list param :=
  match group_lines with
  | [] => []
  | e :: rest =>
      match param_of e with
      | Some p => p :: param_data rest
      | None => param_data rest
      end
  end.

(** [max(len(param_name) for ... in param_data) if param_data else 0] *)
Definition longest_name_length (pd : list param) : Z :=
  fold_right (fun p acc => Z.max (len (p_name p)) acc) 0 pd.

(** [max(param_data, key=lambda x: len(x[0]))]: the first of the longest. *)
Fixpoint first_longest (best : param) (rest : list param) : param :=
  match rest with
  | [] => best
  | p :: rest' =>
      if len (p_name best) <? len (p_name p) then first_longest p rest'
      else first_longest best rest'
  end.

(** The text before the first equals sign, stripped, starts with a double
    quote. *)
Definition name_is_quoted (line : string) : bool :=
  startswith (String dquote "") (strip (slice_to line (find_char "=" line))).

(** The dictionary [unique_equals_positions], in insertion order, each
    position with the number of parameters at it. *)
Fixpoint bump (pos : Z) (d : list (Z * Z)) : list (Z * Z) :=
  match d with
  | [] => [(pos, 1)]
  | (k, n) :: d' => if k =? pos then (k, n + 1) :: d' else (k, n) :: bump pos d'
  end.

Definition equals_positions (pd : list param) : list (Z * Z) :=
  fold_left (fun d p => bump (p_equals_pos p) d) pd [].

(** [max(d.items(), key=count)]: the first entry with the largest count. *)
Fixpoint first_most_common (best : Z * Z) (rest : list (Z * Z)) : Z * Z :=
  match rest with
  | [] => best
  | e :: rest' =>
      if snd best <? snd e then first_most_common e rest'
      else first_most_common best rest'
  end.

(** The column the group must share, zero-based. *)
Definition expected_equals_location (pd : list param) (indent_level : Z)
  (block_type : string) : Z :=
  let longest_param_name_length := longest_name_length pd in
  let indent_spaces := indent_level * 2 in
  let by_longest_param :=
    match pd with
    | [] => indent_spaces + longest_param_name_length + 1
    | p :: rest =>
        let longest_param_data := first_longest p rest in
        let longest_quote_chars :=
          if startswith (String dquote "")
               (strip (slice_to (p_line longest_param_data)
                         (p_equals_pos longest_param_data)))
          then 2 else 0 in
        indent_spaces + longest_param_name_length + longest_quote_chars + 1
    end in
  if String.eqb block_type "tfvars" then
    match equals_positions pd with
    | [] => by_longest_param
    | [(pos, _)] => pos
    | e :: rest =>
        let '(most_common_pos, most_common_count) := first_most_common e rest in
        let total_params := Z.of_nat (List.length pd) in
        if (total_params <? 2 * most_common_count) && (2 <=? most_common_count)
        then most_common_pos
        else by_longest_param
    end
  else
    let has_quoted_params := existsb (fun p => name_is_quoted (p_line p)) pd in
    let longest_quote_chars := if has_quoted_params then 2 else 0 in
    indent_spaces + longest_param_name_length + longest_quote_chars + 1.

(** The body of the last loop of [_check_group_alignment] for one
    parameter. *)
Definition check_one_alignment (expected : Z) (indent_level : Z)
  (block_type : string) (block_start_line : Z) (block_lines : list string)
  (p : param) : exc (list error) :=
  let actual_line_num := block_start_line + Z.of_nat (p_idx p) + 1 in
  if p_equals_pos p =? expected then Some []
  else
    skip <- _should_skip_alignment_check (p_line p) (p_name p) (p_idx p)
              indent_level block_lines ;;
    if (skip : bool) then Some []
    else
      let indent_spaces := indent_level * 2 in
      let required_spaces_before_equals :=
        expected - indent_spaces - len (p_name p) in
      if p_equals_pos p <? expected then
        Some [(actual_line_num,
               msg_not_aligned block_type required_spaces_before_equals expected)]
      else Some [(actual_line_num, msg_too_many block_type expected)].

(** [for x in l: errors.extend(f x)], stopping at the first exception. *)
Fixpoint collect {A : Type} (f : A -> exc (list error)) (l : list A)
  : exc (list error) :=
  match l with
  | [] => Some []
  | x :: rest =>
      e <- f x ;;
      es <- collect f rest ;;
      Some (e ++ es)%list
  end.

Definition _check_group_alignment (group_lines : list entry) (indent_level : Z)
  (block_type : string) (block_start_line : Z) (block_lines : list string)
  : exc (list error) :=
  let pd := param_data group_lines in
  match pd with
  | [] => Some []
  | [p] =>
      let actual_line_num := block_start_line + Z.of_nat (p_idx p) + 1 in
      skip <- _should_skip_alignment_check (p_line p) (p_name p) (p_idx p)
                indent_level block_lines ;;
      if (skip : bool) then Some []
      else
        let before_equals := slice_to (p_line p) (p_equals_pos p) in
        let param_name_end := rstrip before_equals in
        let spaces_before_equals := len before_equals - len param_name_end in
        if negb (spaces_before_equals =? 1) then
          Some [(actual_line_num, msg_single_spacing block_type)]
        else Some []
  | _ =>
      let expected := expected_equals_location pd indent_level block_type in
      collect (check_one_alignment expected indent_level block_type
                 block_start_line block_lines) pd
  end.

(** *** Alignment within a section *)

(** The pattern [^\s*(data|resource|variable|output|locals|module)\s+]. *)
Definition block_decl_re : regex :=
  seqs [Bol; Star ws;
        Grp 1 (alts [lit "data"; lit "resource"; lit "variable"; lit "output";
                     lit "locals"; lit "module"]);
        plus ws].

(** The pattern [^\s*[a-zA-Z_][a-zA-Z0-9_]*\s*=\s*\{]. *)
Definition provider_entry_re : regex :=
  seqs [Bol; Star ws; Chr ident_start; Star (Chr ident_char); Star ws; chr "=";
        Star ws; chr "{"].

(** The first loop of [_check_parameter_alignment_in_section] computes
    nothing that is used, but it reads [block_lines[relative_line_idx]] for
    every parameter line of the section. *)
Definition section_index_check (section : list entry) (block_lines : list string)
  : exc unit :=
  match block_lines, section with
  | [], _ | _, [] => Some tt
  | _, _ =>
      if forallb
           (fun e : entry =>
              negb (contains "=" (fst e))
              || startswith "#" (strip (fst e))
              || match nth_error block_lines (snd e) with
                 | Some _ => true
                 | None => false
                 end) section
      then Some tt else None
  end.

(** The loop that extracts [parameter_lines] from the section. *)
Fixpoint parameter_lines_from (section : list entry) (hs : heredoc_state)
  (rest : list entry) : list entry :=
  match rest with
  | [] => []
  | (line_content, relative_line_idx) :: rest' =>
      let line := rstrip line_content in
      let line_stripped := strip line in
      let '(skip, hs') := heredoc_track hs line line_stripped in
      if skip then parameter_lines_from section hs' rest'
      else if contains "=" line && negb (startswith "#" line_stripped) then
        if is_match (re_match block_decl_re line) then
          parameter_lines_from section hs' rest'
        else if is_match (re_match provider_entry_re line)
                && existsb (fun e : entry => contains "required_providers" (fst e))
                     section
        then parameter_lines_from section hs' rest'
        else if startswith "(" line_stripped
                && (contains "==" line || contains "!=" line)
        then parameter_lines_from section hs' rest'
        else (line, relative_line_idx) :: parameter_lines_from section hs' rest'
      else parameter_lines_from section hs' rest'
  end.

Definition parameter_lines (section : list entry) : list entry :=
  parameter_lines_from section no_heredoc section.

(** [indent_spaces // 2] of the line with its tabs expanded. *)
Definition indent_level_of (line : string) : Z :=
  leading_ws (expandtabs line) / 2.

(** [indent_groups]: a dictionary from the indentation level to the lines at
    that level, in insertion order. *)
Fixpoint add_to_group (k : Z) (e : entry) (d : list (Z * list entry))
  : list (Z * list entry) :=
  match d with
  | [] => [(k, [e])]
  | (k', l) :: d' =>
      if k' =? k then (k', (l ++ [e])%list) :: d'
      else (k', l) :: add_to_group k e d'
  end.

Definition indent_groups (params : list entry) : list (Z * list entry) :=
  fold_left (fun d e => add_to_group (indent_level_of (fst e)) e d) params [].

(** [sorted(group_lines, key=lambda x: x[1])]: a stable sort. *)
Fixpoint insert_by_idx (e : entry) (l : list entry) : list entry :=
  match l with
  | [] => [e]
  | x :: l' =>
      if (snd e <? snd x)%nat then e :: x :: l'
      else x :: insert_by_idx e l'
  end.

Definition sorted_by_idx (l : list entry) : list entry :=
  fold_left (fun acc e => insert_by_idx e acc) l [].

(** Some line of [block_lines] strictly between the two indexes is blank. *)
Definition has_empty_line_between (block_lines : list string)
  (prev_line_idx relative_line_idx : nat) : bool :=
  existsb
    (fun check_idx =>
       match nth_error block_lines check_idx with
       | Some l => String.eqb (strip l) ""
       | None => false
       end)
    (seq (S prev_line_idx) (relative_line_idx - S prev_line_idx)).

(** The loop that cuts a sorted group at blank lines; the accumulator is
    [(sub_groups, current_sub_group, prev_line_idx)]. *)
Definition sub_group_step (block_lines : list string)
  (st : list (list entry) * list entry * option nat) (e : entry)
  : list (list entry) * list entry * option nat :=
  let '(sub_groups, current_sub_group, prev_line_idx) := st in
  match prev_line_idx, block_lines with
  | Some prev, _ :: _ =>
      if has_empty_line_between block_lines prev (snd e) then
        (match current_sub_group with
         | [] => sub_groups
         | _ => (sub_groups ++ [current_sub_group])%list
         end, [e], Some (snd e))
      else (sub_groups, (current_sub_group ++ [e])%list, Some (snd e))
  | _, _ => (sub_groups, (current_sub_group ++ [e])%list, Some (snd e))
  end.

Definition sub_groups_of (block_lines : list string) (group_lines_sorted : list entry)
  : list (list entry) :=
  let '(sub_groups, current_sub_group, _) :=
    fold_left (sub_group_step block_lines) group_lines_sorted ([], [], None) in
  match current_sub_group with
  | [] => sub_groups
  | _ => (sub_groups ++ [current_sub_group])%list
  end.

(** The errors of one sub-group: its alignment errors, then the spacing
    errors of each of its lines. *)
Definition check_sub_group (indent_level : Z) (block_type : string)
  (block_start_line : Z) (block_lines : list string) (sub_group : list entry)
  : exc (list error) :=
  group_errors <- _check_group_alignment sub_group indent_level block_type
                    block_start_line block_lines ;;
  Some (group_errors
        ++ flat_map (fun e : entry =>
                       _check_parameter_spacing (fst e) (snd e) block_type
                         block_start_line) sub_group)%list.

Definition check_indent_group (block_type : string) (block_start_line : Z)
  (block_lines : list string) (g : Z * list entry) : exc (list error) :=
  collect (check_sub_group (fst g) block_type block_start_line block_lines)
    (sub_groups_of block_lines (sorted_by_idx (snd g))).

Definition _check_parameter_alignment_in_section (section : list entry)
  (block_type : string) (block_start_line : Z) (block_lines : list string)
  : exc (list error) :=
  _ <- section_index_check section block_lines ;;
  collect (check_indent_group block_type block_start_line block_lines)
    (indent_groups (parameter_lines section)).

(** *** Comment removal *)

(** The index of the first [#] outside quotes, as the character scan of
    [_remove_comments_for_parsing] finds it. *)
Fixpoint comment_index (s : string) (i : nat) (prev : option ascii)
  (in_quotes : bool) (quote_char : ascii) : option nat :=
  match s with
  | EmptyString => None
  | String c s' =>
      if is_quote c
         && match prev with
            | None => true
            | Some b => negb (Ascii.eqb b "\")
            end
      then
        if negb in_quotes then comment_index s' (S i) (Some c) true c
        else if Ascii.eqb c quote_char then
          comment_index s' (S i) (Some c) false quote_char
        else comment_index s' (S i) (Some c) in_quotes quote_char
      else if Ascii.eqb c "#" && negb in_quotes then Some i
      else comment_index s' (S i) (Some c) in_quotes quote_char
  end.

Definition remove_comment (line : string) : string :=
  if contains "#" line then
    match comment_index line 0 None false " " with
    | Some i =>
        let stripped_before_comment := strip (take i line) in
        if String.eqb stripped_before_comment "" then line
        else rstrip (take i line)
    | None => line
    end
  else line.

Definition _remove_comments_for_parsing (content : string) : string :=
  join_lines (map remove_comment (split_lines content)).

(** *** Block extraction *)

Definition not_char (c : ascii) : ascii -> bool := fun a => negb (Ascii.eqb a c).

(** A type or a name of a header: double-quoted (group [g1]), single-quoted
    (group [g2]) or a bare identifier (group [g3]). *)
Definition label_re (g1 g2 g3 : nat) : regex :=
  alts [seqs [chr dquote; Grp g1 (plus (Chr (not_char dquote))); chr dquote];
        seqs [chr squote; Grp g2 (plus (Chr (not_char squote))); chr squote];
        Grp g3 (Seq (Chr ident_start) (Star (Chr ident_char)))].

Definition two_label_re (keyword : string) : regex :=
  seqs [lit keyword; plus ws; label_re 1 2 3; plus ws; label_re 4 5 6; Star ws;
        chr "{"].

Definition one_label_re (keyword : string) : regex :=
  seqs [lit keyword; plus ws; label_re 1 2 3; Star ws; chr "{"].

Definition no_label_re (keyword : string) : regex :=
  seqs [lit keyword; Star ws; chr "{"].

(** [m.group(a) if m.group(a) else (m.group(b) if m.group(b) else m.group(c))] *)
Definition first_group (c : caps) (g1 g2 g3 : nat) : string :=
  match get_cap g1 c with
  | Some s => s
  | None =>
      match get_cap g2 c with
      | Some s => s
      | None => match get_cap g3 c with Some s => s | None => "" end
      end
  end.

(** The [block_type] of a header line, [None] when no pattern matches. *)
Definition header_block_type (line : string) : option string :=
  match re_match (two_label_re "data") line with
  | Some c => Some ("data." ++ first_group c 1 2 3 ++ "." ++ first_group c 4 5 6)
  | None =>
  match re_match (two_label_re "resource") line with
  | Some c => Some ("resource." ++ first_group c 1 2 3 ++ "." ++ first_group c 4 5 6)
  | None =>
  match re_match (one_label_re "provider") line with
  | Some c => Some ("provider." ++ first_group c 1 2 3)
  | None =>
  if is_match (re_match (no_label_re "locals") line) then Some "locals"
  else if is_match (re_match (no_label_re "terraform") line) then Some "terraform"
  else
  match re_match (one_label_re "variable") line with
  | Some c => Some ("variable." ++ first_group c 1 2 3)
  | None =>
  match re_match (one_label_re "output") line with
  | Some c => Some ("output." ++ first_group c 1 2 3)
  | None => None
  end end end end end.

(** A block: [(block_type, start_line, block_lines)]. *)
Definition block : Type := (string * Z * list string)%type.

(** [block_lines[:-1]] when the last line is a lone closing brace. *)
Definition drop_closing_brace (block_lines : list string) : list string :=
  match rev block_lines with
  | last :: before =>
      if String.eqb (strip last) "}" then rev before else block_lines
  | [] => block_lines
  end.

(** The two loops of [_extract_code_blocks]: [scan_blocks] looks for a
    header at line [i]; [collect_block] gathers the body, one line at a
    time, until the running brace count returns to zero or the file ends. *)
Fixpoint scan_blocks (rest : list string) (i : Z) : list block :=
  match rest with
  | [] => []
  | l :: rest' =>
      let line := strip l in
      match header_block_type line with
      | Some block_type =>
          if contains "{" line && contains "}" line then
            (block_type, i + 1, []) :: scan_blocks rest' (i + 1)
          else collect_block block_type (i + 1) rest' (i + 1) 1 []
      | None => scan_blocks rest' (i + 1)
      end
  end
with collect_block (block_type : string) (start_line : Z) (rest : list string)
       (i : Z) (brace_count : Z) (block_lines : list string) : list block :=
  match rest with
  | [] => [(block_type, start_line, drop_closing_brace block_lines)]
  | current_line :: rest' =>
      let block_lines' := (block_lines ++ [current_line])%list in
      let brace_count' :=
        brace_count + count_char "{" current_line - count_char "}" current_line in
      if 0 <? brace_count' then
        collect_block block_type start_line rest' (i + 1) brace_count' block_lines'
      else
        (block_type, start_line, drop_closing_brace block_lines')
        :: scan_blocks rest' (i + 1)
  end.

Definition _extract_code_blocks (content : string) : list block :=
  scan_blocks (split_lines content) 0.

(** *** The partition of a block into sections: helpers *)

Definition function_patterns : list string :=
  ["jsonencode("; "merge("; "try("; "lookup("; "alltrue("; "anytrue(";
   "cidrsubnet("; "cidrhost("; "flatten("; "keys("; "values("; "zipmap("].

(** [line.split('=', 1)[1].strip()], for a line that contains an equals sign. *)
Definition after_first_equals (line : string) : string :=
  strip (slice_from line (find_char "=" line + 1)).

(** The line assigns a call of one of [function_patterns] whose text holds
    an opening brace or bracket. *)
Definition is_function_call_line (line : string) : bool :=
  contains "=" line
  && (let a := after_first_equals line in
      truthy a && existsb (fun p => startswith p a) function_patterns
      && (contains "{" a || contains "[" a)).

(** ['=' in line and not line.strip().startswith('#')] *)
Definition is_param_line (line : string) : bool :=
  contains "=" line && negb (startswith "#" (strip line)).

Definition blank_or_comment (line : string) : bool :=
  String.eqb (strip line) "" || startswith "#" (strip line).

(** The backward scans take the lines above the current one, nearest first. *)

(** Lines 411-432: the nearest line above with a smaller indentation is a
    function call. *)
Fixpoint nearest_lower_is_call (above : list string) (current_indent : Z) : bool :=
  match above with
  | [] => false
  | search_line :: above' =>
      if blank_or_comment search_line then nearest_lower_is_call above' current_indent
      else if leading_ws search_line <? current_indent then
        is_function_call_line search_line
      else nearest_lower_is_call above' current_indent
  end.

(** Lines 577-595 and 876-894: some line above, up to and including the
    nearest one with a smaller indentation, is a function call. *)
Fixpoint call_above (above : list string) (indent : Z) : bool :=
  match above with
  | [] => false
  | search_line :: above' =>
      if blank_or_comment search_line then call_above above' indent
      else if is_function_call_line search_line then true
      else if leading_ws search_line <? indent then false
      else call_above above' indent
  end.

(** Lines 1150-1173: the index of the function call the parameter is
    inside of; the call must be indented less than the parameter. *)
Fixpoint enclosing_call (above : list string) (current_indent : Z) : option nat :=
  match above with
  | [] => None
  | search_line :: above' =>
      if blank_or_comment search_line then enclosing_call above' current_indent
      else if is_function_call_line search_line
              && (leading_ws search_line <? current_indent)
      then Some (List.length above')
      else if leading_ws search_line <? current_indent then None
      else enclosing_call above' current_indent
  end.

(** Lines 1242-1261: as [call_above], with the index of the call. *)
Fixpoint call_above_idx (above : list string) (current_indent : Z) : option nat :=
  match above with
  | [] => None
  | search_line :: above' =>
      if blank_or_comment search_line then call_above_idx above' current_indent
      else if is_function_call_line search_line then Some (List.length above')
      else if leading_ws search_line <? current_indent then None
      else call_above_idx above' current_indent
  end.

(** Lines 1286-1307: a function call above whose stripped text is
    [function_call_line_content]. *)
Fixpoint same_call_above (above : list string) (next_indent : Z)
  (function_call_line_content : string) : bool :=
  match above with
  | [] => false
  | search_line :: above' =>
      if blank_or_comment search_line then
        same_call_above above' next_indent function_call_line_content
      else if is_function_call_line search_line
              && String.eqb (strip search_line) function_call_line_content
      then true
      else if leading_ws search_line <? next_indent then false
      else same_call_above above' next_indent function_call_line_content
  end.

(** The lines above index [idx], nearest first. *)
Definition lines_above (block_lines : list string) (idx : nat) : list string :=
  rev (firstn idx block_lines).

(** Some parameter line of the section has this indentation. *)
Definition has_param_at_indent (sec : list entry) (indent : Z) : bool :=
  existsb (fun e : entry => is_param_line (fst e) && (leading_ws (fst e) =? indent)) sec.

(** Some parameter line of the section has another indentation. *)
Definition has_different_indent (sec : list entry) (current_indent : Z) : bool :=
  existsb (fun e : entry =>
             is_param_line (fst e) && negb (leading_ws (fst e) =? current_indent)) sec.

(** [same_indent_section] and [different_indent_section]. *)
Definition same_indent_section (sec : list entry) (current_indent : Z) : list entry :=
  filter (fun e : entry =>
            negb (is_param_line (fst e)) || (leading_ws (fst e) =? current_indent)) sec.

Definition different_indent_section (sec : list entry) (current_indent : Z)
  : list entry :=
  filter (fun e : entry =>
            is_param_line (fst e) && negb (leading_ws (fst e) =? current_indent)) sec.

(** Lines 438-452: walking the current section backwards, a function call
    is met before a parameter at the current indentation. *)
Fixpoint section_call_before_sibling (rev_section : list entry) (current_indent : Z)
  : bool :=
  match rev_section with
  | [] => false
  | (prev_line, _) :: rest =>
      if is_param_line prev_line then
        if is_function_call_line prev_line then true
        else if leading_ws prev_line =? current_indent then false
        else section_call_before_sibling rest current_indent
      else section_call_before_sibling rest current_indent
  end.

(** *** The partition of a block into sections: the store

    [sections] and [section_stack] hold references to list objects, and the
    same list may be reachable from [sections], from [section_stack] and as
    [current_section] at once; an [append] to it is then seen through all
    of them.  A reference is an index into [heap]. *)

Record pstate : Type := mkP {
  heap : list (list entry);
  sections : list nat;
  current_section : nat;
  section_stack : list nat;
  brace_level : Z;
  bracket_level : Z;
  hstate : heredoc_state
}.

Definition initial_pstate : pstate :=
  mkP [[]] [] 0%nat [] 0 0 no_heredoc.

Definition deref (st : pstate) (r : nat) : list entry := nth r (heap st) [].

Definition current_value (st : pstate) : list entry := deref st (current_section st).

Definition is_empty {A : Type} (l : list A) : bool :=
  match l with [] => true | _ => false end.

Fixpoint update_nth {A : Type} (n : nat) (f : A -> A) (l : list A) : list A :=
  match l, n with
  | [], _ => []
  | x :: l', O => f x :: l'
  | x :: l', S n' => x :: update_nth n' f l'
  end.

Definition with_heap (st : pstate) (h : list (list entry)) : pstate :=
  mkP h (sections st) (current_section st) (section_stack st)
      (brace_level st) (bracket_level st) (hstate st).

Definition with_sections (st : pstate) (s : list nat) : pstate :=
  mkP (heap st) s (current_section st) (section_stack st)
      (brace_level st) (bracket_level st) (hstate st).

Definition with_current (st : pstate) (r : nat) : pstate :=
  mkP (heap st) (sections st) r (section_stack st)
      (brace_level st) (bracket_level st) (hstate st).

Definition with_stack (st : pstate) (k : list nat) : pstate :=
  mkP (heap st) (sections st) (current_section st) k
      (brace_level st) (bracket_level st) (hstate st).

Definition with_levels (st : pstate) (b k : Z) : pstate :=
  mkP (heap st) (sections st) (current_section st) (section_stack st) b k (hstate st).

Definition with_hstate (st : pstate) (h : heredoc_state) : pstate :=
  mkP (heap st) (sections st) (current_section st) (section_stack st)
      (brace_level st) (bracket_level st) h.

(** A new list object with the given content. *)
Definition alloc (st : pstate) (v : list entry) : nat * pstate :=
  (List.length (heap st), with_heap st (heap st ++ [v])%list).

(** [current_section.append(e)] *)
Definition append_current (st : pstate) (e : entry) : pstate :=
  with_heap st (update_nth (current_section st) (fun l => (l ++ [e])%list) (heap st)).

(** [current_section = v], a new list. *)
Definition set_current_new (st : pstate) (v : list entry) : pstate :=
  let '(r, st') := alloc st v in with_current st' r.

(** [sections.append(current_section)] *)
Definition push_section (st : pstate) : pstate :=
  with_sections st (sections st ++ [current_section st])%list.

(** [if current_section: sections.append(current_section); current_section = []] *)
Definition flush (st : pstate) : pstate :=
  if is_empty (current_value st) then st
  else set_current_new (push_section st) [].

(** [section_stack.append(list(current_section)); current_section = []] *)
Definition push_copy (st : pstate) : pstate :=
  let '(r, st') := alloc st (current_value st) in
  set_current_new (with_stack st' (section_stack st' ++ [r])%list) [].

(** [sections.append(current_section); section_stack.append(current_section);
    current_section = []]: the same object goes to both. *)
Definition push_alias (st : pstate) : pstate :=
  let st' := push_section st in
  set_current_new
    (with_stack st' (section_stack st' ++ [current_section st'])%list) [].

(** [current_section = section_stack.pop()], on a non-empty stack. *)
Definition pop_stack (st : pstate) : pstate :=
  match rev (section_stack st) with
  | [] => st
  | r :: below => with_current (with_stack st (rev below)) r
  end.

(** The split by indentation of lines 455-485, 492-522 and 633-652. *)
Definition split_by_indent (st : pstate) (current_indent : Z) : pstate :=
  let cs := current_value st in
  if has_different_indent cs current_indent then
    let same := same_indent_section cs current_indent in
    let different := different_indent_section cs current_indent in
    let st1 :=
      if is_empty different then st
      else let '(r, st') := alloc st different in
           with_sections st' (sections st' ++ [r])%list in
    set_current_new st1 same
  else st.

Fixpoint remove_nth {A : Type} (n : nat) (l : list A) : list A :=
  match l, n with
  | [], _ => []
  | _ :: l', O => l'
  | x :: l', S n' => x :: remove_nth n' l'
  end.

(** The index of the last section, if any, with a parameter at the
    indentation: the backward [for sec_idx] loops of lines 541-555 and
    663-677. *)
Fixpoint last_section_at_indent (st : pstate) (refs : list nat) (i : nat)
  (indent : Z) : option nat :=
  match refs with
  | [] => None
  | r :: refs' =>
      match last_section_at_indent st refs' (S i) indent with
      | Some j => Some j
      | None => if has_param_at_indent (deref st r) indent then Some i else None
      end
  end.

(** [sections.pop(sec_idx); current_section = prev_section], when found. *)
Definition merge_with_earlier_section (st : pstate) (current_indent : Z) : pstate :=
  match last_section_at_indent st (sections st) 0%nat current_indent with
  | Some sec_idx =>
      with_current (with_sections st (remove_nth sec_idx (sections st)))
        (nth sec_idx (sections st) 0%nat)
  | None => st
  end.

(** *** The partition of a block into sections: one line *)

(** [Continue] is the [continue] of the loop; [Go] falls through to the
    next statement of the body. *)
Inductive flow : Type :=
| Continue (st : pstate)
| Go (st : pstate).

(** Lines 340-368: the nesting levels after the line. *)
Definition update_level (level net_change : Z) : Z :=
  if 0 <? net_change then level + net_change
  else if net_change <? 0 then Z.max 0 (level + net_change)
  else level.

Definition braces_balanced_on (line : string) : bool :=
  (count_char "{" line =? count_char "}" line) && (0 <? count_char "{" line).

Definition brackets_balanced_on (line : string) : bool :=
  (count_char "[" line =? count_char "]" line) && (0 <? count_char "[" line).

(** Lines 375-386: a [list(object({] declaration. *)
Definition stage_list_object (line : string) (line_idx : nat) (st : pstate) : flow :=
  let stripped_line := strip line in
  if contains "list(" stripped_line && contains "object(" stripped_line
     && endswith "{" stripped_line
  then Continue (push_copy (append_current st (line, line_idx)))
  else Go st.

(** Lines 394-559: a [param = {] declaration. *)
Definition stage_object_decl (above : list string) (line : string) (st : pstate)
  : pstate :=
  let stripped_line := strip line in
  if (1 <=? brace_level st) && endswith "{" stripped_line
     && negb (braces_balanced_on line)
  then
    if contains "=" stripped_line then
      if String.eqb (after_first_equals stripped_line) "{" then
        let current_indent := leading_ws line in
        let is_inside_function_call := nearest_lower_is_call above current_indent in
        let is_inside_function_call :=
          if negb is_inside_function_call && negb (is_empty (current_value st))
          then section_call_before_sibling (rev (current_value st)) current_indent
          else is_inside_function_call in
        if negb is_inside_function_call then
          (if negb (is_empty (current_value st)) then split_by_indent st current_indent
           else st)
        else if negb (is_empty (current_value st)) then
          split_by_indent st current_indent
        else
          let prev_line_was_empty :=
            match above with
            | prev_line :: _ => String.eqb (strip prev_line) ""
            | [] => false
            end in
          if negb prev_line_was_empty && negb (is_empty (sections st))
          then merge_with_earlier_section st current_indent
          else st
      else st
    else st
  else st.

(** Lines 567-679: a [param = [] declaration. *)
Definition stage_array_decl (above : list string) (line : string) (st : pstate)
  : pstate :=
  let stripped_line := strip line in
  if (bracket_level st =? 1) && endswith "[" stripped_line
     && negb (brackets_balanced_on line)
  then
    if contains "=" stripped_line then
      if String.eqb (after_first_equals stripped_line) "[" then
        let current_indent := leading_ws line in
        let is_inside_function_call := call_above above current_indent in
        if negb (is_empty (current_value st)) then
          if has_different_indent (current_value st) current_indent then
            let should_keep_together :=
              (current_indent =? 2)
              && match above with
                 | prev_line_content :: _ =>
                     contains "]" (strip prev_line_content)
                     && has_param_at_indent (current_value st) current_indent
                 | [] => false
                 end in
            if negb should_keep_together then split_by_indent st current_indent
            else st
          else st
        else if is_inside_function_call then
          (if negb (is_empty (sections st))
           then merge_with_earlier_section st current_indent else st)
        else st
      else st
    else st
  else st.

(** Lines 687-708: a lone opening brace that starts an array element. *)
Definition stage_array_element (above : list string) (line : string) (st : pstate)
  : pstate :=
  let stripped_line := strip line in
  let is_inside_function_call_for_array :=
    match above with
    | prev_line_in_block :: _ =>
        is_param_line prev_line_in_block && is_function_call_line prev_line_in_block
    | [] => false
    end in
  if (1 <=? bracket_level st) && String.eqb stripped_line "{"
     && negb (contains "=" stripped_line) && negb (braces_balanced_on line)
     && negb is_inside_function_call_for_array
  then (if brace_level st =? 0 then flush st else st)
  else st.

(** Lines 715-784: the first parameter inside an object. *)
Definition stage_enter_body (line : string) (line_idx : nat) (st : pstate) : flow :=
  let stripped_line := strip line in
  if (1 <=? brace_level st) && contains "=" stripped_line
     && negb (endswith "{" stripped_line) && negb (endswith "[" stripped_line)
     && negb (braces_balanced_on line) && negb (brackets_balanced_on line)
  then
    match rev (current_value st) with
    | [] => Go st
    | (last_line_content, _) :: _ =>
        let current_indent := leading_ws line in
        let last_indent := leading_ws last_line_content in
        if contains "object(" last_line_content && contains "{" last_line_content then
          if negb (contains "list(" last_line_content) then
            (if last_indent <? current_indent then Go (push_alias st) else Go st)
          else if 1 <=? bracket_level st then
            (if contains "list(" last_line_content
                && contains "object(" last_line_content
             then Continue (push_copy (append_current st (line, line_idx)))
             else Go st)
          else Go st
        else if contains "=" last_line_content && endswith "{" last_line_content then
          (if last_indent <? current_indent then Go (push_alias st) else Go st)
        else Go st
    end
  else Go st.

(** The indentation of the first parameter of the section that holds
    [object(]. *)
Fixpoint declaration_indent (sec : list entry) : option Z :=
  match sec with
  | [] => None
  | (prev_line, _) :: sec' =>
      if is_param_line prev_line && contains "object(" prev_line
      then Some (leading_ws prev_line)
      else declaration_indent sec'
  end.

Definition mentions_description (sec : list entry) : bool :=
  existsb (fun e : entry => contains "description" (fst e)) sec.

Definition stack_top (st : pstate) : list entry :=
  match rev (section_stack st) with
  | r :: _ => deref st r
  | [] => []
  end.

(** Lines 791-939: a line that closes an object. *)
Definition stage_exit_object (above : list string) (next : option string)
  (line : string) (line_idx : nat) (st : pstate) : flow :=
  let stripped_line := strip line in
  if (startswith "}" stripped_line || contains "})" stripped_line
      || (endswith ")" stripped_line && contains "}" stripped_line))
     && negb (braces_balanced_on line) && negb (brackets_balanced_on line)
  then
    if negb (is_empty (section_stack st)) then
      let st1 := if is_empty (current_value st) then st else push_section st in
      let st2 := append_current (pop_stack st1) (line, line_idx) in
      Continue
        match next with
        | Some next_line =>
            if is_param_line next_line then
              let next_indent := leading_ws next_line in
              match declaration_indent (current_value st2) with
              | Some decl_indent =>
                  if next_indent =? decl_indent then st2
                  else if next_indent <? decl_indent then
                    if negb (is_empty (section_stack st2))
                       && negb (mentions_description (current_value st2))
                       && mentions_description (stack_top st2)
                    then append_current (pop_stack st2) (line, line_idx)
                    else st2
                  else st2
              | None => st2
              end
            else st2
        | None => st2
        end
    else if brace_level st =? 0 then
      let should_split :=
        match next with
        | Some next_line =>
            if is_param_line next_line then
              let next_indent := leading_ws next_line in
              let is_inside_function_call := call_above above next_indent in
              if is_inside_function_call then
                if negb (is_empty (current_value st)) then
                  negb (has_param_at_indent (current_value st) next_indent)
                else
                  negb (existsb (fun r => has_param_at_indent (deref st r) next_indent)
                          (sections st))
              else negb (has_param_at_indent (current_value st) next_indent)
            else true
        | None => true
        end in
      Go (if should_split then flush st else st)
    else Go st
  else Go st.

(** Lines 946-991: a line that closes an array. *)
Definition stage_exit_array (line : string) (prev_bracket_level : Z) (st : pstate)
  : pstate :=
  let stripped_line := strip line in
  if (bracket_level st =? 0)
     && (String.eqb stripped_line "]" || startswith "]" stripped_line)
  then
    if brace_level st =? 0 then
      if 0 <? prev_bracket_level then
        (if has_param_at_indent (current_value st) 2 then st else flush st)
      else flush st
    else st
  else st.

(** The body of the loop of [_split_into_code_sections] for the line at
    [line_idx]; [above] are the lines before it, nearest first, and [next]
    is the line after it. *)
Definition process_line (above : list string) (next : option string)
  (line_idx : nat) (line : string) (st : pstate) : pstate :=
  let prev_bracket_level := bracket_level st in
  let stripped_line := strip line in
  let '(skip, hs) := heredoc_track (hstate st) line stripped_line in
  let st := with_hstate st hs in
  if skip then st
  else if String.eqb stripped_line "" then flush st
  else if startswith "#" stripped_line then st
  else
    let net_brace_change := count_char "{" line - count_char "}" line in
    let net_bracket_change := count_char "[" line - count_char "]" line in
    let st := with_levels st (update_level (brace_level st) net_brace_change)
                (update_level (bracket_level st) net_bracket_change) in
    match stage_list_object line line_idx st with
    | Continue st => st
    | Go st =>
        let st := stage_object_decl above line st in
        let st := stage_array_decl above line st in
        let st := stage_array_element above line st in
        match stage_enter_body line line_idx st with
        | Continue st => st
        | Go st =>
            match stage_exit_object above next line line_idx st with
            | Continue st => st
            | Go st =>
                let st := stage_exit_array line prev_bracket_level st in
                append_current st (line, line_idx)
            end
        end
    end.

Fixpoint partition_loop (above : list string) (line_idx : nat) (rest : list string)
  (st : pstate) : pstate :=
  match rest with
  | [] => st
  | line :: rest' =>
      partition_loop (line :: above) (S line_idx) rest'
        (process_line above (hd_error rest') line_idx line st)
  end.

(** The sections at the end of the loop, with the last one added, as lists. *)
Definition raw_sections (block_lines : list string) : list (list entry) :=
  let st := partition_loop [] 0%nat block_lines initial_pstate in
  let st := if is_empty (current_value st) then st else push_section st in
  map (deref st) (sections st).

(** *** The partition of a block into sections: the passes over the result *)

Definition entry_eqb (a b : entry) : bool :=
  String.eqb (fst a) (fst b) && Nat.eqb (snd a) (snd b).

Definition entry_in (e : entry) (l : list entry) : bool := existsb (entry_eqb e) l.

(** The merge that skips what the target already holds (lines 1061-1065
    and 1316-1320). *)
Definition merge_missing (merged_sec next_sec : list entry) : list entry :=
  fold_left (fun acc e => if entry_in e acc then acc else (acc ++ [e])%list)
    next_sec merged_sec.

(** [max(idx for _, idx in sec) if sec else -1] and the like for [min]. *)
Definition max_idx (sec : list entry) : Z :=
  match sec with
  | [] => -1
  | e :: sec' => fold_left (fun m x => Z.max m (Z.of_nat (snd x))) sec' (Z.of_nat (snd e))
  end.

Definition min_idx (sec : list entry) : Z :=
  match sec with
  | [] => -1
  | e :: sec' => fold_left (fun m x => Z.min m (Z.of_nat (snd x))) sec' (Z.of_nat (snd e))
  end.

(** A section without any line that is neither blank nor a comment. *)
Definition is_empty_section (sec : list entry) : bool :=
  forallb (fun e : entry =>
             negb (truthy (strip (fst e)) && negb (startswith "#" (strip (fst e)))))
    sec.

(** Lines 1023-1111: the inner loop over the sections after [current_sec].
    It returns [merged_sec] and what is left of the list after it. *)
Fixpoint merge_following (attr_block_lines : list string)
  (current_sec merged_sec : list entry) (rest : list (list entry))
  : list entry * list (list entry) :=
  match rest with
  | [] => (merged_sec, [])
  | next_sec :: rest' =>
      if has_param_at_indent next_sec 2 then
        let current_sec_last_idx := max_idx current_sec in
        let next_sec_first_idx := min_idx next_sec in
        let has_empty_line_in_gap :=
          (0 <=? current_sec_last_idx) && (0 <=? next_sec_first_idx)
          && (1 <? next_sec_first_idx - current_sec_last_idx)
          && has_empty_line_between attr_block_lines
               (Z.to_nat current_sec_last_idx) (Z.to_nat next_sec_first_idx) in
        if has_empty_line_in_gap then (merged_sec, rest)
        else
          merge_following attr_block_lines current_sec
            (merge_missing merged_sec next_sec) rest'
      else if is_empty_section next_sec then (merged_sec, rest)
      else if has_param_at_indent next_sec 2 then (merged_sec, rest)
      else
        let '(m, r) :=
          merge_following attr_block_lines current_sec merged_sec rest' in
        (m, next_sec :: r)
  end.

(** Lines 1003-1120: the sections with top-level parameters (indentation 2)
    absorb the later ones that have some, unless a blank line lies between. *)
Fixpoint merge_top_level_sections (fuel : nat) (attr_block_lines : list string)
  (secs : list (list entry)) : list (list entry) :=
  match fuel with
  | O => secs
  | S fuel' =>
      match secs with
      | [] => []
      | current_sec :: rest =>
          if has_param_at_indent current_sec 2 then
            let '(merged_sec, rest') :=
              merge_following attr_block_lines current_sec current_sec rest in
            merged_sec :: merge_top_level_sections fuel' attr_block_lines rest'
          else current_sec :: merge_top_level_sections fuel' attr_block_lines rest
      end
  end.

(** A parameter inside a function call: the entry, its indentation, the
    index of the call line and the stripped call line. *)
Definition inside_param : Type := (entry * Z * nat * string)%type.

Definition line_at (block_lines : list string) (idx : nat) : string :=
  nth idx block_lines "".

Definition classify_param (block_lines : list string) (e : entry)
  : option inside_param :=
  let current_indent := leading_ws (line_at block_lines (snd e)) in
  match enclosing_call (lines_above block_lines (snd e)) current_indent with
  | Some function_call_line_idx =>
      Some (e, current_indent, function_call_line_idx,
            strip (line_at block_lines function_call_line_idx))
  | None => None
  end.

(** The members of the section kept with the given parameters: the
    parameters themselves and the other lines whose index lies between the
    first and the last of them. *)
Definition section_around (current_sec params non_param_lines : list entry)
  : list entry :=
  filter
    (fun e : entry =>
       entry_in e params
       || (entry_in e non_param_lines
           && negb (is_empty params)
           && (min_idx params <=? Z.of_nat (snd e))
           && (Z.of_nat (snd e) <=? max_idx params)))
    current_sec.

(** [function_call_groups]: a dictionary from [(call index, call line,
    indentation)] to the parameters inside that call, in insertion order. *)
Definition call_key : Type := (nat * string * Z)%type.

Definition call_key_eqb (a b : call_key) : bool :=
  let '(i, c, n) := a in
  let '(j, d, m) := b in
  Nat.eqb i j && String.eqb c d && (n =? m).

Fixpoint add_to_call_group (k : call_key) (e : entry)
  (d : list (call_key * list entry)) : list (call_key * list entry) :=
  match d with
  | [] => [(k, [e])]
  | (k', l) :: d' =>
      if call_key_eqb k' k then (k', (l ++ [e])%list) :: d'
      else (k', l) :: add_to_call_group k e d'
  end.

Definition function_call_groups (inside : list inside_param)
  : list (call_key * list entry) :=
  fold_left
    (fun d (p : inside_param) =>
       let '(e, indent, func_call_idx, func_call_content) := p in
       add_to_call_group (func_call_idx, func_call_content, indent) e d)
    inside [].

(** Lines 1130-1225: a section that mixes parameters inside function calls
    with others is split: first the others, then one section per call and
    indentation. *)
Definition separate_section (block_lines : list string) (current_sec : list entry)
  : list (list entry) :=
  let param_lines := filter (fun e : entry => is_param_line (fst e)) current_sec in
  if is_empty param_lines then [current_sec]
  else
    let non_param_lines :=
      filter (fun e : entry => negb (is_param_line (fst e))) current_sec in
    let params_inside_function :=
      flat_map (fun e => match classify_param block_lines e with
                         | Some p => [p]
                         | None => []
                         end) param_lines in
    let params_outside_function :=
      filter (fun e => match classify_param block_lines e with
                       | Some _ => false
                       | None => true
                       end) param_lines in
    let nonempty_sections (l : list (list entry)) :=
      filter (fun sec => negb (is_empty sec)) l in
    let outside_part :=
      if negb (is_empty params_outside_function)
         && negb (is_empty params_inside_function)
      then nonempty_sections
             [section_around current_sec params_outside_function non_param_lines]
      else [] in
    let inside_part :=
      nonempty_sections
        (map (fun g : call_key * list entry =>
                section_around current_sec (snd g) non_param_lines)
           (function_call_groups params_inside_function)) in
    let whole_part :=
      if negb (is_empty params_outside_function)
         && is_empty params_inside_function
      then [current_sec] else [] in
    (outside_part ++ inside_part ++ whole_part)%list.

(** Lines 1282-1312: the parameters of the next section are walked until
    one at the current indentation lies in the same function call, or one
    is indented less. *)
Fixpoint same_call_param (block_lines : list string) (current_indent : Z)
  (function_call_line_content : string) (next_param_lines : list entry) : bool :=
  match next_param_lines with
  | [] => false
  | (_, next_line_idx) :: rest =>
      let next_indent := leading_ws (line_at block_lines next_line_idx) in
      if next_indent =? current_indent then
        if same_call_above (lines_above block_lines next_line_idx) next_indent
             function_call_line_content
        then true
        else same_call_param block_lines current_indent function_call_line_content rest
      else if next_indent <? current_indent then false
      else same_call_param block_lines current_indent function_call_line_content rest
  end.

(** Lines 1271-1336: the inner loop over the sections after a section with
    a single parameter inside a function call. *)
Fixpoint merge_matching (block_lines : list string) (current_indent : Z)
  (function_call_line_content : string) (merged_sec : list entry)
  (rest : list (list entry)) : list entry * list (list entry) :=
  match rest with
  | [] => (merged_sec, [])
  | next_sec :: rest' =>
      let next_param_lines := filter (fun e : entry => is_param_line (fst e)) next_sec in
      match next_param_lines with
      | [] =>
          let '(m, r) := merge_matching block_lines current_indent
                           function_call_line_content merged_sec rest' in
          (m, next_sec :: r)
      | (_, next_line_idx) :: _ =>
          if same_call_param block_lines current_indent function_call_line_content
               next_param_lines
          then merge_matching block_lines current_indent function_call_line_content
                 (merge_missing merged_sec next_sec) rest'
          else if leading_ws (line_at block_lines next_line_idx) <? current_indent
          then (merged_sec, rest)
          else
            let '(m, r) := merge_matching block_lines current_indent
                             function_call_line_content merged_sec rest' in
            (m, next_sec :: r)
      end
  end.

(** Lines 1228-1348: a section with a single parameter inside a function
    call absorbs the later sections that hold a parameter at the same
    indentation inside the same call. *)
Fixpoint merge_call_sections (fuel : nat) (block_lines : list string)
  (secs : list (list entry)) : list (list entry) :=
  match fuel with
  | O => secs
  | S fuel' =>
      match secs with
      | [] => []
      | current_sec :: rest =>
          match filter (fun e : entry => is_param_line (fst e)) current_sec with
          | [(_, line_idx)] =>
              let current_indent := leading_ws (line_at block_lines line_idx) in
              match call_above_idx (lines_above block_lines line_idx) current_indent with
              | Some function_call_line_idx =>
                  let function_call_line_content :=
                    strip (line_at block_lines function_call_line_idx) in
                  let '(merged_sec, rest') :=
                    merge_matching block_lines current_indent
                      function_call_line_content current_sec rest in
                  merged_sec :: merge_call_sections fuel' block_lines rest'
              | None => current_sec :: merge_call_sections fuel' block_lines rest
              end
          | _ => current_sec :: merge_call_sections fuel' block_lines rest
          end
      end
  end.

(** *** The module state

    [_split_into_code_sections] stores its argument in the function
    attribute [_split_into_code_sections._block_lines], which outlives the
    call, and reads it back in its first pass over the result. *)
Record globals : Type := mkGlobals {
  attr_block_lines : option (list string)
}.

(** [getattr(_split_into_code_sections, '_block_lines', [])] *)
Definition getattr_block_lines (g : globals) : list string :=
  match attr_block_lines g with
  | Some l => l
  | None => []
  end.

Definition _split_into_code_sections (g : globals) (block_lines : list string)
  : list (list entry) * globals :=
  let g := mkGlobals (Some block_lines) in
  let sections := raw_sections block_lines in
  let sections :=
    merge_top_level_sections (List.length sections) (getattr_block_lines g) sections in
  let separated_sections := flat_map (separate_section block_lines) sections in
  let merged_sections :=
    merge_call_sections (List.length separated_sections) block_lines
      separated_sections in
  (merged_sections, g).

(** *** The entry point *)

(** [all_errors.sort(key=lambda x: x[0])]: a stable sort by line number. *)
Fixpoint insert_by_line (e : error) (l : list error) : list error :=
  match l with
  | [] => [e]
  | x :: l' =>
      if fst e <? fst x then e :: x :: l'
      else x :: insert_by_line e l'
  end.

Definition sort_by_line (l : list error) : list error :=
  fold_left (fun acc e => insert_by_line e acc) l [].

Definition error_eqb (a b : error) : bool :=
  (fst a =? fst b) && String.eqb (snd a) (snd b).

(** The loop over [all_errors] that keeps the first occurrence of each
    [(line_num, error_msg)]; [seen] are the keys met so far. *)
Fixpoint unique_errors_from (seen : list error) (l : list error) : list error :=
  match l with
  | [] => []
  | e :: l' =>
      if existsb (error_eqb e) seen then unique_errors_from seen l'
      else e :: unique_errors_from (e :: seen) l'
  end.

Definition unique_errors (l : list error) : list error := unique_errors_from [] l.

(** The errors of a block: its sections, each checked in turn.  The state
    of the module is threaded through the partition. *)
Definition check_block (g : globals) (b : block) : exc (list error) * globals :=
  let '(block_type, start_line, block_lines) := b in
  let '(sections, g') := _split_into_code_sections g block_lines in
  (collect (fun section =>
              _check_parameter_alignment_in_section section block_type start_line
                block_lines) sections, g').

Fixpoint check_blocks (g : globals) (blocks : list block)
  : exc (list error) * globals :=
  match blocks with
  | [] => (Some [], g)
  | b :: blocks' =>
      let '(errs, g1) := check_block g b in
      match errs with
      | None => (None, g1)
      | Some e =>
          let '(rest, g2) := check_blocks g1 blocks' in
          (match rest with
           | Some es => Some (e ++ es)%list
           | None => None
           end, g2)
      end
  end.

Definition report_errors (file_path : string) (errors : list error) : list report :=
  map (fun e : error => mkReport file_path "ST.003" (snd e) (fst e)) errors.

(* ------------------------------------------------------------------ *)
(** *** [.tfvars] files: alignment within a group *)

(** A member of a [.tfvars] group: [(actual_line_num, line)]. *)
Definition tentry : Type := (Z * string)%type.

Definition starts_with_quote (s : string) : bool :=
  startswith (String dquote "") s || startswith (String squote "") s.

Definition comparison_ops : list string :=
  ["=="; "!="; ">="; "<="; "=="; "!="; ">="; "<="].

(** Some comparison operator stands right after or right before the quote
    character [qc] in [s]. *)
Definition op_next_to_quote (qc : ascii) (s : string) : bool :=
  existsb (fun op => contains (String qc op) s || contains (op ++ String qc "") s)
    comparison_ops.

Definition _is_equals_in_string_value (line : string) : bool :=
  let equals_pos := find_char "=" line in
  if equals_pos =? -1 then false
  else
    let line_stripped := strip line in
    if startswith (String dquote "") line_stripped && op_next_to_quote dquote line
    then true
    else if startswith (String squote "") line_stripped && op_next_to_quote squote line
    then true
    else
      let after_equals := strip (slice_from line (equals_pos + 1)) in
      let before_equals := strip (slice_to line equals_pos) in
      if startswith (String dquote "") after_equals
         && op_next_to_quote dquote after_equals && negb (truthy before_equals)
      then true
      else if startswith (String squote "") after_equals
              && op_next_to_quote squote after_equals && negb (truthy before_equals)
      then true
      else false.

Definition msg_space_before (block_type : string) : string :=
  "Parameter assignment should have at least one space before '=' in " ++ block_type.

Definition msg_space_after (block_type : string) : string :=
  "Parameter assignment should have at least one space after '=' in " ++ block_type.

(** [len(after_equals) == 0 or not after_equals[0] == ' '] *)
Definition lacks_leading_space (after_equals : string) : bool :=
  match after_equals with
  | EmptyString => true
  | String c _ => negb (Ascii.eqb c " ")
  end.

Definition _check_parameter_spacing_tfvars (line : string) (actual_line_num : Z)
  (block_type : string) : list error :=
  let equals_pos := find_char "=" line in
  if equals_pos =? -1 then []
  else
    let before_equals_raw := slice_to line equals_pos in
    let before :=
      if negb (truthy (strip before_equals_raw)) || negb (endswith " " before_equals_raw)
      then [(actual_line_num, msg_space_before block_type)] else [] in
    let after_equals := slice_from line (equals_pos + 1) in
    let after :=
      if lacks_leading_space after_equals then
        [(actual_line_num, msg_space_after block_type)]
      else if (1 <? len after_equals) && String.eqb (slice_to after_equals 2) "  " then
        [(actual_line_num, msg_after_multiple block_type)]
      else [] in
    (before ++ after)%list.

(** One tuple of the [param_data] of a [.tfvars] group; [tp_equals_pos] is
    a column of the line with its tabs expanded. *)
Record tparam : Type := mkTParam {
  tp_name : string;
  tp_line : string;
  tp_line_num : Z;
  tp_equals_pos : Z;
  tp_should_skip : bool
}.

(** The patterns of a quoted and of a bare parameter name at the start of
    the text before the equals sign. *)
Definition quoted_name_re : regex :=
  seqs [Bol; Star ws; Grp 1 (Chr is_quote); Grp 2 (plus (Chr name_char)); Ref 1].

Definition bare_name_re : regex :=
  seqs [Bol; Star ws; Grp 1 (plus (Chr name_char))].

Definition tfvars_param_name (before_equals : string) : option string :=
  if starts_with_quote (strip before_equals)
  then group 2 (re_match quoted_name_re before_equals)
  else group 1 (re_match bare_name_re before_equals).

(** The tuple built for one line; [check_string_value] tells whether lines
    whose equals sign sits in a string value are dropped. *)
Definition tparam_of (check_string_value : bool) (e : tentry) : option tparam :=
  let '(actual_line_num, line) := e in
  let display_line := expandtabs line in
  let equals_pos := find_char "=" display_line in
  if equals_pos =? -1 then None
  else if check_string_value && _is_equals_in_string_value display_line then None
  else
    let before_equals := slice_to display_line equals_pos in
    if startswith "[" (strip before_equals)
       || (String.eqb (strip before_equals) "" && startswith "[" (strip line))
    then None
    else
      let after_equals := strip (slice_from display_line (equals_pos + 1)) in
      let is_object_or_array_decl :=
        startswith "[" after_equals || startswith "{" after_equals in
      let actual_indent := leading_ws line in
      let should_skip_from_expected_calc :=
        is_object_or_array_decl && (0 <? actual_indent) in
      match tfvars_param_name before_equals with
      | Some param_name =>
          Some (mkTParam param_name line actual_line_num equals_pos
                  should_skip_from_expected_calc)
      | None => None
      end.

Fixpoint tparam_data (check_string_value : bool) (group_lines : list tentry)
  : list tparam :=
  match group_lines with
  | [] => []
  | e :: rest =>
      match tparam_of check_string_value e with
      | Some p => p :: tparam_data check_string_value rest
      | None => tparam_data check_string_value rest
      end
  end.

(** The loop that keeps the first line of each line number. *)
Fixpoint unique_group_lines_from (seen_lines : list Z) (group_lines : list tentry)
  : list tentry :=
  match group_lines with
  | [] => []
  | (line_num, line) :: rest =>
      if existsb (Z.eqb line_num) seen_lines then
        unique_group_lines_from seen_lines rest
      else (line_num, line) :: unique_group_lines_from (line_num :: seen_lines) rest
  end.

Definition has_tab (p : tparam) : bool := contains (String tab "") (tp_line p).

(** [max] of a list of lengths that is not empty. *)
Definition max_len (l : list tparam) : Z :=
  fold_right (fun p acc => Z.max (len (tp_name p)) acc) 0 l.

(** The length that stands for the longest name (lines 2904-2930 and
    3032-3055): the longest among the lines that are neither nested
    declarations nor hold a tab, unless a nested declaration is at least 4
    longer. *)
Definition tfvars_longest (pd : list tparam) : Z :=
  let non_skipped_non_tab :=
    filter (fun p => negb (tp_should_skip p) && negb (has_tab p)) pd in
  if negb (is_empty non_skipped_non_tab) then
    let longest := max_len non_skipped_non_tab in
    let skipped := filter (fun p => tp_should_skip p && negb (has_tab p)) pd in
    if negb (is_empty skipped) then
      let longest_skipped_len := max_len skipped in
      if (longest <? longest_skipped_len) && (4 <=? longest_skipped_len - longest)
      then longest_skipped_len else longest
    else longest
  else
    let non_tab := filter (fun p => negb (has_tab p)) pd in
    if negb (is_empty non_tab) then max_len non_tab else max_len pd.

(** The text before the first equals sign of the line itself, stripped,
    starts with a quote of either kind. *)
Definition tfvars_name_is_quoted (line : string) : bool :=
  starts_with_quote (strip (slice_to line (find_char "=" line))).

Definition tfvars_quote_chars (pd : list tparam) : Z :=
  if existsb (fun p => tfvars_name_is_quoted (tp_line p)) pd then 2 else 0.

(** The formula column of a [.tfvars] group. *)
Definition tfvars_formula (pd : list tparam) (indent_level : Z) : Z :=
  indent_level * 2 + tfvars_longest pd + tfvars_quote_chars pd + 1.

(** [unique_equals_positions]: the columns of the lines without a tab,
    each with its number of lines, in insertion order. *)
Definition tfvars_positions (pd : list tparam) : list (Z * Z) :=
  fold_left (fun d p => if has_tab p then d else bump (tp_equals_pos p) d) pd [].

Definition tfvars_not_aligned (block_type : string) (indent_spaces expected : Z)
  (name_length : Z) (p : tparam) : list error :=
  if tp_equals_pos p <? expected then
    [(tp_line_num p,
      msg_not_aligned block_type (expected - indent_spaces - name_length) expected)]
  else if expected <? tp_equals_pos p then
    [(tp_line_num p, msg_too_many block_type expected)]
  else [].

(** Lines 2946-3011: every line without a tab sits at one column. *)
Definition tfvars_single_position (pd : list tparam) (indent_level : Z)
  (block_type : string) (aligned_position : Z) : list error :=
  let indent_spaces := indent_level * 2 in
  let expected_equals_location := tfvars_formula pd indent_level in
  let alignment :=
    if aligned_position <? expected_equals_location then
      flat_map
        (fun p =>
           if tp_should_skip p then []
           else if has_tab p then []
           else if negb (tp_equals_pos p =? expected_equals_location) then
             [(tp_line_num p,
               msg_not_aligned block_type
                 (expected_equals_location - indent_spaces - len (tp_name p))
                 expected_equals_location)]
           else []) pd
    else [] in
  let spacing :=
    flat_map
      (fun p =>
         if tp_should_skip p then []
         else if has_tab p then []
         else
           let original_equals_pos := find_char "=" (tp_line p) in
           if original_equals_pos =? -1 then []
           else if lacks_leading_space (slice_from (tp_line p) (original_equals_pos + 1))
           then [(tp_line_num p, msg_space_after block_type)]
           else []) pd in
  (alignment ++ spacing)%list.

(** Lines 3090-3137: the most common column is the expected one. *)
Definition tfvars_most_common (pd : list tparam) (indent_level : Z)
  (block_type : string) (most_common_pos most_common_count : Z) : list error :=
  let indent_spaces := indent_level * 2 in
  let expected_equals_location := most_common_pos in
  let alignment :=
    flat_map
      (fun p =>
         if tp_should_skip p then []
         else if negb (tp_equals_pos p =? expected_equals_location) then
           if (1 <? most_common_count) && (tp_equals_pos p =? most_common_pos) then []
           else if Z.abs (tp_equals_pos p - expected_equals_location) <=? 1 then []
           else tfvars_not_aligned block_type indent_spaces expected_equals_location
                  (len (tp_name p)) p
         else []) pd in
  let spacing :=
    flat_map
      (fun p =>
         if tp_should_skip p then []
         else if lacks_leading_space (slice_from (tp_line p) (tp_equals_pos p + 1))
         then [(tp_line_num p, msg_space_after block_type)]
         else []) pd in
  (alignment ++ spacing)%list.

(** Lines 3233-3263: the parameter stands right before a nested
    declaration whose length decided the formula column. *)
Definition should_align_with_next_decl (pd : list tparam) (actual_line_num : Z)
  : bool :=
  let fix after_current (l : list tparam) : option tparam :=
    match l with
    | [] => None
    | p :: l' =>
        if tp_line_num p =? actual_line_num then hd_error l'
        else after_current l'
    end in
  match after_current pd with
  | Some next_param =>
      tp_should_skip next_param
      && (tp_line_num next_param - actual_line_num =? 1)
      && (let skipped := filter (fun p => tp_should_skip p && negb (has_tab p)) pd in
          let non_skipped :=
            filter (fun p => negb (tp_should_skip p) && negb (has_tab p)) pd in
          negb (is_empty skipped)
          && (max_len non_skipped <? max_len skipped)
          && (4 <=? max_len skipped - max_len non_skipped))
  | None => false
  end.

(** Lines 3158-3288: the last loop, against the formula column. *)
Definition tfvars_against_formula (pd : list tparam) (indent_level : Z)
  (block_type : string) (use_most_common : bool)
  (most_common_pos most_common_count expected_equals_location : Z) : list error :=
  let indent_spaces := indent_level * 2 in
  flat_map
    (fun p =>
       let equals_pos := tp_equals_pos p in
       if tp_should_skip p then []
       else if equals_pos =? expected_equals_location then []
       else if use_most_common && (equals_pos =? most_common_pos) then []
       else if has_tab p then []
       else if negb (leading_ws (tp_line p) mod 2 =? 0) then []
       else
         let param_display_length :=
           len (tp_name p) + (if tfvars_name_is_quoted (tp_line p) then 2 else 0) in
         let non_tab_aligned_count :=
           Z.of_nat (List.length
                       (filter (fun x => (tp_equals_pos x =? equals_pos)
                                         && negb (has_tab x)) pd)) in
         let skip :=
           (2 <=? non_tab_aligned_count)
           && ((equals_pos =? expected_equals_location)
               || (use_most_common && (equals_pos =? most_common_pos))
               || (Z.abs (equals_pos - expected_equals_location) <=? 1)
               || (negb use_most_common
                   && negb (is_empty (tfvars_positions pd))
                   && (equals_pos =? most_common_pos)
                   && (non_tab_aligned_count <? most_common_count)
                   && ((equals_pos =? expected_equals_location)
                       || (Z.abs (equals_pos - expected_equals_location) <=? 1))
                   && negb (should_align_with_next_decl pd (tp_line_num p)))) in
         if skip then []
         else tfvars_not_aligned block_type indent_spaces expected_equals_location
                param_display_length p)
    pd.

Definition _check_group_alignment_tfvars (group_lines : list tentry)
  (indent_level : Z) (block_type : string) : list error :=
  let group_lines := unique_group_lines_from [] group_lines in
  let pd := tparam_data true group_lines in
  if (Z.of_nat (List.length pd) <? 2) then []
  else
    match tfvars_positions pd with
    | [(aligned_position, _)] =>
        tfvars_single_position pd indent_level block_type aligned_position
    | positions =>
        let '(most_common_pos, most_common_count) :=
          match positions with
          | e :: rest => first_most_common e rest
          | [] => (0, 0)
          end in
        let non_tab_count :=
          Z.of_nat (List.length (filter (fun p => negb (has_tab p)) pd)) in
        let total_params :=
          match positions with
          | _ :: _ => non_tab_count
          | [] => if non_tab_count =? 0 then Z.of_nat (List.length pd)
                  else non_tab_count
          end in
        let expected_based_on_longest := tfvars_formula pd indent_level in
        let majority :=
          (total_params <? 2 * most_common_count)
          || ((total_params =? 2) && (most_common_count =? 2)) in
        let use_most_common :=
          majority && negb (2 <=? Z.abs (most_common_pos - expected_based_on_longest)) in
        if use_most_common then
          tfvars_most_common pd indent_level block_type most_common_pos
            most_common_count
        else
          tfvars_against_formula pd indent_level block_type use_most_common
            most_common_pos most_common_count expected_based_on_longest
    end.

(** [_compute_expected_equals_location_tfvars]: [None] for a group without
    parameters. *)
Definition _compute_expected_equals_location_tfvars (group_lines : list tentry)
  (indent_level : Z) : option Z :=
  let pd := tparam_data false group_lines in
  if is_empty pd then None else Some (tfvars_formula pd indent_level).

(* ------------------------------------------------------------------ *)
(** *** [.tfvars] files: alignment within a section *)

(** [_has_blank_line_between(lines, start_line_idx, end_line_idx)], on
    zero-based indexes. *)
Definition _has_blank_line_between (lines : list string)
  (start_line_idx end_line_idx : nat) : bool :=
  has_empty_line_between lines start_line_idx end_line_idx.

(** The zero-based index of a line number ([line_num - 1]); line numbers
    start at 1. *)
Definition idx_of_num (line_num : Z) : nat := Z.to_nat (line_num - 1).

Definition blank_between_nums (lines : list string) (prev_line_num line_num : Z)
  : bool :=
  _has_blank_line_between lines (idx_of_num prev_line_num) (idx_of_num line_num).

(** An insertion-ordered dictionary with integer keys. *)
Fixpoint dict_get {A : Type} (k : Z) (d : list (Z * A)) : option A :=
  match d with
  | [] => None
  | (k', v) :: d' => if k' =? k then Some v else dict_get k d'
  end.

Fixpoint dict_set {A : Type} (k : Z) (v : A) (d : list (Z * A)) : list (Z * A) :=
  match d with
  | [] => [(k, v)]
  | (k', v') :: d' => if k' =? k then (k', v) :: d' else (k', v') :: dict_set k v d'
  end.

(** [d.setdefault(k, []).append(x)] *)
Definition dict_append {A : Type} (k : Z) (x : A) (d : list (Z * list A))
  : list (Z * list A) :=
  match dict_get k d with
  | Some l => dict_set k (l ++ [x])%list d
  | None => dict_set k [x] d
  end.

(** [if k not in d: d[k] = []] *)
Definition dict_ensure {A : Type} (k : Z) (d : list (Z * list A))
  : list (Z * list A) :=
  match dict_get k d with
  | Some _ => d
  | None => dict_set k [] d
  end.

(** A parameter line of a [.tfvars] section: [(line, actual_line_num)]. *)
Definition tline : Type := (string * Z)%type.

Fixpoint tfvars_parameter_lines (section : list tline) : list tline :=
  match section with
  | [] => []
  | (line_content, actual_line_num) :: rest =>
      let line := rstrip line_content in
      if contains "=" line && negb (startswith "#" (strip line))
         && negb (is_match (re_match block_decl_re line))
         && negb (_is_equals_in_string_value line)
      then (line, actual_line_num) :: tfvars_parameter_lines rest
      else tfvars_parameter_lines rest
  end.

(** The index of the first element equal to the parameter. *)
Fixpoint first_index_of (line : string) (num : Z) (pl : list tline) (i : nat)
  : option nat :=
  match pl with
  | [] => None
  | (pl_line, pl_line_num) :: pl' =>
      if (pl_line_num =? num) && String.eqb pl_line line then Some i
      else first_index_of line num pl' (S i)
  end.

(** The line number of the nearest parameter before position [current_idx]
    at the same indentation level. *)
Definition prev_same_level (pl : list tline) (current_idx : nat) (indent_level : Z)
  : option Z :=
  match find (fun e : tline => leading_ws (fst e) / 2 =? indent_level)
          (rev (firstn current_idx pl)) with
  | Some e => Some (snd e)
  | None => None
  end.

(** Lines 2683-2700: an opening brace, or a declaration [name = {], on
    some line of the range. *)
Definition opening_in_range (original_lines : list string) (from to : nat) : bool :=
  existsb
    (fun next_line_idx =>
       match nth_error original_lines next_line_idx with
       | Some next_line_raw =>
           let next_line := rstrip_comma (strip next_line_raw) in
           negb (startswith "#" next_line)
           && (String.eqb next_line "{"
               || (contains "=" next_line
                   && startswith "{"
                        (strip (slice_from next_line (find_char "=" next_line + 1)))))
       | None => false
       end)
    (seq from (to - from)).

(** Lines 2667-2702: between the two parameters an object closes at a
    smaller indentation and another opens. *)
Definition has_structural_boundary (original_lines : list string)
  (prev_same_level_line_num actual_line_num indent : Z) : bool :=
  let from := idx_of_num prev_same_level_line_num in
  let to := idx_of_num actual_line_num in
  existsb
    (fun check_line_idx =>
       match nth_error original_lines check_line_idx with
       | Some check_line_raw =>
           let check_line := rstrip_comma (strip check_line_raw) in
           negb (startswith "#" check_line)
           && String.eqb check_line "}"
           && (leading_ws check_line_raw <? indent)
           && opening_in_range original_lines (S check_line_idx) to
       | None => false
       end)
    (seq from (to - from)).

(** The state of the grouping loop: [(groups, current_groups,
    prev_line_num)]. *)
Definition grouping : Type :=
  (list (Z * list (list tentry)) * list (Z * list tentry) * option Z)%type.

Definition grouping_step (parameter_lines : list tline)
  (original_lines : list string) (st : grouping) (e : tline) : grouping :=
  let '(groups, current_groups, prev_line_num) := st in
  let '(line, actual_line_num) := e in
  let indent := leading_ws line in
  let indent_level := indent / 2 in
  if negb (indent mod 2 =? 0) then st
  else
    let split :=
      match prev_line_num with
      | None => false
      | Some _ =>
          match first_index_of line actual_line_num parameter_lines 0 with
          | None => false
          | Some current_idx =>
              match prev_same_level parameter_lines current_idx indent_level with
              | None => false
              | Some prev_same_level_line_num =>
                  blank_between_nums original_lines prev_same_level_line_num
                    actual_line_num
                  || ((0 <? indent_level)
                      && has_structural_boundary original_lines
                           prev_same_level_line_num actual_line_num indent)
              end
          end
      end in
    let '(groups, current_groups) :=
      if split then
        match dict_get indent_level current_groups with
        | Some (x :: g) =>
            (dict_append indent_level (x :: g) groups,
             dict_set indent_level [] current_groups)
        | _ => (groups, current_groups)
        end
      else (groups, current_groups) in
    (dict_ensure indent_level groups,
     dict_append indent_level (actual_line_num, line) current_groups,
     Some actual_line_num).

(** The groups of the section, each indentation level with its groups, in
    the order the last loop visits them. *)
Definition tfvars_groups (parameter_lines : list tline) (original_lines : list string)
  : list (Z * list (list tentry)) :=
  let '(groups, current_groups, _) :=
    fold_left (grouping_step parameter_lines original_lines) parameter_lines
      ([], [], None) in
  fold_left
    (fun groups (kv : Z * list tentry) =>
       match snd kv with
       | [] => groups
       | g => dict_append (fst kv) g groups
       end)
    current_groups groups.

(** [group_lines.sort()]: tuples ordered by line number, then by line. *)
Definition tentry_ltb (a b : tentry) : bool :=
  (fst a <? fst b) || ((fst a =? fst b) && String.ltb (snd a) (snd b)).

Fixpoint insert_tentry (e : tentry) (l : list tentry) : list tentry :=
  match l with
  | [] => [e]
  | x :: l' => if tentry_ltb e x then e :: x :: l' else x :: insert_tentry e l'
  end.

Definition sort_tentries (l : list tentry) : list tentry :=
  fold_left (fun acc e => insert_tentry e acc) l [].

Fixpoint lstrip_by (p : ascii -> bool) (s : string) : string :=
  match s with
  | String c s' => if p c then lstrip_by p s' else s
  | EmptyString => EmptyString
  end.

(** Lines 2736-2776: a single top-level object declaration measured against
    the column of the previous top-level group.  The result is the errors
    and whether the group is done with ([continue]). *)
Definition override_check (indent_level : Z) (block_type : string)
  (top_level_expected_override : option Z) (group_lines : list tentry)
  : list error * bool :=
  match group_lines, top_level_expected_override with
  | [(actual_line_num, line)], Some override =>
      if indent_level =? 0 then
        let display_line := expandtabs line in
        let equals_pos := find_char "=" display_line in
        let after_equals_strip :=
          if equals_pos =? -1 then ""
          else strip (slice_from display_line (equals_pos + 1)) in
        let spacing_errors :=
          _check_parameter_spacing_tfvars line actual_line_num block_type in
        if negb (equals_pos =? -1) && startswith "{" after_equals_strip
           && negb (contains (String tab "") line) && negb (equals_pos =? override)
        then
          let before_equals := slice_to display_line equals_pos in
          let name_len :=
            if starts_with_quote (strip before_equals) then
              match group 2 (re_match quoted_name_re before_equals) with
              | Some param_name => len param_name + 2
              | None =>
                  len (lstrip_by is_quote (rstrip_by is_quote (strip before_equals))) + 2
              end
            else len (strip before_equals) in
          let indent_spaces := indent_level * 2 in
          let required_spaces_before_equals := override - indent_spaces - name_len in
          if required_spaces_before_equals <? 0 then (spacing_errors, false)
          else
            ((actual_line_num,
              msg_not_aligned block_type required_spaces_before_equals override)
             :: spacing_errors, true)
        else (spacing_errors, false)
      else ([], false)
  | _, _ => ([], false)
  end.

Definition check_tfvars_group (indent_level : Z) (block_type : string)
  (top_level_expected_override : option Z) (group_lines : list tentry)
  : list error :=
  let group_lines := sort_tentries group_lines in
  let '(override_errors, done) :=
    override_check indent_level block_type top_level_expected_override group_lines in
  if done then override_errors
  else
    (override_errors
     ++ _check_group_alignment_tfvars group_lines indent_level block_type
     ++ flat_map (fun e : tentry =>
                    _check_parameter_spacing_tfvars (snd e) (fst e) block_type)
          group_lines)%list.

Definition _check_tfvars_parameter_alignment_in_section (section : list tline)
  (block_type : string) (top_level_expected_override : option Z)
  (original_lines : list string) : list error :=
  let parameter_lines := tfvars_parameter_lines section in
  flat_map
    (fun kv : Z * list (list tentry) =>
       flat_map (check_tfvars_group (fst kv) block_type top_level_expected_override)
         (snd kv))
    (tfvars_groups parameter_lines original_lines).

(* ------------------------------------------------------------------ *)
(** *** [.tfvars] files: the scan of the file *)

Definition boundary_markers : list string := ["{"; "}"; "["; "]"].

Definition is_marker (s : string) : bool := existsb (String.eqb s) boundary_markers.

(** Lines 2022-2053: the assignment lines and the lone braces and brackets,
    with their line numbers; heredoc bodies are left out. *)
Fixpoint assignment_lines_from (hs : heredoc_state) (i : Z) (lines : list string)
  : list tentry :=
  match lines with
  | [] => []
  | line :: rest =>
      let line_stripped := strip line in
      let '(skip, hs') := heredoc_track hs line line_stripped in
      if skip then assignment_lines_from hs' (i + 1) rest
      else if truthy line_stripped && contains "=" line_stripped then
        (i + 1, line) :: assignment_lines_from hs' (i + 1) rest
      else if is_marker (rstrip_comma line_stripped) then
        (i + 1, line) :: assignment_lines_from hs' (i + 1) rest
      else assignment_lines_from hs' (i + 1) rest
  end.

(** [_section_has_top_level_param] *)
Definition _section_has_top_level_param (sec : list tentry) : bool :=
  existsb (fun e : tentry => contains "=" (snd e) && (leading_ws (snd e) =? 0)) sec.

(** Lines 2084-2092: the levels after the characters of the line, one
    character at a time. *)
Fixpoint char_levels (s : string) (brace_level bracket_level : Z) : Z * Z :=
  match s with
  | EmptyString => (brace_level, bracket_level)
  | String c s' =>
      if Ascii.eqb c "{" then char_levels s' (brace_level + 1) bracket_level
      else if Ascii.eqb c "}" then char_levels s' (Z.max 0 (brace_level - 1)) bracket_level
      else if Ascii.eqb c "[" then char_levels s' brace_level (bracket_level + 1)
      else if Ascii.eqb c "]" then char_levels s' brace_level (Z.max 0 (bracket_level - 1))
      else char_levels s' brace_level bracket_level
  end.

(** The local variables of the grouping loop. *)
Record tstate : Type := mkT {
  t_sections : list (list tentry);
  t_current : list tentry;
  t_brace_level : Z;
  t_bracket_level : Z;
  t_top_level_indent : Z
}.

(** The last top-level parameter of a section (an equals sign, no
    indentation), walking backwards. *)
Definition last_top_level_param (sec : list tentry) : option tentry :=
  find (fun e : tentry => contains "=" (snd e) && (leading_ws (snd e) =? 0)) (rev sec).

Definition first_top_level_param (sec : list tentry) : option tentry :=
  find (fun e : tentry => contains "=" (snd e) && (leading_ws (snd e) =? 0)) sec.

(** [line[line.find('=') + 1:].strip()] *)
Definition after_equals_of (line : string) : string :=
  strip (slice_from line (find_char "=" line + 1)).

(** The last top-level parameter of the section that declares an array. *)
Definition last_top_level_array_decl (sec : list tentry) : option Z :=
  match find (fun e : tentry =>
                contains "=" (snd e) && (leading_ws (snd e) =? 0)
                && startswith "[" (after_equals_of (snd e))) (rev sec) with
  | Some e => Some (fst e)
  | None => None
  end.

(** A line number that is not [None] and, as an [int], not zero. *)
Definition num_truthy (n : option Z) : bool :=
  match n with
  | Some z => negb (z =? 0)
  | None => false
  end.

(** Lines 2374-2389: the line after which a gap is looked for, when the
    current section holds top-level parameters. *)
Fixpoint anchor_in_current (whole : list tentry) (rev_section : list tentry)
  : option Z :=
  match rev_section with
  | [] => None
  | (prev_ln, prev_l) :: rest =>
      if contains "=" prev_l && (leading_ws prev_l =? 0) then Some prev_ln
      else if String.eqb (rstrip_comma (strip prev_l)) "]" && (leading_ws prev_l =? 0)
      then
        let prev_line_num := last_top_level_array_decl whole in
        if num_truthy prev_line_num then prev_line_num
        else anchor_in_current whole rest
      else anchor_in_current whole rest
  end.

(** Lines 2247-2268: the nearest earlier parameter of the current section;
    for a top-level line, the nearest one without indentation. *)
Definition nearest_param (is_top_level : bool) (sec : list tentry) : option Z :=
  match find (fun e : tentry =>
                contains "=" (snd e)
                && (negb is_top_level || (leading_ws (snd e) =? 0))) (rev sec) with
  | Some e => Some (fst e)
  | None => None
  end.

Definition last_line_num (sec : list tentry) : option Z :=
  match rev sec with
  | e :: _ => Some (fst e)
  | [] => None
  end.

Definition last_section (secs : list (list tentry)) : option (list tentry) :=
  match rev secs with
  | x :: _ => Some x
  | [] => None
  end.

Definition drop_last {A : Type} (l : list A) : list A := removelast l.

Definition gap_after (lines : list string) (prev_line_num : option Z) (line_num : Z)
  : bool :=
  match prev_line_num with
  | Some p => blank_between_nums lines p line_num
  | None => false
  end.

(** [sections.append(current_section); current_section = [(line_num, line)]] *)
Definition start_new_section (st : tstate) (e : tentry) : tstate :=
  mkT (t_sections st ++ [t_current st])%list [e]
      (t_brace_level st) (t_bracket_level st) (t_top_level_indent st).

(** The same, guarded by [if current_section]. *)
Definition start_new_section_if (st : tstate) (e : tentry) : tstate :=
  mkT (if is_empty (t_current st) then t_sections st
       else (t_sections st ++ [t_current st])%list)
      [e] (t_brace_level st) (t_bracket_level st) (t_top_level_indent st).

Definition append_line (st : tstate) (e : tentry) : tstate :=
  mkT (t_sections st) (t_current st ++ [e])%list
      (t_brace_level st) (t_bracket_level st) (t_top_level_indent st).

(** Lines 2211-2420: the regular grouping of a line that is not a lone
    brace or bracket. *)
Definition regular_grouping (lines : list string) (prev_brace_level
  prev_bracket_level : Z) (line_num : Z) (line : string) (st : tstate) : tstate :=
  let stripped_line := strip line in
  let line_indent := leading_ws line in
  let e := (line_num, line) in
  let current_section := t_current st in
  let sections := t_sections st in
  if is_empty current_section then
    mkT sections [e] (t_brace_level st) (t_bracket_level st) line_indent
  else
    let at_top := (prev_brace_level =? 0) && (prev_bracket_level =? 0) in
    let is_top_level :=
      (line_indent =? t_top_level_indent st) && contains "=" stripped_line
      && (at_top || (line_indent =? 0)) in
    let is_object_param :=
      contains "=" stripped_line && (1 <=? prev_brace_level)
      && negb (startswith "#" (strip stripped_line)) in
    if is_top_level || is_object_param then
      let prev_line_num := nearest_param is_top_level current_section in
      let prev_line_num :=
        match prev_line_num, last_section sections with
        | None, Some prev_section =>
            if is_top_level then
              match last_top_level_param prev_section with
              | Some p => Some (fst p)
              | None => None
              end
            else None
        | _, _ => prev_line_num
        end in
      let prev_line_num :=
        match prev_line_num with
        | None => last_line_num current_section
        | Some _ => prev_line_num
        end in
      let has_gap := gap_after lines prev_line_num line_num in
      if has_gap && at_top then start_new_section st e
      else if is_top_level && negb (_section_has_top_level_param current_section)
              && negb (is_empty sections)
      then
        match last_section sections with
        | Some prev_section =>
            if negb (is_empty prev_section) && _section_has_top_level_param prev_section
            then
              let last_top_level_line_num :=
                match last_top_level_param prev_section with
                | Some p => Some (fst p)
                | None => None
                end in
              if negb (gap_after lines last_top_level_line_num line_num) then
                mkT (drop_last sections) (prev_section ++ current_section ++ [e])%list
                    (t_brace_level st) (t_bracket_level st) (t_top_level_indent st)
              else start_new_section_if st e
            else start_new_section_if st e
        | None => start_new_section_if st e
        end
      else if is_top_level && _section_has_top_level_param current_section then
        let prev_line_num := anchor_in_current current_section (rev current_section) in
        if gap_after lines prev_line_num line_num && at_top then start_new_section st e
        else append_line st e
      else if is_object_param && _section_has_top_level_param current_section
              && negb is_top_level
      then start_new_section st e
      else append_line st e
    else
      if gap_after lines (last_line_num current_section) line_num
      then start_new_section st e
      else append_line st e.

(** The body of the grouping loop (lines 2073-2420). *)
Definition tfvars_group_line (lines : list string) (st : tstate) (e : tentry)
  : tstate :=
  let '(line_num, line) := e in
  let stripped_line := strip line in
  let stripped_for_boundary := rstrip_comma stripped_line in
  let prev_brace_level_saved := t_brace_level st in
  let prev_bracket_level_saved := t_bracket_level st in
  let '(brace_level, bracket_level) :=
    char_levels stripped_line (t_brace_level st) (t_bracket_level st) in
  let st := mkT (t_sections st) (t_current st) brace_level bracket_level
              (t_top_level_indent st) in
  if endswith "[" stripped_line && (bracket_level =? 1) && contains "=" stripped_line
     && String.eqb (after_first_equals stripped_line) "["
  then append_line st e
  else
    let st :=
      if (1 <=? bracket_level) && String.eqb stripped_for_boundary "{"
         && negb (contains "=" stripped_line)
         && negb (is_empty (t_current st))
         && negb (_section_has_top_level_param (t_current st))
      then mkT (t_sections st ++ [t_current st])%list [] brace_level bracket_level
               (t_top_level_indent st)
      else st in
    let st :=
      if (bracket_level =? 0) && (0 <? prev_bracket_level_saved)
         && (prev_brace_level_saved =? 0)
      then
        match last_section (t_sections st) with
        | Some prev_section =>
            if negb (is_empty prev_section) && _section_has_top_level_param prev_section
            then mkT (drop_last (t_sections st)) (prev_section ++ t_current st)%list
                     brace_level bracket_level (t_top_level_indent st)
            else st
        | None => st
        end
      else st in
    let is_boundary_marker :=
      is_marker stripped_for_boundary && negb (contains "=" stripped_line) in
    if is_boundary_marker then
      if negb (is_empty (t_current st)) then append_line st e
      else
        match last_section (t_sections st) with
        | Some last =>
            mkT (drop_last (t_sections st) ++ [(last ++ [e])%list])%list (t_current st)
                brace_level bracket_level (t_top_level_indent st)
        | None => mkT (t_sections st) [e] brace_level bracket_level
                    (t_top_level_indent st)
        end
    else
      regular_grouping lines prev_brace_level_saved prev_bracket_level_saved
        line_num line st.

(** Lines 2432-2482: a section with top-level parameters joins the one
    before it when that one ends, at top level, on an array or object
    declaration and no blank line lies between. *)
Definition final_merge_step (lines : list string) (merged_sections : list (list tentry))
  (section : list tentry) : list (list tentry) :=
  match last_section merged_sections with
  | None => (merged_sections ++ [section])%list
  | Some prev_section =>
      let merge :=
        negb (is_empty prev_section) && _section_has_top_level_param prev_section
        && match last_top_level_param prev_section, first_top_level_param section with
           | Some (last_top_level_line_num, last_top_level_line),
             Some (first_top_level_line_num, _) =>
               let after_equals := after_equals_of last_top_level_line in
               (startswith "[" after_equals || startswith "{" after_equals)
               && negb (blank_between_nums lines last_top_level_line_num
                          first_top_level_line_num)
           | _, _ => false
           end in
      if merge then (drop_last merged_sections ++ [(prev_section ++ section)%list])%list
      else (merged_sections ++ [section])%list
  end.

Definition tfvars_sections (lines : list string) (assignment_lines : list tentry)
  : list (list tentry) :=
  let st := fold_left (tfvars_group_line lines) assignment_lines (mkT [] [] 0 0 0) in
  let sections :=
    if is_empty (t_current st) then t_sections st
    else (t_sections st ++ [t_current st])%list in
  fold_left (final_merge_step lines) sections [].

(* ------------------------------------------------------------------ *)
(** *** [.tfvars] files: the check of the sections and the report *)

(** The three variables the loop over the sections carries along. *)
Record ostate : Type := mkO {
  last_top_level_expected : option Z;
  last_top_level_group_size : option Z;
  last_multi_param_section_idx : option nat
}.

Definition is_top_level_param_line (e : tentry) : bool :=
  contains "=" (snd e) && (leading_ws (snd e) =? 0)
  && negb (startswith "#" (strip (snd e))).

(** Lines 2533-2548: a top-level object declaration lies between the last
    section with two top-level parameters and this one. *)
Definition has_other_top_level_object_decls (sections : list (list tentry))
  (last_idx section_idx : nat) (last_multi_param_last_line_num
  current_first_line_num : Z) : bool :=
  existsb
    (fun check_idx =>
       existsb
         (fun e : tentry =>
            (last_multi_param_last_line_num <? fst e)
            && (fst e <? current_first_line_num)
            && is_top_level_param_line e
            && startswith "{" (after_equals_of (snd e)))
         (nth check_idx sections []))
    (seq (S last_idx) (section_idx - S last_idx)).

(** Lines 2503-2577: the override of the section and the new values of the
    carried variables. *)
Definition section_override (lines : list string) (sections : list (list tentry))
  (os : ostate) (section_idx : nat) (section : list tentry) : option Z * ostate :=
  let top_level_params :=
    filter (fun e : tentry =>
              is_param_line (snd e) && (leading_ws (snd e) / 2 =? 0)) section in
  let n := Z.of_nat (List.length top_level_params) in
  if 2 <=? n then
    (None,
     mkO (_compute_expected_equals_location_tfvars top_level_params 0) (Some n)
         (Some section_idx))
  else if n =? 1 then
    match last_top_level_expected os, last_top_level_group_size os,
          last_multi_param_section_idx os with
    | Some expected, Some size, Some last_idx =>
        if 2 <=? size then
          let last_multi_param_section := nth last_idx sections [] in
          let last_multi_param_last_line_num :=
            match last_line_num last_multi_param_section with
            | Some z => z
            | None => 0
            end in
          let current_first_line_num :=
            match section with
            | e :: _ => fst e
            | [] => 0
            end in
          let has_other :=
            has_other_top_level_object_decls sections last_idx section_idx
              last_multi_param_last_line_num current_first_line_num in
          let has_blank_line_between_sections :=
            negb has_other
            && match find is_top_level_param_line (rev last_multi_param_section),
                     find is_top_level_param_line section with
               | Some a, Some b => blank_between_nums lines (fst a) (fst b)
               | _, _ => false
               end in
          (if negb has_other && negb has_blank_line_between_sections
           then Some expected else None, os)
        else (None, os)
    | _, _, _ => (None, os)
    end
  else (None, os).

(** Lines 2582-2585: only the first error of a line is kept, over all the
    sections. *)
Fixpoint keep_unprocessed (processed_lines : list Z) (errors : list error)
  : list error * list Z :=
  match errors with
  | [] => ([], processed_lines)
  | (line_num, msg) :: rest =>
      if existsb (Z.eqb line_num) processed_lines then
        keep_unprocessed processed_lines rest
      else
        let '(kept, processed) := keep_unprocessed (line_num :: processed_lines) rest in
        ((line_num, msg) :: kept, processed)
  end.

(** The loop over the sections; [section[0]] raises on an empty section. *)
Fixpoint tfvars_all_errors (lines : list string) (sections : list (list tentry))
  (os : ostate) (section_idx : nat) (processed_lines : list Z)
  (rest : list (list tentry)) : exc (list error) :=
  match rest with
  | [] => Some []
  | [] :: _ => None
  | section :: rest' =>
      let converted_section := map (fun e : tentry => (snd e, fst e)) section in
      let '(top_level_override, os') :=
        section_override lines sections os section_idx section in
      let errors :=
        _check_tfvars_parameter_alignment_in_section converted_section "tfvars"
          top_level_override lines in
      let '(kept, processed) := keep_unprocessed processed_lines errors in
      later <- tfvars_all_errors lines sections os' (S section_idx) processed rest' ;;
      Some (kept ++ later)%list
  end.

Definition _check_tfvars_parameter_alignment (file_path content : string)
  : exc (list report) :=
  let lines := split_lines content in
  let assignment_lines := assignment_lines_from no_heredoc 0 lines in
  if is_empty assignment_lines then Some []
  else
    let sections := tfvars_sections lines assignment_lines in
    all_errors <- tfvars_all_errors lines sections (mkO None None None) 0%nat []
                    sections ;;
    Some (report_errors file_path (sort_by_line all_errors)).

(** [check_st003_parameter_alignment(file_path, content, log_error_func)]:
    the calls of [log_error_func], in order, or the exception raised before
    any call; with it, the state of the module after the run. *)
Definition check_st003_parameter_alignment (g : globals) (file_path content : string)
  : exc (list report) * globals :=
  let clean_content := _remove_comments_for_parsing content in
  if endswith ".tfvars" file_path then
    (_check_tfvars_parameter_alignment file_path clean_content, g)
  else
    let blocks := _extract_code_blocks clean_content in
    let '(all_errors, g') := check_blocks g blocks in
    (match all_errors with
     | Some errs => Some (report_errors file_path (unique_errors (sort_by_line errs)))
     | None => None
     end, g').

(* ------------------------------------------------------------------ *)
(** *** [_is_inside_block_structure_tfvars] *)

(** The loop over [range(current_line_num - 2, -1, -1)]: [n] indexes are
    left to visit, the next one is [n - 1]; the two counts run over the
    lines visited so far. *)
Fixpoint inside_block_scan (all_lines : list string) (n : nat)
  (brace_count bracket_count : Z) : bool :=
  match n with
  | O => false
  | S i =>
      match nth_error all_lines i with
      | None => inside_block_scan all_lines i brace_count bracket_count
      | Some l =>
          let line := strip l in
          if negb (truthy line) then
            inside_block_scan all_lines i brace_count bracket_count
          else
            let brace_count :=
              brace_count + count_char "{" line - count_char "}" line in
            let bracket_count :=
              bracket_count + count_char "[" line - count_char "]" line in
            if (0 <? brace_count) || (0 <? bracket_count) then true
            else if endswith "{" line || endswith "[" line then
              contains "=" line && (contains "{" line || contains "[" line)
            else inside_block_scan all_lines i brace_count bracket_count
      end
  end.

Definition _is_inside_block_structure_tfvars (current_line : string)
  (all_lines : list string) (current_line_num : Z) : bool :=
  let stripped := strip current_line in
  if (contains "=" stripped || startswith "{" stripped || startswith "}" stripped)
     && negb (startswith "#" stripped)
  then inside_block_scan all_lines (Z.to_nat (current_line_num - 1)) 0 0
  else false.

End Rule003.

(* ================================================================== *)
(** * Notions used by the statements *)
(* ================================================================== *)

Module Notions.
Import PyStr Re.









(** A block with a heredoc whose start line is indented by 6 spaces, and
    the same block with a plain value on that line. *)
Definition heredoc_example : string :=
  "locals {" ++ String nl "      content = <<EOT" ++ String nl "text"
  ++ String nl "EOT" ++ String nl "}".

Definition plain_example : string :=
  "locals {" ++ String nl "      content = 1" ++ String nl "}".

(** The exemptions of [_should_skip_alignment_check], when no index is out
    of range: a tab in the line, an odd indentation, an indentation of 4
    under a line that mentions ST.005, or a meta-parameter name. *)
Definition exempt (block_lines : list string) (p : Rule003.param) : bool :=
  Rule003._has_st004_issue (Rule003.p_line p)
  || negb (leading_ws (Rule003.p_line p) mod 2 =? 0)
  || ((leading_ws (Rule003.p_line p) =? 4)
      && negb (Rule003.is_empty block_lines)
      && (0 <? Rule003.p_idx p)%nat
      && contains "ST.005" (nth (Rule003.p_idx p - 1) block_lines ""))
  || existsb (String.eqb (Rule003.p_name p)) Rule003.meta_parameters.

(** The line number of a parameter of a block that starts at
    [block_start_line]. *)
Definition line_number (block_start_line : Z) (p : Rule003.param) : Z :=
  block_start_line + Z.of_nat (Rule003.p_idx p) + 1.

(** The column of the claim: the indentation, the longest name, two more
    when some name is quoted, and one. *)
Definition formula_column (pd : list Rule003.param) (indent_level : Z) : Z :=
  indent_level * 2 + Rule003.longest_name_length pd
  + (if existsb (fun p => Rule003.name_is_quoted (Rule003.p_line p)) pd
     then 2 else 0)
  + 1.

(** The error of a parameter away from the expected column. *)
Definition misaligned_error (expected indent_level : Z) (block_type : string)
  (block_start_line : Z) (p : Rule003.param) : Rule003.error :=
  (line_number block_start_line p,
   if Rule003.p_equals_pos p <? expected then
     Rule003.msg_not_aligned block_type
       (expected - indent_level * 2 - len (Rule003.p_name p)) expected
   else Rule003.msg_too_many block_type expected).

(** The whitespace between the name and the equals sign:
    [len(before_equals) - len(before_equals.rstrip())]. *)
Definition spaces_before_equals (p : Rule003.param) : Z :=
  let before_equals := slice_to (Rule003.p_line p) (Rule003.p_equals_pos p) in
  len before_equals - len (rstrip before_equals).

(** The text after the first equals sign starts with one space and not
    with two. *)
Definition one_space_after (line : string) : Prop :=
  let after_equals := slice_from line (find_char "=" line + 1) in
  startswith " " after_equals = true /\ startswith "  " after_equals = false.

(** The group of example E1, its lines, and the same after realignment. *)
Definition e1_lines : list string := ["  a = 1"; "  bb = 2"].
Definition e1_group : list Rule003.entry := [("  a = 1", 0%nat); ("  bb = 2", 1%nat)].

(** A group with a meta-parameter away from the expected column. *)
Definition meta_group : list Rule003.entry :=
  [("  count = 1", 0%nat); ("  longer_name = 2", 1%nat)].

(** A group whose single member is a meta-parameter with two spaces before
    the equals sign. *)
Definition count_group : list Rule003.entry := [("  count  = 1", 0%nat)].

(** A group whose single member has two spaces before the equals sign. *)
Definition name_group : list Rule003.entry := [("  name  = 1", 0%nat)].

(** A section with a parameter that has no space after the equals sign and
    one that has two. *)
Definition spacing_section : list Rule003.entry :=
  [("  a =1", 0%nat); ("  b =  2", 1%nat)].

(** The calls of the report callback a run makes: none when the run
    raises, since the checker reports after all its checks. *)
Definition reported (r : Rule003.exc (list report)) : list report :=
  match r with
  | Some l => l
  | None => []
  end.

(** Diagnostics in ascending order of line number. *)
Definition ascending (l : list report) : Prop :=
  StronglySorted (fun a b => r_line a <= r_line b) l.

(** No two diagnostics with the same line number and message. *)
Definition no_duplicate (l : list report) : Prop :=
  NoDup (map (fun r => (r_line r, r_msg r)) l).

(** Example E1, and the same file realigned. *)
Definition e1_content : string :=
  "resource " ++ String dquote "x" ++ String dquote " " ++ String dquote "y"
  ++ String dquote " {" ++ String nl "  a = 1" ++ String nl "  bb = 2"
  ++ String nl "}".

Definition e1_realigned : string :=
  "resource " ++ String dquote "x" ++ String dquote " " ++ String dquote "y"
  ++ String dquote " {" ++ String nl "  a  = 1" ++ String nl "  bb = 2"
  ++ String nl "}".

(** Errors in ascending order of line number. *)
Definition by_line (a b : Rule003.error) : Prop := fst a <= fst b.

(** The parameters of a [.tfvars] group, as [_check_group_alignment_tfvars]
    builds them. *)
Definition tfvars_members (group_lines : list Rule003.tentry) : list Rule003.tparam :=
  Rule003.tparam_data true (Rule003.unique_group_lines_from [] group_lines).












(** The alignment groups of a [.tfvars] file, each with its indentation
    level, as [_check_tfvars_parameter_alignment] and
    [_check_tfvars_parameter_alignment_in_section] form them. *)
Definition groups_of_file (content : string) : list (Z * list Rule003.tentry) :=
  let lines := split_lines (Rule003._remove_comments_for_parsing content) in
  let sections :=
    Rule003.tfvars_sections lines
      (Rule003.assignment_lines_from Rule003.no_heredoc 0 lines) in
  flat_map
    (fun section =>
       flat_map
         (fun kv : Z * list (list Rule003.tentry) =>
            map (fun g => (fst kv, Rule003.sort_tentries g)) (snd kv))
         (Rule003.tfvars_groups
            (Rule003.tfvars_parameter_lines
               (map (fun e : Rule003.tentry => (snd e, fst e)) section))
            lines))
    sections.

(** A string without a line feed: one line of a file. *)
Definition single_line (s : string) : bool := negb (contains (String nl "") s).

(** The report moved one line down when it lies after line [k]. *)
Definition shift_after (k : Z) (r : report) : report :=
  if k <? r_line r then mkReport (r_file r) (r_rule r) (r_msg r) (r_line r + 1)
  else r.

(** A heredoc of a [.tf] file: its two body lines hold braces and an odd
    indentation. *)
Definition heredoc_body_example : list string :=
  ["   }}} text {"; "x = {"].

(** The block [b] was found in the lines [rest], whose first line has the
    zero-based index [i] in the file: its header is a line of [rest], its
    start line is the number of that line, and its body is a run of the
    lines right after the header. *)
Definition block_in_lines (rest : list string) (i : Z) (b : Rule003.block) : Prop :=
  exists k header tail,
    nth_error rest k = Some header
    /\ snd (fst b) = i + Z.of_nat k + 1
    /\ Rule003.header_block_type (strip header) = Some (fst (fst b))
    /\ skipn (S k) rest = (snd b ++ tail)%list.

(** The block [a] ends before the header of the block [b]. *)
Definition block_before (a b : Rule003.block) : Prop :=
  snd (fst a) + Z.of_nat (List.length (snd a)) < snd (fst b).

(** A [.tfvars] group of two lines, and the same with its first line number
    met again. *)
Definition two_line_group : list Rule003.tentry :=
  [(1, "a = 1"); (2, "bbb = 2")].

Definition repeated_lines : list Rule003.tentry :=
  [(1, "zzzzzzzz   = 3"); (2, "bbb = 2")].

(** The heredoc tracker the scans share, started in [hs]: its state after
    the lines, and whether it makes a scan that starts outside any heredoc
    skip the line of index [i]. *)
Definition tracker_after (hs : Rule003.heredoc_state) (lines : list string)
  : Rule003.heredoc_state :=
  fold_left (fun h line => snd (Rule003.heredoc_track h line (strip line))) lines hs.

Definition tracker_skips (lines : list string) (i : nat) : bool :=
  match nth_error lines i with
  | Some line =>
      fst (Rule003.heredoc_track (tracker_after Rule003.no_heredoc (firstn i lines))
             line (strip line))
  | None => false
  end.

(** The entry is a line of the block, paired with its own index, and not a
    line the heredoc tracker of the partition skips. *)
Definition entry_of_block (block_lines : list string) (e : Rule003.entry) : Prop :=
  nth_error block_lines (snd e) = Some (fst e)
  /\ tracker_skips block_lines (snd e) = false.

(** Every list object of the store holds entries of the block only. *)
Definition heap_of_block (block_lines : list string) (st : Rule003.pstate) : Prop :=
  Forall (Forall (entry_of_block block_lines)) (Rule003.heap st).

(** The state a stage of the loop body hands over. *)
Definition flow_state (f : Rule003.flow) : Rule003.pstate :=
  match f with
  | Rule003.Continue st => st
  | Rule003.Go st => st
  end.

(** The entry of a [.tfvars] scan is a line of the file with its line
    number, and not a line the heredoc tracker of the scan skips. *)
Definition tentry_of_file (lines : list string) (e : Rule003.tentry) : Prop :=
  1 <= fst e /\ nth_error lines (Z.to_nat (fst e - 1)) = Some (snd e)
  /\ tracker_skips lines (Z.to_nat (fst e - 1)) = false.

(** Sections that are not empty and hold lines of the file only. *)
Definition sections_of_file (lines : list string) (secs : list (list Rule003.tentry))
  : Prop :=
  Forall (fun s => s <> [] /\ Forall (tentry_of_file lines) s) secs.

(** A [.tfvars] content and a block content with a heredoc whose body
    holds a misaligned assignment. *)
Definition tfvars_heredoc_content : string :=
  "a = <<EOT" ++ String nl "x   =1" ++ String nl "EOT" ++ String nl "b = 2".

Definition block_heredoc_content : string :=
  "locals {" ++ String nl "  a = <<EOT" ++ String nl "x   =1" ++ String nl "EOT"
  ++ String nl "}".

(** A block whose parameter is indented by three spaces. *)
Definition odd_indent_content : string :=
  "locals {" ++ String nl "   a = 1" ++ String nl "}".

(** A file whose only block is a [module] block, with misaligned
    parameters, and a block with a commented-out misaligned assignment. *)
Definition module_content : string :=
  "module " ++ String dquote "m" ++ String dquote " {" ++ String nl "  a = 1"
  ++ String nl "  bbb = 2" ++ String nl "}".

Definition commented_content : string :=
  "locals {" ++ String nl "  a   = 1" ++ String nl "  # bbbbbb = 2"
  ++ String nl "  cc  = 3" ++ String nl "}".

(** Lines of a [.tfvars] file with a heredoc between two assignments. *)
Definition tracker_example : list string :=
  ["a = 1"; "b = <<EOT"; "x   =1"; "  EOT"; "c = 2"].

(** The line number and the message of a diagnostic. *)
Definition pair_of (r : report) : Rule003.error := (r_line r, r_msg r).

(** The errors the alignment checker collects from the blocks of a block
    file, in the order of the blocks, before it sorts and deduplicates
    them. *)
Definition collected_in_blocks (g : Rule003.globals) (content : string)
  : Rule003.exc (list Rule003.error) :=
  fst (Rule003.check_blocks g
         (Rule003._extract_code_blocks (Rule003._remove_comments_for_parsing content))).

(** The errors the checks of the sections of a [.tfvars] file return, in
    the order of the sections, before the entry point drops those whose
    line number it has met. *)
Fixpoint tfvars_collected (lines : list string) (sections : list (list Rule003.tentry))
  (os : Rule003.ostate) (section_idx : nat) (rest : list (list Rule003.tentry))
  : list Rule003.error :=
  match rest with
  | [] => []
  | section :: rest' =>
      let converted_section := map (fun e : Rule003.tentry => (snd e, fst e)) section in
      let '(top_level_override, os') :=
        Rule003.section_override lines sections os section_idx section in
      (Rule003._check_tfvars_parameter_alignment_in_section converted_section "tfvars"
         top_level_override lines
       ++ tfvars_collected lines sections os' (S section_idx) rest')%list
  end.

Definition collected_in_tfvars (content : string) : list Rule003.error :=
  let lines := split_lines (Rule003._remove_comments_for_parsing content) in
  let assignment_lines := Rule003.assignment_lines_from Rule003.no_heredoc 0 lines in
  if Rule003.is_empty assignment_lines then []
  else
    let sections := Rule003.tfvars_sections lines assignment_lines in
    tfvars_collected lines sections (Rule003.mkO None None None) 0 sections.

(** [e] stands in [l], and no error before it in [l] has its line number. *)
Definition first_of_line (l : list Rule003.error) (e : Rule003.error) : Prop :=
  exists before after,
    l = (before ++ e :: after)%list /\ ~ In (fst e) (map fst before).

(** A [.tfvars] file whose first line lacks the spaces around its equals
    sign and whose second line has two spaces after it. *)
Definition unspaced_tfvars : string := "a=1" ++ String nl "bb =  2".

End Notions.

(* ================================================================== *)
(** * Properties *)
(* ================================================================== *)

Import PyStr Re Notions.

(* ------------------------------------------------------------------ *)
(** ** Strings *)

Lemma append_nil_r (s : string) : (s ++ "")%string = s.
Proof. induction s as [|c s IH]; simpl; [reflexivity | now rewrite IH]. Qed.

Lemma length_append (s t : string) :
  String.length (s ++ t) = (String.length s + String.length t)%nat.
Proof. induction s as [|c s IH]; simpl; [reflexivity | now rewrite IH]. Qed.

(** A string is not itself followed by something. *)
Lemma append_neq_self (s t : string) : t <> "" -> (s ++ t)%string <> s.
Proof.
  intros Ht H. apply (f_equal String.length) in H.
  rewrite length_append in H. destruct t; [congruence | simpl in H; lia].
Qed.

Lemma append_inj_l (s t u : string) : (s ++ t)%string = (s ++ u)%string -> t = u.
Proof. induction s as [|c s IH]; simpl; intros H; [exact H | injection H; auto]. Qed.

(* ------------------------------------------------------------------ *)
(** ** ST.005: the scan of a file *)

Section Indentation.
Import Rule005.

Variable file_path : string.
Variable is_tfvars_file : bool.
Variable lines : list string.

(** An error is logged with the number of the line being validated. *)
Lemma scan_line_reports st n line r :
  In r (snd (scan_line file_path is_tfvars_file lines st n line)) -> r_line r = n.
Proof.
  unfold scan_line.
  destruct (String.eqb (strip line) ""); [intros []|].
  destruct (in_heredoc _); [intros []|].
  destruct (startswith "#" (strip line)); [intros []|].
  destruct (_get_indentation_level line =? -1); [intros []|].
  cbn [snd]. unfold _validate_line_indentation.
  destruct (validate_expected _ _ _ _ _ _); [|intros []].
  intros [<-|[]]. reflexivity.
Qed.

(** Every error of the scan was logged by the iteration on some line, and
    carries the number of that line. *)
Lemma scan_lines_origin rest : forall st n r,
  In r (scan_lines file_path is_tfvars_file lines st n rest) ->
  exists k line st',
    nth_error rest k = Some line /\ r_line r = n + Z.of_nat k /\
    In r (snd (scan_line file_path is_tfvars_file lines st' (n + Z.of_nat k) line)).
Proof.
  induction rest as [|line rest IH]; intros st n r Hin; [destruct Hin|].
  simpl in Hin.
  destruct (scan_line file_path is_tfvars_file lines st n line) as [[st1 fate] errs] eqn:E.
  apply in_app_or in Hin. destruct Hin as [Hin|Hin].
  - exists 0%nat, line, st. simpl. rewrite Z.add_0_r, E. cbn [snd].
    repeat split; auto.
    apply (scan_line_reports st n line). now rewrite E.
  - destruct (IH _ _ _ Hin) as (k & l & st' & Hk & Hr & Hin').
    exists (S k), l, st'. simpl nth_error.
    replace (n + Z.of_nat (S k)) with (n + 1 + Z.of_nat k) by lia. auto.
Qed.

(** The line numbers of the scan increase strictly. *)
Lemma scan_lines_lower_bound rest : forall st n r,
  In r (scan_lines file_path is_tfvars_file lines st n rest) -> n <= r_line r.
Proof.
  intros st n r Hin. destruct (scan_lines_origin _ _ _ _ Hin) as (k & _ & _ & _ & -> & _).
  lia.
Qed.

Lemma scan_line_at_most_one st n line :
  (List.length (snd (scan_line file_path is_tfvars_file lines st n line)) <= 1)%nat.
Proof.
  unfold scan_line.
  destruct (String.eqb (strip line) ""); [simpl; lia|].
  destruct (in_heredoc _); [simpl; lia|].
  destruct (startswith "#" (strip line)); [simpl; lia|].
  destruct (_get_indentation_level line =? -1); [simpl; lia|].
  cbn [snd]. unfold _validate_line_indentation.
  destruct (validate_expected _ _ _ _ _ _); simpl; lia.
Qed.

Lemma scan_lines_strictly_sorted rest : forall st n,
  StronglySorted (fun a b => r_line a < r_line b)
    (scan_lines file_path is_tfvars_file lines st n rest).
Proof.
  induction rest as [|line rest IH]; intros st n; [constructor|].
  simpl.
  destruct (scan_line file_path is_tfvars_file lines st n line) as [[st1 fate] errs] eqn:E.
  pose proof (scan_line_at_most_one st n line) as Hlen.
  pose proof (scan_line_reports st n line) as Hn.
  rewrite E in Hlen, Hn. cbn [snd] in Hlen, Hn.
  destruct errs as [|e [|e' errs]]; simpl in *; try lia.
  - apply IH.
  - constructor; [apply IH|].
    apply Forall_forall. intros r Hr.
    apply scan_lines_lower_bound in Hr. rewrite (Hn e) by auto. lia.
Qed.

End Indentation.

(* ------------------------------------------------------------------ *)
(** ** ST.005: lines indented with a tab *)





(* ------------------------------------------------------------------ *)
(** ** ST.005: the expected indentation *)

Lemma count_char_nonneg (c : ascii) (s : string) : 0 <= count_char c s.
Proof. induction s as [|a s IH]; simpl; [lia | destruct (Ascii.eqb a c); lia]. Qed.

Lemma indentation_from_cases (s : string) : forall k,
  0 <= k -> Rule005.indentation_from s k = -1 \/ 0 <= Rule005.indentation_from s k.
Proof.
  induction s as [|c s IH]; intros k Hk; simpl; [right; lia|].
  destruct (Ascii.eqb c " "); [apply IH; lia|].
  destruct (Ascii.eqb c tab); [left; reflexivity | right; lia].
Qed.






(* ------------------------------------------------------------------ *)
(** ** Heredocs *)

(** In the indentation checker a line that starts a heredoc is one of the
    skipped lines: the state it is tested against is the state after it. *)
Lemma indentation_scan_skips_heredoc_start file_path is_tfvars_file lines st n line c :
  String.eqb (strip line) "" = false ->
  Rule005.in_heredoc (Rule005.heredoc st) = false ->
  re_search Rule005.heredoc_start_re line = Some c ->
  exists st',
    Rule005.scan_line file_path is_tfvars_file lines st n line
    = (st', Rule005.InHeredoc, [])
    /\ Rule005.brace_level st' = Rule005.brace_level st
    /\ Rule005.bracket_level st' = Rule005.bracket_level st.
Proof.
  intros Hblank Hout Hstart. unfold Rule005.scan_line.
  rewrite Hblank. unfold Rule005._check_heredoc_state. rewrite Hout, Hstart.
  simpl. eexists. split; [reflexivity|]. split; reflexivity.
Qed.

(** In the alignment checker the tracker does not skip the line that
    starts a heredoc, skips the lines after it, and does not skip the
    terminator. *)
Lemma alignment_tracker_keeps_heredoc_start hs line line_stripped c :
  Rule003.in_heredoc hs = false ->
  re_search Rule003.heredoc_start_re line = Some c ->
  Rule003.heredoc_track hs line line_stripped
  = (false, Rule003.mkHeredoc true (get_cap 1 c)).
Proof.
  intros Hout Hstart. unfold Rule003.heredoc_track. rewrite Hout.
  simpl. rewrite Hout, Hstart. reflexivity.
Qed.

Lemma alignment_tracker_skips_body t line line_stripped :
  String.eqb line_stripped t = false ->
  Rule003.heredoc_track (Rule003.mkHeredoc true (Some t)) line line_stripped
  = (true, Rule003.mkHeredoc true (Some t)).
Proof.
  intros Hne. unfold Rule003.heredoc_track. simpl. rewrite Hne, andb_false_r.
  reflexivity.
Qed.

Lemma alignment_tracker_keeps_terminator t line :
  t <> "" ->
  fst (Rule003.heredoc_track (Rule003.mkHeredoc true (Some t)) line t) = false.
Proof.
  intros Hne. unfold Rule003.heredoc_track. simpl.
  rewrite String.eqb_refl.
  assert (Ht : truthy t = true).
  { unfold truthy. destruct (String.eqb_spec t ""); [contradiction | reflexivity]. }
  rewrite Ht. simpl. destruct (re_search _ _); reflexivity.
Qed.

(** C2 (the code at the failing input). The start line of the heredoc of
    [heredoc_example] is indented by 6 spaces at depth 1.  The indentation
    checker skips it ([InHeredoc]) and logs nothing for it; its only error
    is for the terminator.  With a plain value on the same line the line is
    flagged; and the tracker of the alignment checker does not skip the
    start line. *)
Theorem heredoc_start_line_is_suppressed :
  Rule005.check_st005_indentation_level "main.tf" heredoc_example
  = [mkReport "main.tf" "ST.005"
       "Indentation level incorrect. Current indentation: 0 spaces, Expected: 2 spaces"
       4]
  /\ snd (fst (Rule005.scan_line "main.tf" false (split_lines heredoc_example)
                 (Rule005.mkScan (Rule005.mkHeredoc false None) 1 0) 2
                 "      content = <<EOT")) = Rule005.InHeredoc
  /\ Rule005.check_st005_indentation_level "main.tf" plain_example
     = [mkReport "main.tf" "ST.005"
          "Indentation level incorrect. Current indentation: 6 spaces, Expected: 2 spaces"
          2]
  /\ Rule003.heredoc_track Rule003.no_heredoc "      content = <<EOT"
       "content = <<EOT"
     = (false, Rule003.mkHeredoc true (Some "EOT")).
Proof. repeat split; vm_compute; reflexivity. Qed.

(* ------------------------------------------------------------------ *)
(** ** ST.003: parameters and exemptions *)

Lemma find_char_from_bounds (c : ascii) (s : string) : forall i,
  find_char_from c s i = -1 \/ i <= find_char_from c s i.
Proof.
  induction s as [|a s IH]; intros i; simpl; [left; reflexivity|].
  destruct (Ascii.eqb a c); [right; lia|].
  destruct (IH (i + 1)) as [H|H]; [left; exact H | right; lia].
Qed.

Lemma param_of_fields (e : Rule003.entry) (p : Rule003.param) :
  Rule003.param_of e = Some p ->
  Rule003.p_line p = fst e /\ Rule003.p_idx p = snd e
  /\ Rule003.p_equals_pos p = find_char "=" (fst e)
  /\ find_char "=" (fst e) <> -1.
Proof.
  destruct e as [line idx]. unfold Rule003.param_of.
  destruct (Z.eqb_spec (find_char "=" line) (-1)) as [|Hne]; [discriminate|].
  destruct (_ || _); [discriminate|].
  destruct (Rule003.is_expression_content line); [discriminate|].
  destruct (group 2 _); [|discriminate].
  intros [= <-]. simpl. auto.
Qed.

Lemma param_data_in (group_lines : list Rule003.entry) (p : Rule003.param) :
  In p (Rule003.param_data group_lines) ->
  exists e, In e group_lines /\ Rule003.param_of e = Some p.
Proof.
  induction group_lines as [|e rest IH]; simpl; [intros []|].
  destruct (Rule003.param_of e) as [q|] eqn:E.
  - intros [<-|H]; [exists e; auto|].
    destruct (IH H) as (e' & He' & Hp). exists e'. auto.
  - intros H. destruct (IH H) as (e' & He' & Hp). exists e'. auto.
Qed.

(** Within the block no index is out of range, and the exemption test
    returns. *)
Lemma should_skip_in_range (block_lines : list string) (indent_level : Z)
  (p : Rule003.param) :
  (Rule003.p_idx p <= List.length block_lines)%nat ->
  Rule003._should_skip_alignment_check (Rule003.p_line p) (Rule003.p_name p)
    (Rule003.p_idx p) indent_level block_lines
  = Some (exempt block_lines p).
Proof.
  intros Hidx.
  unfold Rule003._should_skip_alignment_check, exempt, Rule003._has_st008_issue,
    Rule003._has_st005_issue.
  set (m := existsb (String.eqb (Rule003.p_name p)) Rule003.meta_parameters).
  assert (Hm : (if m then Some true else Some false) = Some m) by (destruct m; reflexivity).
  destruct (Rule003._has_st004_issue _); [reflexivity|]. cbn [orb].
  destruct (negb (leading_ws (Rule003.p_line p) mod 2 =? 0)); [reflexivity|]. cbn [orb].
  destruct (leading_ws (Rule003.p_line p) =? 4); cbn [andb orb Rule003.bind];
    [|exact Hm].
  destruct block_lines as [|b0 bl]; cbn [Rule003.is_empty negb andb orb Rule003.bind];
    [exact Hm|].
  destruct (Nat.ltb_spec 0 (Rule003.p_idx p)) as [Hpos|Hz];
    cbn [andb orb Rule003.bind]; [|exact Hm].
  destruct (nth_error (b0 :: bl) (Rule003.p_idx p - 1)) as [prev|] eqn:Hn.
  - cbn [Rule003.bind]. rewrite (nth_error_nth _ _ _ Hn).
    destruct (contains "ST.005" prev); [reflexivity | exact Hm].
  - apply nth_error_None in Hn. simpl in Hidx, Hn. lia.
Qed.

(* ------------------------------------------------------------------ *)
(** ** ST.003: alignment within a group of a block *)

Lemma collect_flat_map {A : Type} (f : A -> Rule003.exc (list Rule003.error))
  (g : A -> list Rule003.error) (l : list A) :
  (forall x, In x l -> f x = Some (g x)) ->
  Rule003.collect f l = Some (flat_map g l).
Proof.
  induction l as [|x l IH]; intros H; simpl; [reflexivity|].
  rewrite (H x) by (left; reflexivity). simpl.
  rewrite IH by (intros y Hy; apply H; right; exact Hy). reflexivity.
Qed.

Lemma collect_some_in {A : Type} (f : A -> Rule003.exc (list Rule003.error))
  (l : list A) (errs : list Rule003.error) (x : A) :
  Rule003.collect f l = Some errs -> In x l ->
  exists ex, f x = Some ex /\ incl ex errs.
Proof.
  revert errs. induction l as [|y l IH]; intros errs Hc Hin; [destruct Hin|].
  simpl in Hc. destruct (f y) as [ey|] eqn:Ey; [|discriminate]. simpl in Hc.
  destruct (Rule003.collect f l) as [el|] eqn:El; [|discriminate].
  simpl in Hc. injection Hc as <-.
  destruct Hin as [->|Hin].
  - exists ey. split; [exact Ey | apply incl_appl, incl_refl].
  - destruct (IH el eq_refl Hin) as (ex & Hx & Hincl).
    exists ex. split; [exact Hx | apply incl_appr, Hincl].
Qed.

Lemma flat_map_nil {A B : Type} (f : A -> list B) (l : list A) :
  (forall x, In x l -> f x = []) -> flat_map f l = [].
Proof.
  induction l as [|x l IH]; intros H; simpl; [reflexivity|].
  rewrite (H x) by (left; reflexivity). apply IH. intros y Hy. apply H. right. exact Hy.
Qed.

Lemma longest_name_length_upper (pd : list Rule003.param) (p : Rule003.param) :
  In p pd -> len (Rule003.p_name p) <= Rule003.longest_name_length pd.
Proof.
  unfold Rule003.longest_name_length.
  induction pd as [|q pd IH]; simpl; [intros []|].
  intros [->|H]; [lia | specialize (IH H); lia].
Qed.

Lemma longest_name_length_attained (pd : list Rule003.param) :
  pd <> [] ->
  exists p, In p pd /\ len (Rule003.p_name p) = Rule003.longest_name_length pd.
Proof.
  unfold Rule003.longest_name_length.
  induction pd as [|q pd IH]; [congruence|]. intros _. simpl.
  destruct pd as [|q' pd'].
  - exists q. split; [left; reflexivity|]. simpl. unfold len. lia.
  - destruct IH as (p & Hp & Hlen); [discriminate|].
    destruct (Z.le_gt_cases (len (Rule003.p_name q))
                (fold_right (fun p acc => Z.max (len (Rule003.p_name p)) acc) 0
                   (q' :: pd'))) as [Hle|Hgt].
    + exists p. split; [right; exact Hp | lia].
    + exists q. split; [left; reflexivity | lia].
Qed.

Lemma expected_location_in_block (pd : list Rule003.param) (indent_level : Z)
  (block_type : string) :
  block_type <> "tfvars" ->
  Rule003.expected_equals_location pd indent_level block_type
  = formula_column pd indent_level.
Proof.
  intros Hbt. unfold Rule003.expected_equals_location, formula_column.
  destruct (String.eqb_spec block_type "tfvars") as [|_]; [contradiction|].
  reflexivity.
Qed.

Lemma check_one_alignment_in_range (expected indent_level : Z) (block_type : string)
  (block_start_line : Z) (block_lines : list string) (p : Rule003.param) :
  (Rule003.p_idx p <= List.length block_lines)%nat ->
  Rule003.check_one_alignment expected indent_level block_type block_start_line
    block_lines p
  = Some (if (Rule003.p_equals_pos p =? expected) || exempt block_lines p then []
          else [misaligned_error expected indent_level block_type block_start_line p]).
Proof.
  intros Hidx. unfold Rule003.check_one_alignment.
  destruct (Rule003.p_equals_pos p =? expected); [reflexivity|]. cbn [orb].
  rewrite should_skip_in_range by exact Hidx. cbn [Rule003.bind].
  destruct (exempt block_lines p); [reflexivity|].
  unfold misaligned_error, line_number.
  destruct (Rule003.p_equals_pos p <? expected); reflexivity.
Qed.

(** C1 (amended). In a block (the block type is not the word tfvars), for a
    group with at least two eligible members, all of them lines of the
    block: the expected column is the indentation, plus the length of the
    longest member name, plus 2 when some member name is double-quoted,
    plus 1; the check returns; every member away from that column that is
    not exempt from reporting (a tab in the line, an odd indentation, an
    indentation of 4 under a line that mentions ST.005, a meta-parameter
    name) is reported on its own line, and nothing else is; and when every
    member sits at that column the group has no alignment diagnostic. *)
Theorem group_alignment_in_block (group_lines : list Rule003.entry)
  (indent_level : Z) (block_type : string) (block_start_line : Z)
  (block_lines : list string) :
  let pd := Rule003.param_data group_lines in
  let expected := formula_column pd indent_level in
  block_type <> "tfvars" ->
  (2 <= List.length pd)%nat ->
  (forall e, In e group_lines -> (snd e < List.length block_lines)%nat) ->
  Rule003.expected_equals_location pd indent_level block_type = expected
  /\ (forall p, In p pd -> len (Rule003.p_name p) <= Rule003.longest_name_length pd)
  /\ (exists p, In p pd /\ len (Rule003.p_name p) = Rule003.longest_name_length pd)
  /\ exists errs,
       Rule003._check_group_alignment group_lines indent_level block_type
         block_start_line block_lines = Some errs
       /\ (forall p, In p pd -> Rule003.p_equals_pos p <> expected ->
                     exempt block_lines p = false ->
                     In (misaligned_error expected indent_level block_type
                           block_start_line p) errs)
       /\ (forall e, In e errs ->
             exists p, In p pd /\ Rule003.p_equals_pos p <> expected
                       /\ exempt block_lines p = false
                       /\ e = misaligned_error expected indent_level block_type
                                block_start_line p)
       /\ ((forall p, In p pd -> Rule003.p_equals_pos p = expected) -> errs = []).
Proof.
  intros pd expected Hbt Hlen Hrange.
  assert (Hidx : forall p, In p pd -> (Rule003.p_idx p <= List.length block_lines)%nat).
  { intros p Hp. destruct (param_data_in _ _ Hp) as (e & He & Hpe).
    destruct (param_of_fields _ _ Hpe) as (_ & -> & _). specialize (Hrange e He). lia. }
  split; [apply expected_location_in_block; exact Hbt|].
  split; [intros p Hp; apply longest_name_length_upper; exact Hp|].
  split; [apply longest_name_length_attained; destruct pd; [simpl in Hlen; lia | discriminate]|].
  set (one := fun p : Rule003.param =>
                if (Rule003.p_equals_pos p =? expected) || exempt block_lines p
                then []
                else [misaligned_error expected indent_level block_type
                        block_start_line p]).
  assert (Hres : Rule003._check_group_alignment group_lines indent_level block_type
                   block_start_line block_lines = Some (flat_map one pd)).
  { unfold Rule003._check_group_alignment. fold pd.
    rewrite (expected_location_in_block pd indent_level block_type Hbt). fold expected.
    destruct pd as [|p1 [|p2 rest]] eqn:Epd; try (simpl in Hlen; lia).
    apply collect_flat_map. intros p Hp.
    apply check_one_alignment_in_range. apply Hidx. exact Hp. }
  exists (flat_map one pd). split; [exact Hres|]. split; [|split].
  - intros p Hp Hne Hex. apply in_flat_map. exists p. split; [exact Hp|].
    unfold one. destruct (Z.eqb_spec (Rule003.p_equals_pos p) expected); [contradiction|].
    rewrite Hex. left. reflexivity.
  - intros e He. apply in_flat_map in He. destruct He as (p & Hp & He).
    exists p. unfold one in He.
    destruct (Z.eqb_spec (Rule003.p_equals_pos p) expected) as [|Hne]; [destruct He|].
    destruct (exempt block_lines p) eqn:Hex; [destruct He|].
    destruct He as [<-|[]]. auto.
  - intros Hall. apply flat_map_nil. intros p Hp. unfold one.
    rewrite (proj2 (Z.eqb_eq _ _) (Hall p Hp)). reflexivity.
Qed.

Lemma group_alignment_in_block_witness :
  exists errs,
    Rule003._check_group_alignment e1_group 1 "resource.x.y" 1 e1_lines = Some errs
    /\ In (2, "Parameter assignment equals sign not aligned in resource.x.y. "
              ++ "Expected 2 spaces between parameter name and '=', "
              ++ "equals sign should be at column 6")%string errs.
Proof.
  destruct (group_alignment_in_block e1_group 1 "resource.x.y" 1 e1_lines)
    as (_ & _ & _ & errs & Hres & Hrep & _).
  - discriminate.
  - vm_compute. apply le_n.
  - intros e [<-|[<-|[]]]; vm_compute; auto.
  - exists errs. split; [exact Hres|].
    apply (Hrep (Rule003.mkParam "a" "  a = 1" 0 4 false)).
    + left. reflexivity.
    + vm_compute. discriminate.
    + reflexivity.
Defined.

(** C1, as stated, fails on [meta_group]: the group has two eligible
    members and the expected column is 14; the equals sign of [count] sits
    at column 8, and the group has no diagnostic. *)
Lemma meta_parameter_not_reported :
  List.length (Rule003.param_data meta_group) = 2%nat
  /\ formula_column (Rule003.param_data meta_group) 1 = 14
  /\ map (fun p => (Rule003.p_name p, Rule003.p_equals_pos p))
       (Rule003.param_data meta_group) = [("count", 8); ("longer_name", 14)]
  /\ Rule003._check_group_alignment meta_group 1 "resource.x.y" 1
       (map fst meta_group) = Some [].
Proof. repeat split; vm_compute; reflexivity. Qed.

(* ------------------------------------------------------------------ *)
(** ** ST.003: a group with a single member *)

Lemma startswith_two_one (s : string) :
  startswith "  " s = true -> startswith " " s = true.
Proof.
  unfold startswith. destruct s as [|c s]; [discriminate|].
  cbn [String.prefix].
  destruct (ascii_dec " " c); [|discriminate]. intros _. destruct s; reflexivity.
Qed.

(** The check of the space after the equals sign, case by case. *)
Lemma equals_after_spacing_cases (line : string) (idx : nat) (block_type : string)
  (block_start_line : Z) :
  find_char "=" line <> -1 ->
  let after_equals := slice_from line (find_char "=" line + 1) in
  let n := block_start_line + Z.of_nat idx + 1 in
  (startswith " " after_equals = false ->
   Rule003._check_equals_after_spacing line idx block_type block_start_line
   = [(n, Rule003.msg_after_one block_type)])
  /\ (startswith "  " after_equals = true ->
      Rule003._check_equals_after_spacing line idx block_type block_start_line
      = [(n, Rule003.msg_after_multiple block_type)])
  /\ (Rule003._check_equals_after_spacing line idx block_type block_start_line = []
      <-> one_space_after line).
Proof.
  intros Hfind after_equals n. unfold Rule003._check_equals_after_spacing, one_space_after.
  destruct (Z.eqb_spec (find_char "=" line) (-1)) as [|_]; [contradiction|].
  fold after_equals. fold n.
  split; [intros ->; reflexivity|]. split.
  - intros H. rewrite (startswith_two_one _ H), H. reflexivity.
  - destruct (startswith " " after_equals); simpl.
    + destruct (startswith "  " after_equals); split; try discriminate; auto.
      intros [_ H]. discriminate.
    + split; [discriminate | intros [H _]; discriminate].
Qed.

(** C6 (amended). In a block file, in a group with exactly one eligible
    member, a line of the block: the alignment check logs nothing when the
    member is exempt from reporting or when exactly one whitespace
    character stands between its name and the equals sign, and otherwise
    logs the single-spacing error, never an expected-column error; the
    spacing check logs nothing exactly when one space, and not two, follows
    the equals sign.  So the member passes if and only if it is exempt or
    has one whitespace character before the equals sign, and has exactly
    one space after it. *)
Theorem single_member_group (group_lines : list Rule003.entry) (indent_level : Z)
  (block_type : string) (block_start_line : Z) (block_lines : list string)
  (p : Rule003.param) :
  Rule003.param_data group_lines = [p] ->
  (Rule003.p_idx p < List.length block_lines)%nat ->
  Rule003._check_group_alignment group_lines indent_level block_type
    block_start_line block_lines
  = Some (if exempt block_lines p || (spaces_before_equals p =? 1) then []
          else [(line_number block_start_line p,
                 Rule003.msg_single_spacing block_type)])
  /\ (Rule003._check_parameter_spacing (Rule003.p_line p) (Rule003.p_idx p)
        block_type block_start_line = []
      <-> one_space_after (Rule003.p_line p))
  /\ ((Rule003._check_group_alignment group_lines indent_level block_type
         block_start_line block_lines = Some []
       /\ Rule003._check_parameter_spacing (Rule003.p_line p) (Rule003.p_idx p)
            block_type block_start_line = [])
      <-> ((exempt block_lines p = true \/ spaces_before_equals p = 1)
           /\ one_space_after (Rule003.p_line p))).
Proof.
  intros Hpd Hidx.
  assert (Hal : Rule003._check_group_alignment group_lines indent_level block_type
                  block_start_line block_lines
                = Some (if exempt block_lines p || (spaces_before_equals p =? 1)
                        then []
                        else [(line_number block_start_line p,
                               Rule003.msg_single_spacing block_type)])).
  { unfold Rule003._check_group_alignment. rewrite Hpd.
    rewrite should_skip_in_range by lia. cbn [Rule003.bind].
    destruct (exempt block_lines p); [reflexivity|]. cbn [orb].
    unfold spaces_before_equals, line_number.
    destruct (_ =? 1); reflexivity. }
  assert (Hsp : Rule003._check_parameter_spacing (Rule003.p_line p) (Rule003.p_idx p)
                  block_type block_start_line = []
                <-> one_space_after (Rule003.p_line p)).
  { assert (Hin : In p (Rule003.param_data group_lines)) by (rewrite Hpd; left; reflexivity).
    destruct (param_data_in _ _ Hin) as (e & _ & Hpe).
    destruct (param_of_fields _ _ Hpe) as (Hl & _ & _ & Hfind).
    rewrite <- Hl in Hfind.
    apply (equals_after_spacing_cases _ _ _ _ Hfind). }
  split; [exact Hal|]. split; [exact Hsp|].
  rewrite Hal, Hsp. split.
  - intros [H Ha]. split; [|exact Ha].
    destruct (exempt block_lines p); [left; reflexivity|]. cbn [orb] in H.
    destruct (Z.eqb_spec (spaces_before_equals p) 1); [right; assumption | discriminate].
  - intros [H Ha]. split; [|exact Ha].
    destruct H as [->| ->]; [reflexivity|]. rewrite orb_true_r. reflexivity.
Qed.

Lemma single_member_group_witness :
  Rule003._check_group_alignment name_group 1 "locals" 1 ["  name  = 1"]
  = Some [(2, Rule003.msg_single_spacing "locals")].
Proof.
  exact (proj1 (single_member_group name_group 1 "locals" 1 ["  name  = 1"]
                  (Rule003.mkParam "name" "  name  = 1" 0 8 false)
                  eq_refl (le_n 1))).
Defined.

(** C6, as stated, fails on [count_group]: its single eligible member has
    two spaces before the equals sign and one after, and it has no
    diagnostic. *)
Lemma exempt_single_member_passes :
  exists p,
    Rule003.param_data count_group = [p]
    /\ spaces_before_equals p = 2
    /\ Rule003.check_sub_group 1 "resource.x.y" 1 ["  count  = 1"] count_group
       = Some [].
Proof.
  exists (Rule003.mkParam "count" "  count  = 1" 0 9 false).
  repeat split; vm_compute; reflexivity.
Qed.

(* ------------------------------------------------------------------ *)
(** ** ST.003: the members of the groups of a section *)

Lemma contains_char_found (c : ascii) (s : string) : forall i,
  0 <= i -> contains (String c "") s = true -> find_char_from c s i <> -1.
Proof.
  induction s as [|a s IH]; intros i Hi; simpl; [discriminate|].
  destruct (Ascii.eqb_spec a c) as [->|Hne]; [lia|].
  destruct (ascii_dec c a) as [->|_]; [contradiction|]. simpl.
  intros H. apply IH; [lia | exact H].
Qed.

Lemma parameter_lines_from_has_equals (section : list Rule003.entry) (rest : list Rule003.entry) :
  forall hs e, In e (Rule003.parameter_lines_from section hs rest) ->
               contains "=" (fst e) = true.
Proof.
  induction rest as [|[lc idx] rest IH]; intros hs e; simpl; [intros []|].
  destruct (Rule003.heredoc_track hs (rstrip lc) (strip (rstrip lc))) as [skip hs'].
  destruct skip; [apply IH|].
  destruct (contains "=" (rstrip lc)) eqn:Heq; simpl; [|apply IH].
  destruct (negb (startswith "#" (strip (rstrip lc)))); simpl; [|apply IH].
  destruct (is_match _); [apply IH|].
  destruct (_ && _); [apply IH|].
  destruct (_ && _); [apply IH|].
  intros [<-|H]; [exact Heq | apply (IH _ _ H)].
Qed.

Lemma add_to_group_in (k : Z) (e : Rule003.entry) (d : list (Z * list Rule003.entry))
  (g : Z * list Rule003.entry) (x : Rule003.entry) :
  In g (Rule003.add_to_group k e d) -> In x (snd g) ->
  x = e \/ exists g', In g' d /\ In x (snd g').
Proof.
  induction d as [|[k' l] d IH]; simpl.
  - intros [<-|[]]. simpl. intros [<-|[]]. left. reflexivity.
  - destruct (k' =? k).
    + intros [<-|Hg] Hx.
      * simpl in Hx. apply in_app_or in Hx. destruct Hx as [Hx|[<-|[]]].
        -- right. exists (k', l). auto.
        -- left. reflexivity.
      * right. exists g. auto.
    + intros [<-|Hg] Hx.
      * right. exists (k', l). auto.
      * destruct (IH Hg Hx) as [->|(g' & Hg' & Hx')]; [left; reflexivity|].
        right. exists g'. auto.
Qed.

Lemma indent_groups_in (params : list Rule003.entry) (g : Z * list Rule003.entry)
  (x : Rule003.entry) :
  In g (Rule003.indent_groups params) -> In x (snd g) -> In x params.
Proof.
  unfold Rule003.indent_groups.
  assert (H : forall d,
    In g (fold_left (fun d e => Rule003.add_to_group (Rule003.indent_level_of (fst e)) e d)
            params d) ->
    In x (snd g) -> In x params \/ exists g', In g' d /\ In x (snd g')).
  { induction params as [|e params IH]; intros d Hg Hx; simpl in Hg.
    - right. exists g. auto.
    - destruct (IH _ Hg Hx) as [H|(g' & Hg' & Hx')]; [left; right; exact H|].
      destruct (add_to_group_in _ _ _ _ _ Hg' Hx') as [->|H]; [left; left; reflexivity|].
      right. exact H. }
  intros Hg Hx. destruct (H [] Hg Hx) as [Hin|(g' & [] & _)]. exact Hin.
Qed.

Lemma insert_by_idx_in (e x : Rule003.entry) (l : list Rule003.entry) :
  In x (Rule003.insert_by_idx e l) -> x = e \/ In x l.
Proof.
  induction l as [|y l IH]; simpl; [intros [<-|[]]; auto|].
  destruct (snd e <? snd y)%nat; simpl.
  - intros [<-|[<-|H]]; auto.
  - intros [<-|H]; auto. destruct (IH H); auto.
Qed.

Lemma sorted_by_idx_in (l : list Rule003.entry) (x : Rule003.entry) :
  In x (Rule003.sorted_by_idx l) -> In x l.
Proof.
  unfold Rule003.sorted_by_idx.
  assert (H : forall acc,
    In x (fold_left (fun acc e => Rule003.insert_by_idx e acc) l acc) ->
    In x l \/ In x acc).
  { induction l as [|e l IH]; intros acc Hx; simpl in Hx; [right; exact Hx|].
    destruct (IH _ Hx) as [H|H]; [left; right; exact H|].
    destruct (insert_by_idx_in _ _ _ H) as [->|H']; [left; left; reflexivity | right; exact H']. }
  intros Hx. destruct (H [] Hx) as [Hin|[]]. exact Hin.
Qed.

Lemma sub_groups_of_in (block_lines : list string) (l : list Rule003.entry)
  (sub : list Rule003.entry) (x : Rule003.entry) :
  In sub (Rule003.sub_groups_of block_lines l) -> In x sub -> In x l.
Proof.
  unfold Rule003.sub_groups_of.
  assert (H : forall st,
    let '(sgs, cur, _) := fold_left (Rule003.sub_group_step block_lines) l st in
    forall y, (In y cur \/ exists s, In s sgs /\ In y s) ->
              In y l \/ In y (snd (fst st))
              \/ exists s, In s (fst (fst st)) /\ In y s).
  { induction l as [|e l IH]; intros [[sgs cur] prev]; simpl.
    - intros y [Hy|Hy]; auto.
    - specialize (IH (Rule003.sub_group_step block_lines (sgs, cur, prev) e)).
      destruct (fold_left _ l _) as [[sgs' cur'] prev'].
      intros y Hy. specialize (IH y Hy).
      destruct IH as [IH|IH]; [left; right; exact IH|].
      unfold Rule003.sub_group_step in IH.
      assert (Happ : In y (cur ++ [e]) -> In y (e :: l) \/ In y cur
                     \/ exists s, In s sgs /\ In y s).
      { intros Hin. apply in_app_or in Hin. destruct Hin as [Hin|[<-|[]]]; auto.
        left. left. reflexivity. }
      destruct prev as [prev|]; [destruct block_lines as [|b0 bl]|]; simpl in IH.
      + destruct IH as [IH|IH]; auto.
      + destruct (Rule003.has_empty_line_between (b0 :: bl) prev (snd e)); simpl in IH.
        * destruct IH as [[<-|[]]|(s & Hs & Hys)]; [left; left; reflexivity|].
          destruct cur as [|c0 cur0]; [right; right; exists s; auto|].
          apply in_app_or in Hs. destruct Hs as [Hs|[<-|[]]]; [right; right; exists s; auto|].
          right. left. exact Hys.
        * destruct IH as [IH|IH]; auto.
      + destruct IH as [IH|IH]; auto. }
  specialize (H ([], [], None)).
  destruct (fold_left _ l _) as [[sgs cur] prev].
  intros Hsub Hx.
  assert (Hy : In x cur \/ exists s, In s sgs /\ In x s).
  { destruct cur as [|c0 cur0]; [right; exists sub; auto|].
    apply in_app_or in Hsub. destruct Hsub as [Hsub|[<-|[]]]; [right; exists sub; auto|].
    left. exact Hx. }
  destruct (H x Hy) as [Hin|[[]|(s & [] & _)]]. exact Hin.
Qed.

(** Every member of a sub-group of a section is a parameter line of the
    section, and holds an equals sign. *)
Lemma group_member_has_equals (section : list Rule003.entry) (block_lines : list string)
  (g : Z * list Rule003.entry) (sub : list Rule003.entry) (e : Rule003.entry) :
  In g (Rule003.indent_groups (Rule003.parameter_lines section)) ->
  In sub (Rule003.sub_groups_of block_lines (Rule003.sorted_by_idx (snd g))) ->
  In e sub ->
  find_char "=" (fst e) <> -1.
Proof.
  intros Hg Hsub He.
  apply contains_char_found; [lia|].
  apply (parameter_lines_from_has_equals section section Rule003.no_heredoc).
  apply (indent_groups_in _ g); [exact Hg|].
  apply sorted_by_idx_in. apply (sub_groups_of_in block_lines _ sub); assumption.
Qed.


(* ------------------------------------------------------------------ *)
(** ** ST.003: the module state *)

(** The partition overwrites the attribute before it reads it. *)
Lemma split_ignores_state (g1 g2 : Rule003.globals) (block_lines : list string) :
  fst (Rule003._split_into_code_sections g1 block_lines)
  = fst (Rule003._split_into_code_sections g2 block_lines).
Proof. reflexivity. Qed.

Lemma check_block_ignores_state (g1 g2 : Rule003.globals) (b : Rule003.block) :
  fst (Rule003.check_block g1 b) = fst (Rule003.check_block g2 b).
Proof. destruct b as [[bt start] bl]. reflexivity. Qed.

Lemma check_blocks_ignores_state (blocks : list Rule003.block) :
  forall g1 g2,
    fst (Rule003.check_blocks g1 blocks) = fst (Rule003.check_blocks g2 blocks).
Proof.
  induction blocks as [|b blocks IH]; intros g1 g2; [reflexivity|].
  simpl.
  pose proof (check_block_ignores_state g1 g2 b) as Hb.
  destruct (Rule003.check_block g1 b) as [e1 h1].
  destruct (Rule003.check_block g2 b) as [e2 h2].
  simpl in Hb. subst e2.
  destruct e1 as [e|]; [|reflexivity].
  specialize (IH h1 h2).
  destruct (Rule003.check_blocks h1 blocks) as [r1 k1].
  destruct (Rule003.check_blocks h2 blocks) as [r2 k2].
  simpl in IH. subst r2. reflexivity.
Qed.

Lemma check_st003_ignores_state (g1 g2 : Rule003.globals) (file_path content : string) :
  fst (Rule003.check_st003_parameter_alignment g1 file_path content)
  = fst (Rule003.check_st003_parameter_alignment g2 file_path content).
Proof.
  unfold Rule003.check_st003_parameter_alignment.
  destruct (endswith ".tfvars" file_path); [reflexivity|].
  pose proof (check_blocks_ignores_state
                (Rule003._extract_code_blocks
                   (Rule003._remove_comments_for_parsing content)) g1 g2) as H.
  destruct (Rule003.check_blocks g1 _) as [r1 k1].
  destruct (Rule003.check_blocks g2 _) as [r2 k2].
  simpl in H. subst r2. reflexivity.
Qed.

(** C9. The diagnostics of the alignment checker do not depend on the
    state the module was left in: from any two states the same path and
    content give the same list, and a second run, started in the state the
    first run left, gives the list of the first.  The indentation checker
    keeps no state between runs: each run is the scan of the lines of the
    content from the same initial state. *)
Theorem checkers_are_deterministic (file_path content : string) :
  (forall g1 g2,
     fst (Rule003.check_st003_parameter_alignment g1 file_path content)
     = fst (Rule003.check_st003_parameter_alignment g2 file_path content))
  /\ (forall g,
        fst (Rule003.check_st003_parameter_alignment
               (snd (Rule003.check_st003_parameter_alignment g file_path content))
               file_path content)
        = fst (Rule003.check_st003_parameter_alignment g file_path content))
  /\ Rule005.check_st005_indentation_level file_path content
     = Rule005.scan_lines file_path (endswith ".tfvars" file_path)
         (split_lines content) Rule005.initial_scan 1 (split_lines content).
Proof.
  split; [|split].
  - intros g1 g2. apply check_st003_ignores_state.
  - intros g. apply check_st003_ignores_state.
  - reflexivity.
Qed.

(* ------------------------------------------------------------------ *)
(** ** Sorting and deduplication of the diagnostics *)

Lemma insert_by_line_in (e x : Rule003.error) (l : list Rule003.error) :
  In x (Rule003.insert_by_line e l) <-> x = e \/ In x l.
Proof.
  induction l as [|y l IH]; simpl; [intuition|].
  destruct (fst e <? fst y); simpl; [intuition|].
  rewrite IH. intuition.
Qed.

Lemma sort_by_line_fold_in (l acc : list Rule003.error) (x : Rule003.error) :
  In x (fold_left (fun acc e => Rule003.insert_by_line e acc) l acc)
  <-> In x l \/ In x acc.
Proof.
  revert acc. induction l as [|e l IH]; intros acc; simpl; [intuition|].
  rewrite IH, insert_by_line_in. intuition.
Qed.

Lemma sort_by_line_in (l : list Rule003.error) (x : Rule003.error) :
  In x (Rule003.sort_by_line l) <-> In x l.
Proof. unfold Rule003.sort_by_line. rewrite sort_by_line_fold_in. simpl. intuition. Qed.

Lemma insert_by_line_sorted (e : Rule003.error) (l : list Rule003.error) :
  StronglySorted by_line l -> StronglySorted by_line (Rule003.insert_by_line e l).
Proof.
  induction l as [|y l IH]; intros Hs; simpl.
  - constructor; [constructor | constructor].
  - inversion Hs as [|? ? Hl Hy]; subst.
    destruct (Z.ltb_spec (fst e) (fst y)) as [Hlt|Hge].
    + constructor; [exact Hs|]. constructor; [unfold by_line; lia|].
      eapply Forall_impl; [|exact Hy]. unfold by_line. intros a Ha. lia.
    + constructor; [apply IH; exact Hl|].
      apply Forall_forall. intros x Hx. apply insert_by_line_in in Hx.
      destruct Hx as [->|Hx]; [unfold by_line; lia|].
      rewrite Forall_forall in Hy. apply Hy. exact Hx.
Qed.

Lemma sort_by_line_sorted (l : list Rule003.error) :
  StronglySorted by_line (Rule003.sort_by_line l).
Proof.
  unfold Rule003.sort_by_line.
  assert (H : forall acc, StronglySorted by_line acc ->
    StronglySorted by_line
      (fold_left (fun acc e => Rule003.insert_by_line e acc) l acc)).
  { induction l as [|e l IH]; intros acc Hacc; simpl; [exact Hacc|].
    apply IH. apply insert_by_line_sorted. exact Hacc. }
  apply H. constructor.
Qed.

Lemma insert_by_line_perm (e : Rule003.error) (l : list Rule003.error) :
  Permutation (e :: l) (Rule003.insert_by_line e l).
Proof.
  induction l as [|y l IH]; simpl; [reflexivity|].
  destruct (fst e <? fst y); [reflexivity|].
  rewrite perm_swap. constructor. exact IH.
Qed.

Lemma sort_by_line_perm (l : list Rule003.error) :
  Permutation l (Rule003.sort_by_line l).
Proof.
  unfold Rule003.sort_by_line.
  assert (H : forall acc,
    Permutation (l ++ acc)
      (fold_left (fun acc e => Rule003.insert_by_line e acc) l acc)).
  { induction l as [|e l IH]; intros acc; simpl; [reflexivity|].
    rewrite <- IH. rewrite <- insert_by_line_perm.
    apply Permutation_middle. }
  specialize (H []). rewrite app_nil_r in H. exact H.
Qed.

Lemma error_eqb_eq (a b : Rule003.error) : Rule003.error_eqb a b = true <-> a = b.
Proof.
  destruct a as [n s], b as [m t]. unfold Rule003.error_eqb. simpl.
  rewrite andb_true_iff, Z.eqb_eq, String.eqb_eq. split.
  - intros [-> ->]. reflexivity.
  - intros [= -> ->]. auto.
Qed.

Lemma existsb_error_in (e : Rule003.error) (seen : list Rule003.error) :
  existsb (Rule003.error_eqb e) seen = true <-> In e seen.
Proof.
  rewrite existsb_exists. split.
  - intros (x & Hx & Heq). apply error_eqb_eq in Heq. subst. exact Hx.
  - intros H. exists e. split; [exact H | apply error_eqb_eq; reflexivity].
Qed.

Lemma unique_errors_from_spec (l : list Rule003.error) : forall seen,
  NoDup (Rule003.unique_errors_from seen l)
  /\ (forall x, In x (Rule003.unique_errors_from seen l) <-> In x l /\ ~ In x seen).
Proof.
  induction l as [|e l IH]; intros seen; simpl.
  - split; [constructor | intuition].
  - destruct (existsb (Rule003.error_eqb e) seen) eqn:E.
    + apply existsb_error_in in E. destruct (IH seen) as [Hnd Hin].
      split; [exact Hnd|]. intros x. rewrite Hin. split.
      * intuition.
      * intros [[->|Hx] Hn]; [contradiction | auto].
    + assert (Hns : ~ In e seen).
      { intros H. apply existsb_error_in in H. congruence. }
      destruct (IH (e :: seen)) as [Hnd Hin]. split.
      * constructor; [|exact Hnd]. rewrite Hin. simpl. intuition.
      * intros x. simpl. rewrite Hin. simpl. split.
        -- intros [<-|[Hx Hn]]; [auto|]. split; [auto|]. intros H. apply Hn. auto.
        -- intros [[<-|Hx] Hn]; [auto|].
           destruct (Rule003.error_eqb e x) eqn:Ex.
           ++ apply error_eqb_eq in Ex. auto.
           ++ right. split; [exact Hx|]. intros [->|H]; [|contradiction].
              assert (Rule003.error_eqb x x = true) by (apply error_eqb_eq; reflexivity).
              congruence.
Qed.

Lemma unique_errors_from_sorted (l : list Rule003.error) : forall seen,
  StronglySorted by_line l ->
  StronglySorted by_line (Rule003.unique_errors_from seen l).
Proof.
  induction l as [|e l IH]; intros seen Hs; simpl; [constructor|].
  inversion Hs as [|? ? Hl He]; subst.
  destruct (existsb _ seen); [apply IH; exact Hl|].
  constructor; [apply IH; exact Hl|].
  apply Forall_forall. intros x Hx.
  apply (proj2 (unique_errors_from_spec l (e :: seen))) in Hx.
  rewrite Forall_forall in He. apply He. tauto.
Qed.

Lemma report_errors_ascending (file_path : string) (l : list Rule003.error) :
  StronglySorted by_line l -> ascending (Rule003.report_errors file_path l).
Proof.
  unfold ascending. induction l as [|e l IH]; intros Hs; simpl; [constructor|].
  inversion Hs as [|? ? Hl He]; subst. constructor; [apply IH; exact Hl|].
  unfold Rule003.report_errors. rewrite Forall_map. simpl.
  eapply Forall_impl; [|exact He]. unfold by_line. auto.
Qed.

Lemma report_errors_pairs (file_path : string) (l : list Rule003.error) :
  map (fun r => (r_line r, r_msg r)) (Rule003.report_errors file_path l) = l.
Proof.
  unfold Rule003.report_errors. rewrite map_map. simpl.
  induction l as [|[n m] l IH]; simpl; [reflexivity | now rewrite IH].
Qed.

Lemma existsb_Z_in (n : Z) (l : list Z) : existsb (Z.eqb n) l = true <-> In n l.
Proof.
  rewrite existsb_exists. split.
  - intros (x & Hx & Heq). apply Z.eqb_eq in Heq. subst. exact Hx.
  - intros H. exists n. split; [exact H | apply Z.eqb_refl].
Qed.

Lemma keep_unprocessed_spec (errors : list Rule003.error) : forall processed,
  NoDup (map fst (fst (Rule003.keep_unprocessed processed errors)))
  /\ (forall x, In x (fst (Rule003.keep_unprocessed processed errors)) ->
                ~ In (fst x) processed)
  /\ (forall n, In n (snd (Rule003.keep_unprocessed processed errors)) <->
                In n processed
                \/ In n (map fst (fst (Rule003.keep_unprocessed processed errors)))).
Proof.
  induction errors as [|[ln msg] errors IH]; intros processed; simpl.
  - split; [constructor|]. split; [intros x []|]. intros n. simpl. intuition.
  - destruct (existsb (Z.eqb ln) processed) eqn:E; [apply IH|].
    assert (Hn : ~ In ln processed).
    { intros H. apply existsb_Z_in in H. congruence. }
    specialize (IH (ln :: processed)).
    destruct (Rule003.keep_unprocessed (ln :: processed) errors) as [kept processed'].
    simpl in *. destruct IH as (Hnd & Hfresh & Hproc).
    split; [|split].
    + constructor; [|exact Hnd]. intros Hin. apply in_map_iff in Hin.
      destruct Hin as (x & Hx & Hxin). apply (Hfresh x Hxin). left. symmetry. exact Hx.
    + intros x [<-|Hx]; [exact Hn|]. intros H. apply (Hfresh x Hx). right. exact H.
    + intros n. rewrite Hproc. intuition.
Qed.

Lemma tfvars_all_errors_lines (lines : list string)
  (sections : list (list Rule003.tentry)) (rest : list (list Rule003.tentry)) :
  forall os section_idx processed errs,
    Rule003.tfvars_all_errors lines sections os section_idx processed rest = Some errs ->
    NoDup (map fst errs) /\ (forall x, In x errs -> ~ In (fst x) processed).
Proof.
  induction rest as [|section rest IH]; intros os idx processed errs; simpl.
  - intros [= <-]. split; [constructor | intros x []].
  - destruct section as [|e0 section0]; [discriminate|].
    destruct (Rule003.section_override lines sections os idx (e0 :: section0))
      as [override os'].
    pose proof (keep_unprocessed_spec
                  (Rule003._check_tfvars_parameter_alignment_in_section
                     (map (fun e : Rule003.tentry => (snd e, fst e)) (e0 :: section0))
                     "tfvars" override lines) processed) as Hk.
    destruct (Rule003.keep_unprocessed processed _) as [kept processed'].
    simpl in Hk. destruct Hk as (Hnd & Hfresh & Hproc).
    destruct (Rule003.tfvars_all_errors lines sections os' (S idx) processed' rest)
      as [later|] eqn:El; [|discriminate].
    simpl. intros [= <-].
    destruct (IH _ _ _ _ El) as (Hndl & Hfreshl).
    split.
    + rewrite map_app. apply NoDup_app; [exact Hnd | exact Hndl |].
      intros n Hn1 Hn2. apply in_map_iff in Hn2. destruct Hn2 as (x & <- & Hx).
      apply (Hfreshl x Hx). apply Hproc. right. exact Hn1.
    + intros x Hx. apply in_app_or in Hx. destruct Hx as [Hx|Hx]; [apply Hfresh; exact Hx|].
      intros H. apply (Hfreshl x Hx). apply Hproc. left. exact H.
Qed.

Lemma NoDup_of_fst {A B : Type} (l : list (A * B)) : NoDup (map fst l) -> NoDup l.
Proof.
  induction l as [|x l IH]; simpl; intros H; [constructor|].
  inversion H as [|? ? Hx Hl]; subst. constructor; [|apply IH; exact Hl].
  intros Hin. apply Hx. apply in_map. exact Hin.
Qed.

Lemma strictly_sorted_reports (l : list report) :
  StronglySorted (fun a b => r_line a < r_line b) l ->
  ascending l /\ no_duplicate l.
Proof.
  unfold ascending, no_duplicate.
  induction l as [|r l IH]; intros Hs; simpl; [split; constructor|].
  inversion Hs as [|? ? Hl Hr]; subst. destruct (IH Hl) as [Ha Hn].
  split.
  - constructor; [exact Ha|]. eapply Forall_impl; [|exact Hr]. simpl. intros a. lia.
  - constructor; [|exact Hn]. intros Hin. apply in_map_iff in Hin.
    destruct Hin as (x & Hx & Hxin). rewrite Forall_forall in Hr.
    specialize (Hr x Hxin). injection Hx as Hline _. lia.
Qed.

(* ------------------------------------------------------------------ *)
(** ** ST.003: example E1 *)

(** C8, as stated, fails: on E1 the checker flags the line of [a] alone;
    no diagnostic carries the number of the line of [bb], whose equals
    sign already sits at the expected column. *)
Lemma e1_second_parameter_not_flagged :
  fst (Rule003.check_st003_parameter_alignment (Rule003.mkGlobals None)
         "main.tf" e1_content)
  = Some [mkReport "main.tf" "ST.003" (Rule003.msg_not_aligned "resource.x.y" 2 5) 2]
  /\ ~ (exists r,
          In r (reported (fst (Rule003.check_st003_parameter_alignment
                                 (Rule003.mkGlobals None) "main.tf" e1_content)))
          /\ r_line r = 3).
Proof.
  assert (H : fst (Rule003.check_st003_parameter_alignment (Rule003.mkGlobals None)
                     "main.tf" e1_content)
              = Some [mkReport "main.tf" "ST.003"
                        (Rule003.msg_not_aligned "resource.x.y" 2 5) 2])
    by (vm_compute; reflexivity).
  split; [exact H|]. rewrite H. intros (r & [<-|[]] & Hr). discriminate Hr.
Qed.

(** C8 (amended). On E1, from any state of the module: the file holds one
    block, [resource.x.y], whose two parameters form one group; the
    expected column is 2+2+0+1 = 5, counted from 0; the equals sign of [a]
    sits at column 4 and that of [bb] at column 5; the checker reports the
    line of [a] alone, asking for 2 spaces and column 6, counted from 1; and
    it reports nothing once that line reads [a  = 1]. *)
Theorem e1_alignment (g : Rule003.globals) :
  Rule003._extract_code_blocks (Rule003._remove_comments_for_parsing e1_content)
  = [("resource.x.y", 1, e1_lines)]
  /\ fst (Rule003._split_into_code_sections g e1_lines) = [e1_group]
  /\ formula_column (Rule003.param_data e1_group) 1 = 5
  /\ map (fun p => (Rule003.p_name p, Rule003.p_equals_pos p))
       (Rule003.param_data e1_group) = [("a", 4); ("bb", 5)]
  /\ fst (Rule003.check_st003_parameter_alignment g "main.tf" e1_content)
     = Some [mkReport "main.tf" "ST.003"
               ("Parameter assignment equals sign not aligned in resource.x.y. "
                ++ "Expected 2 spaces between parameter name and '=', "
                ++ "equals sign should be at column 6") 2]
  /\ fst (Rule003.check_st003_parameter_alignment g "main.tf" e1_realigned) = Some [].
Proof.
  split; [vm_compute; reflexivity|].
  split; [rewrite (split_ignores_state g (Rule003.mkGlobals None)); vm_compute; reflexivity|].
  split; [vm_compute; reflexivity|].
  split; [vm_compute; reflexivity|].
  split.
  - rewrite (check_st003_ignores_state g (Rule003.mkGlobals None)).
    vm_compute. reflexivity.
  - rewrite (check_st003_ignores_state g (Rule003.mkGlobals None)).
    vm_compute. reflexivity.
Qed.

(* ------------------------------------------------------------------ *)
(** ** Alignment groups of [.tfvars] files *)


Lemma max_len_nonneg (l : list Rule003.tparam) : 0 <= Rule003.max_len l.
Proof.
  induction l as [|p l IH]; unfold Rule003.max_len in *; simpl; lia.
Qed.






















Lemma not_aligned_line (block_type : string) (indent_spaces expected name_length : Z)
  (p : Rule003.tparam) (e : Rule003.error) :
  In e (Rule003.tfvars_not_aligned block_type indent_spaces expected name_length p) ->
  fst e = Rule003.tp_line_num p
  /\ ((exists r, snd e = Rule003.msg_not_aligned block_type r expected)
      \/ snd e = Rule003.msg_too_many block_type expected).
Proof.
  unfold Rule003.tfvars_not_aligned.
  destruct (_ <? _); [intros [<-|[]]; split; [reflexivity | left; eexists; reflexivity]|].
  destruct (_ <? _); [intros [<-|[]]; split; [reflexivity | right; reflexivity]|].
  intros [].
Qed.










(* ================================================================== *)
(** * Further properties of the indentation checker *)
(* ================================================================== *)

(** ** Lines and contents *)

Lemma split_lines_not_nil (s : string) : split_lines s <> [].
Proof.
  induction s as [|c s IH]; simpl; [discriminate|].
  destruct (Ascii.eqb c nl); [discriminate|].
  destruct (split_lines s); discriminate.
Qed.

Lemma join_split_lines (s : string) : join_lines (split_lines s) = s.
Proof.
  induction s as [|c s IH]; simpl; [reflexivity|].
  destruct (Ascii.eqb_spec c nl) as [->|Hne].
  - pose proof (split_lines_not_nil s) as Hn.
    destruct (split_lines s) as [|h t] eqn:E; [contradiction|].
    cbn [join_lines]. cbn [join_lines] in IH. rewrite IH. reflexivity.
  - pose proof (split_lines_not_nil s) as Hn.
    destruct (split_lines s) as [|h t] eqn:E; [contradiction|].
    destruct t as [|h' t]; simpl in *; rewrite <- IH; reflexivity.
Qed.

Lemma contains_char_cons (d c : ascii) (s : string) :
  contains (String d "") (String c s) = Ascii.eqb c d || contains (String d "") s.
Proof.
  simpl. destruct (ascii_dec d c) as [<-|Hne].
  - rewrite Ascii.eqb_refl. destruct s; reflexivity.
  - destruct (Ascii.eqb_spec c d) as [->|_]; [contradiction | reflexivity].
Qed.

Lemma single_line_cons (c : ascii) (s : string) :
  single_line (String c s) = negb (Ascii.eqb c nl) && single_line s.
Proof.
  unfold single_line. rewrite contains_char_cons. apply negb_orb.
Qed.

Lemma split_single_line (s : string) : single_line s = true -> split_lines s = [s].
Proof.
  induction s as [|c s IH]; [reflexivity|].
  rewrite single_line_cons. intros H. apply andb_true_iff in H. destruct H as [Hc Hs].
  simpl. apply negb_true_iff in Hc. rewrite Hc, (IH Hs). reflexivity.
Qed.

Lemma split_lines_append (a b : string) :
  single_line a = true ->
  split_lines (a ++ String nl b) = a :: split_lines b.
Proof.
  induction a as [|c a IH]; simpl.
  - intros _. reflexivity.
  - rewrite single_line_cons. intros H. apply andb_true_iff in H. destruct H as [Hc Ha].
    apply negb_true_iff in Hc. rewrite Hc, (IH Ha). reflexivity.
Qed.

Lemma split_join_lines (l : list string) :
  l <> [] -> Forall (fun x => single_line x = true) l ->
  split_lines (join_lines l) = l.
Proof.
  induction l as [|x l IH]; intros Hne Hall; [contradiction|].
  inversion Hall as [|? ? Hx Hl]; subst.
  destruct l as [|y l].
  - simpl. apply split_single_line. exact Hx.
  - change (join_lines (x :: y :: l)) with (x ++ String nl (join_lines (y :: l)))%string.
    rewrite (split_lines_append _ _ Hx). rewrite IH; [reflexivity | discriminate | exact Hl].
Qed.

Lemma split_lines_single (s : string) :
  Forall (fun x => single_line x = true) (split_lines s).
Proof.
  induction s as [|c s IH]; simpl.
  - constructor; [reflexivity | constructor].
  - destruct (Ascii.eqb_spec c nl) as [->|Hne].
    + constructor; [reflexivity | exact IH].
    + pose proof (split_lines_not_nil s) as Hn.
      destruct (split_lines s) as [|h t]; [contradiction|].
      inversion IH as [|? ? Hh Ht]; subst.
      constructor; [|exact Ht].
      rewrite single_line_cons, Hh.
      destruct (Ascii.eqb_spec c nl); [contradiction | reflexivity].
Qed.

(** ** [_get_indentation_level] *)

Lemma startswith_char_cons (d c : ascii) (s : string) :
  startswith (String d "") (String c s) = Ascii.eqb c d.
Proof.
  unfold startswith. simpl. destruct (ascii_dec d c) as [<-|Hne].
  - rewrite Ascii.eqb_refl. destruct s; reflexivity.
  - destruct (Ascii.eqb_spec c d) as [->|_]; [contradiction | reflexivity].
Qed.

Lemma indentation_from_spec (s : string) : forall k,
  exists n rest,
    s = (spaces n ++ rest)%string /\ startswith " " rest = false
    /\ Rule005.indentation_from s k
       = if startswith (String tab "") rest then -1 else k + Z.of_nat n.
Proof.
  induction s as [|c s IH]; intros k.
  - exists 0%nat, "". simpl. repeat split. lia.
  - simpl. destruct (Ascii.eqb_spec c " ") as [->|Hsp].
    + destruct (IH (k + 1)) as (n & rest & Hs & Hr & Hi).
      exists (S n), rest. split; [rewrite Hs; reflexivity|]. split; [exact Hr|].
      rewrite Hi. destruct (startswith (String tab "") rest); [reflexivity | lia].
    + exists 0%nat, (String c s). split; [reflexivity|].
      rewrite !startswith_char_cons.
      destruct (Ascii.eqb_spec c " "); [contradiction|]. split; [reflexivity|].
      destruct (Ascii.eqb c tab); [reflexivity | simpl; lia].
Qed.

(** X1. Every line is a run of spaces followed by a rest that does not
    start with a space; [_get_indentation_level] returns the length of the
    run, or -1 when the rest starts with a tab. *)
Theorem indentation_level_counts_leading_spaces (line : string) :
  exists n rest,
    line = (spaces n ++ rest)%string /\ startswith " " rest = false
    /\ Rule005._get_indentation_level line
       = if startswith (String tab "") rest then -1 else Z.of_nat n.
Proof.
  destruct (indentation_from_spec line 0) as (n & rest & Hl & Hr & Hi).
  exists n, rest. split; [exact Hl|]. split; [exact Hr|].
  unfold Rule005._get_indentation_level. rewrite Hi. reflexivity.
Qed.

(** ** The nesting depth of the scan *)

Lemma scan_line_levels_nonneg file_path is_tfvars_file lines st n line :
  0 <= Rule005.brace_level st -> 0 <= Rule005.bracket_level st ->
  0 <= Rule005.brace_level
         (fst (fst (Rule005.scan_line file_path is_tfvars_file lines st n line)))
  /\ 0 <= Rule005.bracket_level
            (fst (fst (Rule005.scan_line file_path is_tfvars_file lines st n line))).
Proof.
  intros Hb Hk. unfold Rule005.scan_line.
  destruct (String.eqb (strip line) ""); [simpl; auto|].
  destruct (Rule005.in_heredoc _); [simpl; auto|].
  destruct (startswith "#" (strip line)); [simpl; auto|].
  destruct (_ =? -1); simpl; lia.
Qed.

Lemma scan_state_after_levels_nonneg file_path is_tfvars_file lines rest :
  forall st n,
    0 <= Rule005.brace_level st -> 0 <= Rule005.bracket_level st ->
    0 <= Rule005.brace_level
           (Rule005.scan_state_after file_path is_tfvars_file lines st n rest)
    /\ 0 <= Rule005.bracket_level
              (Rule005.scan_state_after file_path is_tfvars_file lines st n rest).
Proof.
  induction rest as [|line rest IH]; intros st n Hb Hk; simpl; [auto|].
  destruct (scan_line_levels_nonneg file_path is_tfvars_file lines st n line Hb Hk)
    as [Hb' Hk'].
  apply IH; assumption.
Qed.

(** X2. Whatever the file, the brace depth and the bracket depth the scan
    holds after any number of lines are never negative: closing braces
    that open nothing are clamped at depth 0. *)
Theorem nesting_depth_never_negative (file_path content : string) (k : nat) :
  let lines := split_lines content in
  let st := Rule005.scan_state_after file_path (endswith ".tfvars" file_path) lines
              Rule005.initial_scan 1 (firstn k lines) in
  0 <= Rule005.brace_level st /\ 0 <= Rule005.bracket_level st.
Proof.
  cbv zeta. apply scan_state_after_levels_nonneg; simpl; lia.
Qed.

(** ** The errors of the scan *)

Lemma validate_expected_differs (line_content : string) (indent_level : Z)
  (is_tfvars_file : bool) (depth b k e : Z) :
  Rule005.validate_expected line_content indent_level is_tfvars_file depth b k = Some e ->
  e <> indent_level.
Proof.
  unfold Rule005.validate_expected.
  destruct (_ && _ && _ && _).
  - destruct (Z.ltb_spec 0 indent_level); [|discriminate]. intros [= <-]. lia.
  - destruct (_ && _).
    + intros [= <-].
      repeat match goal with
             | |- context [?x =? ?y] => destruct (Z.eqb_spec x y)
             end; lia.
    + destruct (_ && _ && _ && _ && _) eqn:E.
      * intros [= <-].
        apply andb_true_iff in E. destruct E as [E _].
        apply andb_true_iff in E. destruct E as [E _].
        apply andb_true_iff in E. destruct E as [E _].
        apply andb_true_iff in E. destruct E as [E _].
        apply Z.eqb_eq in E. lia.
      * cbv zeta.
        match goal with
        | |- context [negb (indent_level =? ?x)] =>
            destruct (Z.eqb_spec indent_level x) as [_|Hne]
        end; [discriminate|].
        intros [= <-]. auto.
Qed.

Lemma scan_line_report_shape file_path is_tfvars_file lines st n line r :
  In r (snd (Rule005.scan_line file_path is_tfvars_file lines st n line)) ->
  strip line <> "" /\ startswith "#" (strip line) = false
  /\ 0 <= Rule005._get_indentation_level line
  /\ exists expected,
       expected <> Rule005._get_indentation_level line
       /\ r = mkReport file_path "ST.005"
                (Rule005.indent_message (Rule005._get_indentation_level line) expected)
                n.
Proof.
  unfold Rule005.scan_line.
  destruct (String.eqb_spec (strip line) ""); [intros []|].
  destruct (Rule005.in_heredoc _); [intros []|].
  destruct (startswith "#" (strip line)) eqn:Hc; [intros []|].
  destruct (Z.eqb_spec (Rule005._get_indentation_level line) (-1)) as [|Hne]; [intros []|].
  cbn [snd]. unfold Rule005._validate_line_indentation.
  destruct (Rule005.validate_expected _ _ _ _ _ _) as [e|] eqn:E; [|intros []].
  intros [<-|[]]. split; [assumption|]. split; [reflexivity|]. split.
  - destruct (indentation_from_cases line 0 (Z.le_refl 0)) as [H|H];
      unfold Rule005._get_indentation_level in *; [contradiction | exact H].
  - exists e. split; [|reflexivity]. exact (validate_expected_differs _ _ _ _ _ _ _ E).
Qed.

(** X3. Every error the indentation checker logs carries the file path and
    the rule ST.005, and the number of a line of the file that is neither
    blank nor a comment; its message states the number of leading spaces of
    that very line and an expected indentation that differs from it. *)
Theorem indentation_reports_are_sound (file_path content : string) :
  Forall
    (fun r =>
       r_file r = file_path /\ r_rule r = "ST.005" /\ 1 <= r_line r
       /\ exists line expected,
            nth_error (split_lines content) (Z.to_nat (r_line r - 1)) = Some line
            /\ strip line <> "" /\ startswith "#" (strip line) = false
            /\ 0 <= Rule005._get_indentation_level line
            /\ expected <> Rule005._get_indentation_level line
            /\ r_msg r
               = Rule005.indent_message (Rule005._get_indentation_level line) expected)
    (Rule005.check_st005_indentation_level file_path content).
Proof.
  apply Forall_forall. intros r Hin.
  unfold Rule005.check_st005_indentation_level in Hin.
  apply scan_lines_origin in Hin. destruct Hin as (k & line & st' & Hk & Hr & Hin).
  destruct (scan_line_report_shape _ _ _ _ _ _ _ Hin) as (Hb & Hc & Hi & e & He & ->).
  cbn [r_file r_rule r_line r_msg] in *.
  split; [reflexivity|]. split; [reflexivity|]. split; [lia|].
  exists line, e.
  replace (Z.to_nat (1 + Z.of_nat k - 1)) with k by lia. auto 10.
Qed.

(** ** Lines inside a heredoc *)

Lemma scan_line_in_heredoc file_path is_tfvars_file lines t b k n line :
  strip line <> t ->
  Rule005.scan_line file_path is_tfvars_file lines
    (Rule005.mkScan (Rule005.mkHeredoc true (Some t)) b k) n line
  = (Rule005.mkScan (Rule005.mkHeredoc true (Some t)) b k,
     if String.eqb (strip line) "" then Rule005.Blank else Rule005.InHeredoc, []).
Proof.
  intros Hne. unfold Rule005.scan_line.
  destruct (String.eqb (strip line) ""); [reflexivity|].
  unfold Rule005._check_heredoc_state. cbn [Rule005.heredoc Rule005.in_heredoc
    Rule005.terminator negb Rule005.terminator_matches].
  destruct (String.eqb_spec (strip line) t); [contradiction|].
  rewrite andb_false_r. reflexivity.
Qed.

(** X4. Inside a heredoc with terminator [t], lines whose stripped text is
    not [t] log nothing, whatever they hold, and leave the heredoc state
    and both nesting depths as they are: the scan goes on after them as if
    it had just entered the heredoc. *)
Theorem heredoc_body_is_skipped (file_path : string) (is_tfvars_file : bool)
  (lines : list string) (t : string) (body rest : list string) (b k n : Z) :
  Forall (fun l => strip l <> t) body ->
  Rule005.scan_lines file_path is_tfvars_file lines
    (Rule005.mkScan (Rule005.mkHeredoc true (Some t)) b k) n (body ++ rest)
  = Rule005.scan_lines file_path is_tfvars_file lines
      (Rule005.mkScan (Rule005.mkHeredoc true (Some t)) b k)
      (n + Z.of_nat (List.length body)) rest
  /\ Rule005.scan_state_after file_path is_tfvars_file lines
       (Rule005.mkScan (Rule005.mkHeredoc true (Some t)) b k) n body
     = Rule005.mkScan (Rule005.mkHeredoc true (Some t)) b k.
Proof.
  revert n. induction body as [|line body IH]; intros n Hall.
  - simpl. rewrite Z.add_0_r. split; reflexivity.
  - inversion Hall as [|? ? Hl Hb]; subst.
    cbn [app Rule005.scan_lines Rule005.scan_state_after].
    rewrite (scan_line_in_heredoc _ _ _ _ _ _ _ _ Hl). cbn [fst app].
    destruct (IH (n + 1) Hb) as [IH1 IH2]. rewrite IH1, IH2.
    split; [|reflexivity]. f_equal. cbn [List.length]. lia.
Qed.

Lemma heredoc_body_is_skipped_witness :
  Rule005.scan_lines "main.tf" false [] 
    (Rule005.mkScan (Rule005.mkHeredoc true (Some "EOT")) 1 0) 3
    (heredoc_body_example ++ ["EOT"; "}"])
  = Rule005.scan_lines "main.tf" false []
      (Rule005.mkScan (Rule005.mkHeredoc true (Some "EOT")) 1 0) 5 ["EOT"; "}"].
Proof.
  refine (proj1 (heredoc_body_is_skipped "main.tf" false [] "EOT"
                   heredoc_body_example ["EOT"; "}"] 1 0 3 _)).
  repeat constructor; vm_compute; discriminate.
Defined.

(** ** Blank lines *)

Lemma scan_line_any_lines file_path is_tfvars_file lines lines' st n line :
  Rule005.scan_line file_path is_tfvars_file lines st n line
  = Rule005.scan_line file_path is_tfvars_file lines' st n line.
Proof. reflexivity. Qed.

Lemma scan_lines_any_lines file_path is_tfvars_file lines lines' rest :
  forall st n,
    Rule005.scan_lines file_path is_tfvars_file lines st n rest
    = Rule005.scan_lines file_path is_tfvars_file lines' st n rest.
Proof.
  induction rest as [|line rest IH]; intros st n; simpl; [reflexivity|].
  rewrite (scan_line_any_lines _ _ lines lines'). 
  destruct (Rule005.scan_line _ _ lines' st n line) as [[st' f] errs].
  rewrite IH. reflexivity.
Qed.

Lemma scan_lines_app file_path is_tfvars_file lines a : forall b st n,
  Rule005.scan_lines file_path is_tfvars_file lines st n (a ++ b)
  = (Rule005.scan_lines file_path is_tfvars_file lines st n a
     ++ Rule005.scan_lines file_path is_tfvars_file lines
          (Rule005.scan_state_after file_path is_tfvars_file lines st n a)
          (n + Z.of_nat (List.length a)) b)%list.
Proof.
  induction a as [|line a IH]; intros b st n.
  - simpl. rewrite Z.add_0_r. reflexivity.
  - cbn [app Rule005.scan_lines Rule005.scan_state_after].
    destruct (Rule005.scan_line file_path is_tfvars_file lines st n line)
      as [[st' f] errs].
    cbn [fst]. rewrite IH, app_assoc.
    replace (n + Z.of_nat (List.length (line :: a)))
      with (n + 1 + Z.of_nat (List.length a)) by (cbn [List.length]; lia).
    reflexivity.
Qed.

Lemma scan_line_next_number file_path is_tfvars_file lines st n line :
  Rule005.scan_line file_path is_tfvars_file lines st (n + 1) line
  = (fst (Rule005.scan_line file_path is_tfvars_file lines st n line),
     map (fun r => mkReport (r_file r) (r_rule r) (r_msg r) (r_line r + 1))
       (snd (Rule005.scan_line file_path is_tfvars_file lines st n line))).
Proof.
  unfold Rule005.scan_line.
  destruct (String.eqb (strip line) ""); [reflexivity|].
  destruct (Rule005.in_heredoc _); [reflexivity|].
  destruct (startswith "#" (strip line)); [reflexivity|].
  destruct (_ =? -1); [reflexivity|].
  cbn [fst snd]. unfold Rule005._validate_line_indentation.
  destruct (Rule005.validate_expected _ _ _ _ _ _); reflexivity.
Qed.

Lemma scan_lines_next_number file_path is_tfvars_file lines rest : forall st n,
  Rule005.scan_lines file_path is_tfvars_file lines st (n + 1) rest
  = map (fun r => mkReport (r_file r) (r_rule r) (r_msg r) (r_line r + 1))
      (Rule005.scan_lines file_path is_tfvars_file lines st n rest).
Proof.
  induction rest as [|line rest IH]; intros st n; simpl; [reflexivity|].
  rewrite scan_line_next_number.
  destruct (Rule005.scan_line file_path is_tfvars_file lines st n line)
    as [[st' f] errs].
  cbn [fst snd]. rewrite map_app, IH. reflexivity.
Qed.

Lemma scan_lines_upper_bound file_path is_tfvars_file lines rest st n r :
  In r (Rule005.scan_lines file_path is_tfvars_file lines st n rest) ->
  r_line r < n + Z.of_nat (List.length rest).
Proof.
  intros Hin. destruct (scan_lines_origin _ _ _ _ _ _ _ Hin) as (k & l & _ & Hk & -> & _).
  assert (k < List.length rest)%nat by (apply nth_error_Some; congruence). lia.
Qed.

Lemma map_id_on {A : Type} (f : A -> A) (l : list A) :
  (forall x, In x l -> f x = x) -> map f l = l.
Proof.
  induction l as [|x l IH]; intros H; simpl; [reflexivity|].
  rewrite (H x) by (left; reflexivity). rewrite IH; [reflexivity|].
  intros y Hy. apply H. right. exact Hy.
Qed.

Lemma scan_with_blank_line file_path is_tfvars_file lines lines' before blank after :
  strip blank = "" ->
  Rule005.scan_lines file_path is_tfvars_file lines Rule005.initial_scan 1
    (before ++ blank :: after)
  = map (shift_after (Z.of_nat (List.length before)))
      (Rule005.scan_lines file_path is_tfvars_file lines' Rule005.initial_scan 1
         (before ++ after)).
Proof.
  intros Hb.
  rewrite (scan_lines_any_lines _ _ lines' lines).
  rewrite !scan_lines_app, map_app.
  f_equal.
  - symmetry. apply map_id_on. intros r Hr. unfold shift_after.
    apply scan_lines_upper_bound in Hr.
    destruct (Z.ltb_spec (Z.of_nat (List.length before)) (r_line r)); [lia | reflexivity].
  - cbn [Rule005.scan_lines]. unfold Rule005.scan_line at 1. rewrite Hb. cbn [String.eqb app].
    rewrite scan_lines_next_number. apply map_ext_in. intros r Hr. unfold shift_after.
    apply scan_lines_lower_bound in Hr.
    destruct (Z.ltb_spec (Z.of_nat (List.length before)) (r_line r)); [reflexivity | lia].
Qed.

(** X5. A blank line added to a file changes nothing but line numbers: the
    checker logs the same errors, those of the lines after the new one
    moved one line down. *)
Theorem blank_line_only_shifts_reports (file_path : string)
  (before after : list string) (blank : string) :
  Forall (fun l => single_line l = true) before ->
  Forall (fun l => single_line l = true) after ->
  single_line blank = true -> strip blank = "" ->
  Rule005.check_st005_indentation_level file_path
    (join_lines (before ++ blank :: after))
  = map (shift_after (Z.of_nat (List.length before)))
      (Rule005.check_st005_indentation_level file_path (join_lines (before ++ after))).
Proof.
  intros Hbefore Hafter Hs Hb. unfold Rule005.check_st005_indentation_level.
  rewrite (split_join_lines (before ++ blank :: after)%list).
  - destruct (before ++ after)%list as [|x l] eqn:E.
    + apply app_eq_nil in E. destruct E as [-> ->]. simpl.
      unfold Rule005.scan_line. rewrite Hb. reflexivity.
    + rewrite <- E. rewrite (split_join_lines (before ++ after)%list).
      * apply scan_with_blank_line. exact Hb.
      * rewrite E. discriminate.
      * apply Forall_app. split; assumption.
  - destruct before; discriminate.
  - apply Forall_app. split; [assumption|]. constructor; assumption.
Qed.

Lemma blank_line_only_shifts_reports_witness :
  Rule005.check_st005_indentation_level "main.tf"
    (join_lines (["locals {"] ++ "  " :: [" a = 1"; "}"]))
  = map (shift_after 1)
      (Rule005.check_st005_indentation_level "main.tf"
         (join_lines (["locals {"] ++ [" a = 1"; "}"]))).
Proof.
  apply (blank_line_only_shifts_reports "main.tf" ["locals {"] [" a = 1"; "}"] "  ");
    repeat constructor.
Defined.

(* ================================================================== *)
(** * Further properties of the alignment checker *)
(* ================================================================== *)

(** ** Comment removal *)

Lemma prefix_refl (s : string) : String.prefix s s = true.
Proof.
  induction s as [|c s IH]; simpl; [reflexivity|].
  destruct (ascii_dec c c); [exact IH | contradiction].
Qed.

Lemma prefix_nil (s : string) : String.prefix "" s = true.
Proof. destruct s; reflexivity. Qed.

Lemma prefix_trans (a b c : string) :
  String.prefix a b = true -> String.prefix b c = true -> String.prefix a c = true.
Proof.
  revert b c. induction a as [|x a IH]; intros b c; [intros; apply prefix_nil|].
  destruct b as [|y b]; [discriminate|]. destruct c as [|z c]; [simpl; discriminate|].
  simpl. destruct (ascii_dec x y) as [->|]; [|discriminate].
  destruct (ascii_dec y z) as [->|]; [|discriminate].
  apply IH.
Qed.

Lemma take_prefix (n : nat) (s : string) : String.prefix (take n s) s = true.
Proof.
  revert s. induction n as [|n IH]; intros s; [apply prefix_nil|].
  destruct s as [|c s]; [reflexivity|]. simpl.
  destruct (ascii_dec c c); [apply IH | contradiction].
Qed.

Lemma rstrip_by_prefix (p : ascii -> bool) (s : string) :
  String.prefix (rstrip_by p s) s = true.
Proof.
  induction s as [|c s IH]; [reflexivity|]. simpl.
  destruct (rstrip_by p s) as [|d r] eqn:E.
  - destruct (p c); [reflexivity|]. simpl.
    destruct (ascii_dec c c); [apply prefix_nil | contradiction].
  - cbn [String.prefix]. destruct (ascii_dec c c); [exact IH | contradiction].
Qed.

Lemma prefix_single_line (a b : string) :
  String.prefix a b = true -> single_line b = true -> single_line a = true.
Proof.
  revert b. induction a as [|x a IH]; intros b; [reflexivity|].
  destruct b as [|y b]; [discriminate|]. simpl.
  destruct (ascii_dec x y) as [->|]; [|discriminate].
  rewrite !single_line_cons. intros Hp H. apply andb_true_iff in H. destruct H as [Hy Hb].
  rewrite Hy. simpl. apply (IH b Hp Hb).
Qed.

Lemma remove_comment_prefix (line : string) :
  String.prefix (Rule003.remove_comment line) line = true.
Proof.
  unfold Rule003.remove_comment.
  destruct (contains "#" line); [|apply prefix_refl].
  destruct (Rule003.comment_index _ _ _ _ _) as [i|]; [|apply prefix_refl].
  cbv zeta. destruct (String.eqb _ ""); [apply prefix_refl|].
  apply (prefix_trans _ (take i line)); [apply rstrip_by_prefix | apply take_prefix].
Qed.

Lemma Forall2_map_l {A B : Type} (R : B -> A -> Prop) (f : A -> B) (l : list A) :
  (forall x, In x l -> R (f x) x) -> Forall2 R (map f l) l.
Proof.
  induction l as [|x l IH]; intros H; simpl; constructor.
  - apply H. left. reflexivity.
  - apply IH. intros y Hy. apply H. right. exact Hy.
Qed.

Lemma removed_lines (content : string) :
  split_lines (Rule003._remove_comments_for_parsing content)
  = map Rule003.remove_comment (split_lines content).
Proof.
  unfold Rule003._remove_comments_for_parsing. apply split_join_lines.
  - pose proof (split_lines_not_nil content). destruct (split_lines content);
      [contradiction | discriminate].
  - apply Forall_forall. intros x Hx. apply in_map_iff in Hx.
    destruct Hx as (l & <- & Hl).
    apply (prefix_single_line _ l (remove_comment_prefix l)).
    pose proof (split_lines_single content) as H. rewrite Forall_forall in H. auto.
Qed.

(** X6. Comment removal keeps the line structure: the result has as many
    lines as the content, and each of its lines is a prefix of the line of
    the content at the same place, so that line numbers keep their
    meaning. *)
Theorem comment_removal_keeps_lines (content : string) :
  List.length (split_lines (Rule003._remove_comments_for_parsing content))
  = List.length (split_lines content)
  /\ Forall2 (fun cleaned original => String.prefix cleaned original = true)
       (split_lines (Rule003._remove_comments_for_parsing content))
       (split_lines content).
Proof.
  rewrite removed_lines. split; [apply length_map|].
  apply Forall2_map_l. intros x _. apply remove_comment_prefix.
Qed.

Lemma comment_index_prefix (s : string) : forall p i0 prev q qc i,
  Rule003.comment_index s i0 prev q qc = Some i ->
  String.prefix p s = true -> (i0 + String.length p <= i)%nat ->
  Rule003.comment_index p i0 prev q qc = None.
Proof.
  induction s as [|c s IH]; intros p i0 prev q qc i; [discriminate|].
  destruct p as [|d p]; [reflexivity|].
  cbn [String.prefix]. destruct (ascii_dec d c) as [->|]; [|discriminate].
  cbn [Rule003.comment_index String.length].
  intros H Hp Hlen.
  destruct (Rule003.is_quote c && _).
  - destruct (negb q); [|destruct (Ascii.eqb c qc)];
      apply (IH _ _ _ _ _ _ H Hp); lia.
  - destruct (Ascii.eqb c "#" && negb q).
    + injection H as <-. lia.
    + apply (IH _ _ _ _ _ _ H Hp); lia.
Qed.

Lemma prefix_length (a b : string) :
  String.prefix a b = true -> (String.length a <= String.length b)%nat.
Proof.
  revert b. induction a as [|x a IH]; intros b; [simpl; lia|].
  destruct b as [|y b]; [simpl; discriminate|]. simpl.
  destruct (ascii_dec x y); [|discriminate].
  intros H. apply IH in H. lia.
Qed.

Lemma take_length_le (n : nat) (s : string) : (String.length (take n s) <= n)%nat.
Proof.
  revert s. induction n as [|n IH]; intros s; simpl; [lia|].
  destruct s; simpl; [lia|]. specialize (IH s). lia.
Qed.

Lemma remove_comment_idempotent (line : string) :
  Rule003.remove_comment (Rule003.remove_comment line) = Rule003.remove_comment line.
Proof.
  unfold Rule003.remove_comment at 2 3.
  destruct (contains "#" line) eqn:Hc.
  - destruct (Rule003.comment_index line 0 None false " ") as [i|] eqn:Hi.
    + cbv zeta. destruct (String.eqb _ "") eqn:Hs.
      * unfold Rule003.remove_comment. rewrite Hc, Hi. cbv zeta. rewrite Hs. reflexivity.
      * unfold Rule003.remove_comment.
        destruct (contains "#" (rstrip (take i line))); [|reflexivity].
        rewrite (comment_index_prefix line (rstrip (take i line)) 0 None false " " i Hi);
          [reflexivity | |].
        -- apply (prefix_trans _ (take i line)); [apply rstrip_by_prefix | apply take_prefix].
        -- pose proof (prefix_length _ _ (rstrip_by_prefix isspace (take i line))).
           pose proof (take_length_le i line). unfold rstrip. lia.
    + unfold Rule003.remove_comment. rewrite Hc, Hi. reflexivity.
  - unfold Rule003.remove_comment. rewrite Hc. reflexivity.
Qed.

(** X7. Comment removal is idempotent: cleaning a cleaned content changes
    nothing. *)
Theorem comment_removal_idempotent (content : string) :
  Rule003._remove_comments_for_parsing (Rule003._remove_comments_for_parsing content)
  = Rule003._remove_comments_for_parsing content.
Proof.
  unfold Rule003._remove_comments_for_parsing at 1. rewrite removed_lines.
  unfold Rule003._remove_comments_for_parsing. f_equal.
  rewrite map_map. apply map_ext. apply remove_comment_idempotent.
Qed.

Lemma split_lines_contains (d : ascii) (s : string) (l : string) :
  In l (split_lines s) -> contains (String d "") l = true ->
  contains (String d "") s = true.
Proof.
  revert l. induction s as [|c s IH]; intros l; simpl split_lines.
  - intros [<-|[]]. auto.
  - destruct (Ascii.eqb c nl).
    + intros [<-|H] Hc; [discriminate|].
      rewrite contains_char_cons. rewrite (IH l H Hc). apply orb_true_r.
    + pose proof (split_lines_not_nil s) as Hn.
      destruct (split_lines s) as [|h t]; [contradiction|].
      intros [<-|H] Hc; rewrite contains_char_cons.
      * rewrite contains_char_cons in Hc. apply orb_true_iff in Hc.
        destruct Hc as [->|Hc]; [reflexivity|].
        rewrite (IH h (or_introl eq_refl) Hc). apply orb_true_r.
      * rewrite (IH l (or_intror H) Hc). apply orb_true_r.
Qed.

(** X8. A content without any [#] comes back unchanged from comment
    removal. *)
Theorem comment_removal_without_hash (content : string) :
  contains "#" content = false ->
  Rule003._remove_comments_for_parsing content = content.
Proof.
  intros H. unfold Rule003._remove_comments_for_parsing.
  rewrite (map_id_on Rule003.remove_comment).
  - apply join_split_lines.
  - intros l Hl. unfold Rule003.remove_comment.
    destruct (contains "#" l) eqn:Hc; [|reflexivity].
    rewrite (split_lines_contains "#" content l Hl Hc) in H. discriminate H.
Qed.

Lemma comment_removal_without_hash_witness :
  Rule003._remove_comments_for_parsing e1_content = e1_content.
Proof.
  apply comment_removal_without_hash. reflexivity.
Defined.

(** ** Block extraction *)

Lemma drop_closing_brace_prefix (l : list string) :
  exists t, l = (Rule003.drop_closing_brace l ++ t)%list.
Proof.
  unfold Rule003.drop_closing_brace. destruct (rev l) as [|last before] eqn:E.
  - exists []. symmetry. apply app_nil_r.
  - destruct (String.eqb (strip last) "}").
    + exists [last]. rewrite <- (rev_involutive l), E. reflexivity.
    + exists []. symmetry. apply app_nil_r.
Qed.

Lemma collect_block_shape (rest : list string) :
  forall block_type start_line i brace_count acc,
  exists pre tail,
    rest = (pre ++ tail)%list
    /\ Rule003.collect_block block_type start_line rest i brace_count acc
       = (block_type, start_line, Rule003.drop_closing_brace (acc ++ pre))
         :: Rule003.scan_blocks tail (i + Z.of_nat (List.length pre)).
Proof.
  induction rest as [|cur rest IH]; intros bt start i bc acc.
  - exists [], []. split; [reflexivity|]. simpl. rewrite app_nil_r. reflexivity.
  - cbn [Rule003.collect_block]. cbv zeta.
    destruct (0 <? _).
    + destruct (IH bt start (i + 1)
                  (bc + count_char "{" cur - count_char "}" cur) (acc ++ [cur])%list)
        as (pre & tail & -> & ->).
      exists (cur :: pre), tail. split; [reflexivity|].
      rewrite <- app_assoc. cbn [app List.length].
      replace (i + 1 + Z.of_nat (List.length pre))
        with (i + Z.of_nat (S (List.length pre))) by lia.
      reflexivity.
    + exists [cur], rest. split; [reflexivity|]. reflexivity.
Qed.

Lemma block_in_lines_later (pre tail : list string) (i : Z) (b : Rule003.block) :
  block_in_lines tail (i + Z.of_nat (List.length pre)) b ->
  block_in_lines (pre ++ tail) i b.
Proof.
  intros (k & header & t & Hk & Hs & Hh & Hb).
  exists (List.length pre + k)%nat, header, t.
  split; [rewrite nth_error_app2 by lia;
          replace (List.length pre + k - List.length pre)%nat with k by lia; exact Hk|].
  split; [lia|]. split; [exact Hh|].
  replace (S (List.length pre + k)) with (List.length pre + S k)%nat by lia.
  rewrite skipn_app.
  rewrite (skipn_all2 pre) by lia.
  replace (List.length pre + S k - List.length pre)%nat with (S k) by lia.
  exact Hb.
Qed.

Lemma scan_blocks_spec (n : nat) : forall rest i,
  (List.length rest <= n)%nat ->
  Forall (block_in_lines rest i) (Rule003.scan_blocks rest i)
  /\ StronglySorted block_before (Rule003.scan_blocks rest i).
Proof.
  induction n as [|n IH]; intros rest i Hlen.
  - destruct rest; [|simpl in Hlen; lia]. simpl. split; constructor.
  - destruct rest as [|l rest]; [simpl; split; constructor|].
    simpl in Hlen. cbn [Rule003.scan_blocks]. cbv zeta.
    assert (Hshift : forall pre tail b,
              rest = (pre ++ tail)%list ->
              block_in_lines tail (i + 1 + Z.of_nat (List.length pre)) b ->
              block_in_lines (l :: rest) i b).
    { intros pre tail b -> Hb. apply (block_in_lines_later (l :: pre) tail i b).
      cbn [List.length].
      replace (i + Z.of_nat (S (List.length pre)))
        with (i + 1 + Z.of_nat (List.length pre)) by lia.
      exact Hb. }
    destruct (Rule003.header_block_type (strip l)) as [bt|] eqn:Hh.
    + assert (Hhead : forall pre tail body t,
                rest = (pre ++ tail)%list -> pre = (body ++ t)%list ->
                block_in_lines (l :: rest) i (bt, i + 1, body)).
      { intros pre tail body t -> ->. exists 0%nat, l, (t ++ tail)%list.
        cbn [nth_error fst snd skipn]. split; [reflexivity|]. split; [lia|].
        split; [exact Hh|]. rewrite app_assoc. reflexivity. }
      assert (Hcons : forall pre tail body t,
                rest = (pre ++ tail)%list -> pre = (body ++ t)%list ->
                Forall (block_in_lines (l :: rest) i)
                  ((bt, i + 1, body)
                   :: Rule003.scan_blocks tail (i + 1 + Z.of_nat (List.length pre)))
                /\ StronglySorted block_before
                     ((bt, i + 1, body)
                      :: Rule003.scan_blocks tail (i + 1 + Z.of_nat (List.length pre)))).
      { intros pre tail body t Hr Hp.
        destruct (IH tail (i + 1 + Z.of_nat (List.length pre))) as [Hf Hs].
        { rewrite Hr, length_app in Hlen. lia. }
        split.
        - constructor; [apply (Hhead pre tail body t Hr Hp)|].
          eapply Forall_impl; [|exact Hf]. intros b Hb. apply (Hshift pre tail b Hr Hb).
        - constructor; [exact Hs|].
          eapply Forall_impl; [|exact Hf].
          intros b (k & _ & _ & _ & Hsb & _). unfold block_before. cbn [fst snd].
          rewrite Hsb. rewrite Hp, length_app. lia. }
      destruct (contains "{" (strip l) && contains "}" (strip l)).
      * pose proof (Hcons [] rest [] [] eq_refl eq_refl) as H.
        cbn [List.length Z.of_nat] in H. rewrite Z.add_0_r in H. exact H.
      * destruct (collect_block_shape rest bt (i + 1) (i + 1) 1 [])
          as (pre & tail & Hr & ->).
        cbn [app].
        destruct (drop_closing_brace_prefix pre) as (t & Ht).
        apply (Hcons pre tail (Rule003.drop_closing_brace pre) t Hr Ht).
    + destruct (IH rest (i + 1)) as [Hf Hs]; [lia|]. split; [|exact Hs].
      eapply Forall_impl; [|exact Hf]. intros b Hb.
      apply (Hshift [] rest b eq_refl). simpl. rewrite Z.add_0_r. exact Hb.
Qed.

(** X9. Every block [_extract_code_blocks] returns sits in the content: its
    start line is the number of a line on which one of the header patterns
    matches and yields its block type, and its body is a run of the lines
    that follow this header, so that the body line of index [j] is the line
    number [start_line + j + 1] of the content. *)
Theorem extracted_block_is_in_content (content : string) :
  Forall
    (fun b : Rule003.block =>
       let '(block_type, start_line, block_lines) := b in
       1 <= start_line
       /\ exists header tail,
            nth_error (split_lines content) (Z.to_nat (start_line - 1)) = Some header
            /\ Rule003.header_block_type (strip header) = Some block_type
            /\ skipn (Z.to_nat start_line) (split_lines content)
               = (block_lines ++ tail)%list)
    (Rule003._extract_code_blocks content).
Proof.
  unfold Rule003._extract_code_blocks.
  destruct (scan_blocks_spec (List.length (split_lines content)) (split_lines content) 0
              (le_n _)) as [Hf _].
  eapply Forall_impl; [|exact Hf].
  intros [[bt start] body] (k & header & tail & Hk & Hs & Hh & Hb). cbn [fst snd] in *.
  subst start. split; [lia|]. exists header, tail.
  replace (Z.to_nat (0 + Z.of_nat k + 1 - 1)) with k by lia.
  replace (Z.to_nat (0 + Z.of_nat k + 1)) with (S k) by lia. auto.
Qed.

(** X10. The blocks come in file order and do not overlap: the header of a
    block lies after the last body line of every block before it. *)
Theorem extracted_blocks_in_file_order (content : string) :
  StronglySorted block_before (Rule003._extract_code_blocks content).
Proof.
  unfold Rule003._extract_code_blocks.
  apply (scan_blocks_spec (List.length (split_lines content)) (split_lines content) 0
           (le_n _)).
Qed.

(** ** The exemption for lines under an indentation error *)

(** X11. [_has_st005_issue] raises exactly when the line is indented by 4,
    the block has lines and the index of the line lies beyond the end of
    the block by more than one: the line before it, which it reads, does
    not exist.  A line with an odd indentation is an issue whatever the
    index. *)
Theorem st005_issue_raises_only_beyond_block (line : string) (indent_level : Z)
  (relative_line_idx : nat) (block_lines : list string) :
  (Rule003._has_st005_issue line indent_level relative_line_idx block_lines = None
   <-> leading_ws line = 4 /\ block_lines <> []
       /\ (List.length block_lines < relative_line_idx)%nat)
  /\ (leading_ws line mod 2 <> 0 ->
      Rule003._has_st005_issue line indent_level relative_line_idx block_lines
      = Some true).
Proof.
  unfold Rule003._has_st005_issue. cbv zeta. split.
  - destruct (Z.eqb_spec (leading_ws line mod 2) 0) as [Hev|Hodd]; cbn [negb].
    + destruct (Z.eqb_spec (leading_ws line) 4) as [H4|H4]; cbn [andb].
      * destruct block_lines as [|b bl]; cbn [negb andb].
        -- split; [discriminate | intros (_ & H & _); contradiction].
        -- destruct (Nat.ltb_spec 0 relative_line_idx) as [Hpos|Hpos].
           ++ unfold Rule003.bind.
              destruct (nth_error (b :: bl) (relative_line_idx - 1)) as [prev|] eqn:E.
              ** split; [discriminate|]. intros (_ & _ & Hlen).
                 assert (H : nth_error (b :: bl) (relative_line_idx - 1) <> None)
                   by congruence.
                 apply nth_error_Some in H. lia.
              ** split; [|reflexivity]. intros _. apply nth_error_None in E.
                 split; [exact H4|]. split; [discriminate | lia].
           ++ split; [discriminate|]. intros (_ & _ & Hlen). simpl in Hlen. lia.
      * split; [discriminate | intros (H & _); contradiction].
    + split; [discriminate|]. intros (H & _). rewrite H in Hodd. contradiction.
  - intros Hodd. destruct (Z.eqb_spec (leading_ws line mod 2) 0); [contradiction|].
    reflexivity.
Qed.

(** ** Spacing around the equals sign in [.tfvars] files *)

Lemma find_char_from_app (c : ascii) (a b : string) : forall i,
  contains (String c "") a = false ->
  find_char_from c (a ++ String c b) i = i + len a.
Proof.
  induction a as [|x a IH]; intros i Hc.
  - simpl. rewrite Ascii.eqb_refl. unfold len. simpl. lia.
  - rewrite contains_char_cons in Hc. apply orb_false_iff in Hc. destruct Hc as [Hx Ha].
    simpl. rewrite Hx. rewrite (IH (i + 1) Ha). unfold len. simpl String.length. lia.
Qed.

Lemma take_app_length (a b : string) : take (String.length a) (a ++ b) = a.
Proof. induction a as [|x a IH]; simpl; [destruct b; reflexivity | now rewrite IH]. Qed.

Lemma drop_app_length (a b : string) : drop (String.length a) (a ++ b) = b.
Proof. induction a as [|x a IH]; simpl; [reflexivity | exact IH]. Qed.

Lemma slice_to_app (a b : string) : slice_to (a ++ b) (len a) = a.
Proof.
  unfold slice_to, norm_index, len. rewrite length_append.
  destruct (Z.ltb_spec (Z.of_nat (String.length a)) 0); [lia|].
  rewrite Z.min_r by lia. rewrite Nat2Z.id. apply take_app_length.
Qed.

Lemma slice_from_app (a b : string) : slice_from (a ++ b) (len a) = b.
Proof.
  unfold slice_from, norm_index, len. rewrite length_append.
  destruct (Z.ltb_spec (Z.of_nat (String.length a)) 0); [lia|].
  rewrite Z.min_r by lia. rewrite Nat2Z.id. apply drop_app_length.
Qed.

Lemma append_assoc (a b c : string) : ((a ++ b) ++ c)%string = (a ++ b ++ c)%string.
Proof. induction a as [|x a IH]; simpl; [reflexivity | now rewrite IH]. Qed.

Lemma lacks_leading_space_startswith (s : string) :
  Rule003.lacks_leading_space s = negb (startswith " " s).
Proof.
  destruct s as [|c s]; [reflexivity|]. rewrite startswith_char_cons. reflexivity.
Qed.

Lemma prefix_cons (d : ascii) (p : string) (c : ascii) (s : string) :
  String.prefix (String d p) (String c s) = Ascii.eqb c d && String.prefix p s.
Proof.
  simpl. destruct (ascii_dec d c) as [<-|Hne].
  - rewrite Ascii.eqb_refl. reflexivity.
  - destruct (Ascii.eqb_spec c d); [congruence | reflexivity].
Qed.

Lemma two_spaces_startswith (s : string) :
  (1 <? len s) && String.eqb (slice_to s 2) "  " = startswith "  " s.
Proof.
  destruct s as [|c [|d s]]; [reflexivity | |].
  - unfold startswith. rewrite prefix_cons. rewrite andb_false_r. reflexivity.
  - assert (Hlen : (1 <? len (String c (String d s))) = true).
    { apply Z.ltb_lt. unfold len. simpl String.length. lia. }
    rewrite Hlen. cbn [andb].
    assert (Hs : slice_to (String c (String d s)) 2 = String c (String d "")).
    { unfold slice_to, norm_index, len. simpl String.length.
      change (2 <? 0) with false. cbv iota.
      rewrite Z.min_r by lia. reflexivity. }
    rewrite Hs. unfold startswith. rewrite !prefix_cons, prefix_nil, andb_true_r.
    destruct (String.eqb_spec (String c (String d "")) "  ") as [E|E].
    + injection E as -> ->. reflexivity.
    + destruct (Ascii.eqb_spec c " ") as [->|]; [|reflexivity].
      destruct (Ascii.eqb_spec d " ") as [->|]; [|reflexivity].
      contradiction E. reflexivity.
Qed.

(** X12. For a line [name = value] of a [.tfvars] file, [name] without an
    equals sign: [_check_parameter_spacing_tfvars] logs nothing exactly
    when the name is not blank and ends with a space, and the value starts
    with one space and not with two; its errors, two at most, carry the
    line number it was given.  A line without an equals sign has no
    error. *)
Theorem tfvars_spacing_of_assignment (name value : string) (actual_line_num : Z)
  (block_type : string) :
  contains "=" name = false ->
  let errors :=
    Rule003._check_parameter_spacing_tfvars (name ++ String "=" value)
      actual_line_num block_type in
  (errors = []
   <-> strip name <> "" /\ endswith " " name = true
       /\ startswith " " value = true /\ startswith "  " value = false)
  /\ Forall (fun e => fst e = actual_line_num) errors
  /\ (List.length errors <= 2)%nat
  /\ Rule003._check_parameter_spacing_tfvars name actual_line_num block_type = [].
Proof.
  intros Hname errors. subst errors.
  unfold Rule003._check_parameter_spacing_tfvars. cbv zeta.
  unfold find_char. rewrite (find_char_from_app "=" name value 0 Hname).
  pose proof (Zle_0_nat (String.length name)) as Hlen. fold (len name) in Hlen.
  replace (0 + len name) with (len name) by lia.
  destruct (Z.eqb_spec (len name) (-1)); [lia|].
  rewrite slice_to_app.
  replace (name ++ String "=" value)%string with ((name ++ "=") ++ value)%string
    by (rewrite append_assoc; reflexivity).
  replace (len name + 1) with (len (name ++ "="))
    by (unfold len; rewrite length_append; simpl; lia).
  rewrite slice_from_app.
  rewrite lacks_leading_space_startswith, two_spaces_startswith.
  unfold truthy.
  split; [|split; [|split]].
  - destruct (String.eqb_spec (strip name) ""); cbn [negb orb].
    + split; [destruct (negb (startswith " " value)); discriminate|].
      intros (H & _). contradiction.
    + destruct (endswith " " name); cbn [negb orb app].
      * destruct (startswith " " value); cbn [negb].
        -- destruct (startswith "  " value); split; try discriminate; auto.
           intros (_ & _ & _ & H). discriminate H.
        -- split; [discriminate|]. intros (_ & _ & H & _). discriminate H.
      * split; [destruct (negb (startswith " " value)); discriminate|].
        intros (_ & H & _). discriminate H.
  - destruct (_ || _); destruct (negb (startswith " " value));
      try destruct (startswith "  " value); repeat constructor.
  - destruct (_ || _); destruct (negb (startswith " " value));
      try destruct (startswith "  " value); simpl; lia.
  - assert (Hf : forall i, find_char_from "=" name i = -1).
    { clear Hlen n. induction name as [|x a IH]; intros i; [reflexivity|].
      rewrite contains_char_cons in Hname. apply orb_false_iff in Hname.
      destruct Hname as [Hx Ha]. simpl. rewrite Hx. apply IH. exact Ha. }
    rewrite Hf. reflexivity.
Qed.

Lemma tfvars_spacing_of_assignment_witness :
  Rule003._check_parameter_spacing_tfvars "name = 1" 7 "tfvars" = [].
Proof.
  apply (proj1 (tfvars_spacing_of_assignment "name " " 1" 7 "tfvars" eq_refl)).
  repeat split. discriminate.
Defined.

(** ** The members a [.tfvars] group reports *)

Lemma tparam_of_fields (b : bool) (e : Rule003.tentry) (p : Rule003.tparam) :
  Rule003.tparam_of b e = Some p ->
  Rule003.tp_line_num p = fst e /\ Rule003.tp_line p = snd e
  /\ Rule003.tp_equals_pos p = find_char "=" (expandtabs (snd e))
  /\ find_char "=" (expandtabs (snd e)) <> -1.
Proof.
  unfold Rule003.tparam_of. destruct e as [n s]. cbv zeta.
  destruct (Z.eqb_spec (find_char "=" (expandtabs s)) (-1)); [discriminate|].
  destruct (_ && _); [discriminate|].
  destruct (_ || _); [discriminate|].
  destruct (Rule003.tfvars_param_name _); [|discriminate].
  intros [= <-]. simpl. auto.
Qed.

Lemma tparam_data_in (b : bool) (l : list Rule003.tentry) (p : Rule003.tparam) :
  In p (Rule003.tparam_data b l) ->
  exists e, In e l /\ Rule003.tparam_of b e = Some p.
Proof.
  induction l as [|e l IH]; simpl; [intros []|].
  destruct (Rule003.tparam_of b e) as [q|] eqn:E.
  - intros [<-|H]; [exists e; auto|].
    destruct (IH H) as (e' & He' & Hp). exists e'. auto.
  - intros H. destruct (IH H) as (e' & He' & Hp). exists e'. auto.
Qed.

Lemma unique_group_lines_in (l : list Rule003.tentry) : forall seen e,
  In e (Rule003.unique_group_lines_from seen l) -> In e l.
Proof.
  induction l as [|[n s] l IH]; intros seen e; simpl; [auto|].
  destruct (existsb (Z.eqb n) seen).
  - intros H. right. apply (IH _ _ H).
  - intros [<-|H]; [left; reflexivity | right; apply (IH _ _ H)].
Qed.

Lemma member_is_group_line (group_lines : list Rule003.tentry) (p : Rule003.tparam) :
  In p (tfvars_members group_lines) ->
  In (Rule003.tp_line_num p, Rule003.tp_line p) group_lines
  /\ find_char "=" (expandtabs (Rule003.tp_line p)) <> -1.
Proof.
  intros Hp. apply tparam_data_in in Hp. destruct Hp as ([n s] & He & Hp).
  destruct (tparam_of_fields _ _ _ Hp) as (-> & -> & _ & Hf). cbn [fst snd] in *.
  split; [apply (unique_group_lines_in _ _ _ He) | exact Hf].
Qed.

Lemma single_position_errors (pd : list Rule003.tparam) (indent_level : Z)
  (block_type : string) (c : Z) (e : Rule003.error) :
  In e (Rule003.tfvars_single_position pd indent_level block_type c) ->
  exists p, In p pd /\ Rule003.tp_should_skip p = false
            /\ fst e = Rule003.tp_line_num p.
Proof.
  unfold Rule003.tfvars_single_position. cbv zeta. intros He.
  apply in_app_or in He. destruct He as [He|He].
  - destruct (c <? _); [|destruct He].
    apply in_flat_map in He. destruct He as (p & Hp & He). exists p.
    destruct (Rule003.tp_should_skip p); [destruct He|].
    destruct (Rule003.has_tab p); [destruct He|].
    destruct (negb _); [|destruct He].
    destruct He as [<-|[]]. auto.
  - apply in_flat_map in He. destruct He as (p & Hp & He). exists p.
    destruct (Rule003.tp_should_skip p); [destruct He|].
    destruct (Rule003.has_tab p); [destruct He|].
    destruct (_ =? -1); [destruct He|].
    destruct (Rule003.lacks_leading_space _); [|destruct He].
    destruct He as [<-|[]]. auto.
Qed.

Lemma most_common_errors (pd : list Rule003.tparam) (indent_level : Z)
  (block_type : string) (c n : Z) (e : Rule003.error) :
  In e (Rule003.tfvars_most_common pd indent_level block_type c n) ->
  exists p, In p pd /\ Rule003.tp_should_skip p = false
            /\ fst e = Rule003.tp_line_num p.
Proof.
  unfold Rule003.tfvars_most_common. cbv zeta. intros He.
  apply in_app_or in He. destruct He as [He|He];
    apply in_flat_map in He; destruct He as (p & Hp & He); exists p;
    (destruct (Rule003.tp_should_skip p); [destruct He|]).
  - destruct (negb _); [|destruct He].
    destruct (_ && _); [destruct He|].
    destruct (_ <=? 1); [destruct He|].
    destruct (not_aligned_line _ _ _ _ _ _ He) as [Hl _]. auto.
  - destruct (Rule003.lacks_leading_space _); [|destruct He].
    destruct He as [<-|[]]. auto.
Qed.

Lemma against_formula_errors (pd : list Rule003.tparam) (indent_level : Z)
  (block_type : string) (u : bool) (c n f : Z) (e : Rule003.error) :
  In e (Rule003.tfvars_against_formula pd indent_level block_type u c n f) ->
  exists p, In p pd /\ Rule003.tp_should_skip p = false
            /\ fst e = Rule003.tp_line_num p.
Proof.
  unfold Rule003.tfvars_against_formula. cbv zeta. intros He.
  apply in_flat_map in He. destruct He as (p & Hp & He). exists p.
  destruct (Rule003.tp_should_skip p); [destruct He|].
  destruct (_ =? f); [destruct He|].
  destruct (u && _); [destruct He|].
  destruct (Rule003.has_tab p); [destruct He|].
  destruct (negb _); [destruct He|].
  match type of He with
  | In _ (if ?b then _ else _) => destruct b; [destruct He|]
  end.
  destruct (not_aligned_line _ _ _ _ _ _ He) as [Hl _]. auto.
Qed.

(** X13. [_check_group_alignment_tfvars] reports members of the group
    only, and never a nested object or array declaration: every error
    carries the line number of a group line that holds an equals sign and
    is not such a declaration.  A group with fewer than two members has no
    error. *)
Theorem tfvars_group_reports_its_members (group_lines : list Rule003.tentry)
  (indent_level : Z) (block_type : string) :
  Forall
    (fun e =>
       exists p,
         In p (tfvars_members group_lines) /\ Rule003.tp_should_skip p = false
         /\ fst e = Rule003.tp_line_num p
         /\ In (Rule003.tp_line_num p, Rule003.tp_line p) group_lines
         /\ find_char "=" (expandtabs (Rule003.tp_line p)) <> -1)
    (Rule003._check_group_alignment_tfvars group_lines indent_level block_type)
  /\ ((List.length (tfvars_members group_lines) < 2)%nat ->
      Rule003._check_group_alignment_tfvars group_lines indent_level block_type = []).
Proof.
  unfold Rule003._check_group_alignment_tfvars. cbv zeta.
  fold (tfvars_members group_lines). split.
  - apply Forall_forall. intros e He.
    assert (H : exists p, In p (tfvars_members group_lines)
                          /\ Rule003.tp_should_skip p = false
                          /\ fst e = Rule003.tp_line_num p).
    { destruct (_ <? 2); [destruct He|].
      destruct (Rule003.tfvars_positions (tfvars_members group_lines))
        as [|[a z] [|e2 rest]].
      - destruct (_ && _).
        + apply (most_common_errors _ _ _ _ _ _ He).
        + apply (against_formula_errors _ _ _ _ _ _ _ _ He).
      - apply (single_position_errors _ _ _ _ _ He).
      - destruct (Rule003.first_most_common (a, z) (e2 :: rest)) as [mp mc].
        destruct (_ && _).
        + apply (most_common_errors _ _ _ _ _ _ He).
        + apply (against_formula_errors _ _ _ _ _ _ _ _ He). }
    destruct H as (p & Hp & Hs & Hl). exists p.
    destruct (member_is_group_line _ _ Hp). auto 6.
  - intros Hlen.
    destruct (Z.ltb_spec (Z.of_nat (List.length (tfvars_members group_lines))) 2);
      [reflexivity | lia].
Qed.

Lemma unique_group_lines_app (l extra : list Rule003.tentry) : forall seen,
  (forall e, In e extra -> In (fst e) (map fst l) \/ In (fst e) seen) ->
  Rule003.unique_group_lines_from seen (l ++ extra)
  = Rule003.unique_group_lines_from seen l.
Proof.
  induction l as [|[n s] l IH]; intros seen H.
  - cbn [app map] in *. induction extra as [|[n s] extra IHe]; [reflexivity|].
    simpl. destruct (H (n, s) (or_introl eq_refl)) as [[]|Hin].
    apply existsb_Z_in in Hin. cbn [fst] in Hin. rewrite Hin.
    apply IHe. intros e He. apply H. right. exact He.
  - cbn [app Rule003.unique_group_lines_from].
    destruct (existsb (Z.eqb n) seen) eqn:E.
    + apply IH. intros e He. destruct (H e He) as [[Hn|Hl]|Hs]; auto.
      right. cbn [fst] in Hn. rewrite <- Hn. apply existsb_Z_in. exact E.
    + f_equal. apply IH. intros e He.
      destruct (H e He) as [[Hn|Hl]|Hs]; auto.
      * right. left. exact Hn.
      * right. right. exact Hs.
Qed.

(** X14. Lines whose number the group has already met are ignored: only
    the first line of each line number counts, so that adding such lines at
    the end of a group changes none of its errors. *)
Theorem tfvars_group_ignores_repeated_lines (group_lines extra : list Rule003.tentry)
  (indent_level : Z) (block_type : string) :
  (forall e, In e extra -> In (fst e) (map fst group_lines)) ->
  Rule003._check_group_alignment_tfvars (group_lines ++ extra) indent_level block_type
  = Rule003._check_group_alignment_tfvars group_lines indent_level block_type.
Proof.
  intros H. unfold Rule003._check_group_alignment_tfvars.
  rewrite (unique_group_lines_app group_lines extra []); [reflexivity|].
  intros e He. left. apply H. exact He.
Qed.

Lemma tfvars_group_ignores_repeated_lines_witness :
  Rule003._check_group_alignment_tfvars (two_line_group ++ repeated_lines) 0 "tfvars"
  = Rule003._check_group_alignment_tfvars two_line_group 0 "tfvars".
Proof.
  apply (tfvars_group_ignores_repeated_lines two_line_group repeated_lines 0 "tfvars").
  intros e [<-|[<-|[]]]; simpl; auto.
Defined.

(** ** The partition of a block: its sections hold lines of the block *)

Lemma Forall_one {A : Type} (P : A -> Prop) (x : A) : P x -> Forall P [x].
Proof. intros H. constructor; [exact H | constructor]. Qed.

Lemma deref_of_block bl st r :
  heap_of_block bl st -> Forall (entry_of_block bl) (Rule003.deref st r).
Proof.
  unfold heap_of_block, Rule003.deref. intros H.
  destruct (nth_in_or_default r (Rule003.heap st) []) as [Hin | Hd]; [|rewrite Hd; constructor].
  rewrite Forall_forall in H. apply H. exact Hin.
Qed.

Lemma current_of_block bl st :
  heap_of_block bl st -> Forall (entry_of_block bl) (Rule003.current_value st).
Proof. apply deref_of_block. Qed.

Lemma update_nth_of_block bl (e : Rule003.entry) (h : list (list Rule003.entry)) :
  forall n,
    Forall (Forall (entry_of_block bl)) h -> entry_of_block bl e ->
    Forall (Forall (entry_of_block bl))
      (Rule003.update_nth n (fun l => (l ++ [e])%list) h).
Proof.
  induction h as [|x h IH]; intros n Hh He; [destruct n; constructor|].
  inversion Hh as [|? ? Hx Hh']; subst. destruct n as [|n]; simpl.
  - constructor; [|exact Hh']. apply Forall_app. split; [exact Hx | apply Forall_one; exact He].
  - constructor; [exact Hx | apply IH; assumption].
Qed.

Lemma append_current_of_block bl st e :
  heap_of_block bl st -> entry_of_block bl e ->
  heap_of_block bl (Rule003.append_current st e).
Proof. intros H He. apply update_nth_of_block; assumption. Qed.

Lemma set_current_new_of_block bl st v :
  heap_of_block bl st -> Forall (entry_of_block bl) v ->
  heap_of_block bl (Rule003.set_current_new st v).
Proof.
  intros H Hv. unfold heap_of_block, Rule003.set_current_new. simpl.
  apply Forall_app. split; [exact H | apply Forall_one; exact Hv].
Qed.

Lemma push_section_of_block bl st :
  heap_of_block bl st -> heap_of_block bl (Rule003.push_section st).
Proof. intros H. exact H. Qed.

Lemma flush_of_block bl st :
  heap_of_block bl st -> heap_of_block bl (Rule003.flush st).
Proof.
  intros H. unfold Rule003.flush. destruct (Rule003.is_empty _); [exact H|].
  apply set_current_new_of_block; [apply push_section_of_block; exact H | constructor].
Qed.

Lemma push_copy_of_block bl st :
  heap_of_block bl st -> heap_of_block bl (Rule003.push_copy st).
Proof.
  intros H. unfold Rule003.push_copy. simpl.
  apply set_current_new_of_block; [|constructor].
  unfold heap_of_block. simpl. apply Forall_app. split; [exact H|].
  apply Forall_one. apply current_of_block. exact H.
Qed.

Lemma push_alias_of_block bl st :
  heap_of_block bl st -> heap_of_block bl (Rule003.push_alias st).
Proof.
  intros H. unfold Rule003.push_alias.
  apply set_current_new_of_block; [exact H | constructor].
Qed.

Lemma pop_stack_of_block bl st :
  heap_of_block bl st -> heap_of_block bl (Rule003.pop_stack st).
Proof.
  intros H. unfold Rule003.pop_stack. destruct (rev _); exact H.
Qed.

Lemma filter_of_block bl (f : Rule003.entry -> bool) (l : list Rule003.entry) :
  Forall (entry_of_block bl) l -> Forall (entry_of_block bl) (filter f l).
Proof.
  intros H. apply Forall_forall. intros x Hx. apply filter_In in Hx.
  rewrite Forall_forall in H. apply H. apply Hx.
Qed.

Lemma split_by_indent_of_block bl st indent :
  heap_of_block bl st -> heap_of_block bl (Rule003.split_by_indent st indent).
Proof.
  intros H. unfold Rule003.split_by_indent. cbv zeta.
  destruct (Rule003.has_different_indent _ _); [|exact H].
  pose proof (current_of_block bl st H) as Hc.
  apply set_current_new_of_block;
    [|apply filter_of_block; exact Hc].
  destruct (Rule003.is_empty _); [exact H|].
  unfold heap_of_block. simpl. apply Forall_app. split; [exact H|].
  apply Forall_one. apply filter_of_block. exact Hc.
Qed.

Lemma merge_with_earlier_of_block bl st indent :
  heap_of_block bl st -> heap_of_block bl (Rule003.merge_with_earlier_section st indent).
Proof.
  intros H. unfold Rule003.merge_with_earlier_section.
  destruct (Rule003.last_section_at_indent _ _ _ _); exact H.
Qed.

Lemma with_levels_of_block bl st b k :
  heap_of_block bl st -> heap_of_block bl (Rule003.with_levels st b k).
Proof. intros H. exact H. Qed.

Lemma with_hstate_of_block bl st h :
  heap_of_block bl st -> heap_of_block bl (Rule003.with_hstate st h).
Proof. intros H. exact H. Qed.

Create HintDb block_heap.

#[local] Hint Resolve append_current_of_block set_current_new_of_block
  push_section_of_block flush_of_block push_copy_of_block push_alias_of_block
  pop_stack_of_block split_by_indent_of_block merge_with_earlier_of_block
  with_levels_of_block with_hstate_of_block : block_heap.

Lemma stage_list_object_of_block bl line idx st :
  heap_of_block bl st -> entry_of_block bl (line, idx) ->
  heap_of_block bl (flow_state (Rule003.stage_list_object line idx st)).
Proof.
  intros H He. unfold Rule003.stage_list_object. cbv zeta.
  destruct (_ && _ && _); simpl; auto with block_heap.
Qed.

Lemma stage_object_decl_of_block bl above line st :
  heap_of_block bl st -> heap_of_block bl (Rule003.stage_object_decl above line st).
Proof.
  intros H. unfold Rule003.stage_object_decl. cbv zeta.
  destruct (_ && _ && _); [|exact H].
  destruct (contains "=" _); [|exact H].
  destruct (String.eqb _ "{"); [|exact H].
  repeat match goal with
         | |- context [if ?b then _ else _] => destruct b
         end; auto with block_heap.
Qed.

Lemma stage_array_decl_of_block bl above line st :
  heap_of_block bl st -> heap_of_block bl (Rule003.stage_array_decl above line st).
Proof.
  intros H. unfold Rule003.stage_array_decl. cbv zeta.
  destruct (_ && _ && _); [|exact H].
  destruct (contains "=" _); [|exact H].
  destruct (String.eqb _ "["); [|exact H].
  repeat match goal with
         | |- context [if ?b then _ else _] => destruct b
         end; auto with block_heap.
Qed.

Lemma stage_array_element_of_block bl above line st :
  heap_of_block bl st -> heap_of_block bl (Rule003.stage_array_element above line st).
Proof.
  intros H. unfold Rule003.stage_array_element. cbv zeta.
  repeat match goal with
         | |- context [if ?b then _ else _] => destruct b
         end; auto with block_heap.
Qed.

Lemma stage_enter_body_of_block bl line idx st :
  heap_of_block bl st -> entry_of_block bl (line, idx) ->
  heap_of_block bl (flow_state (Rule003.stage_enter_body line idx st)).
Proof.
  intros H He. unfold Rule003.stage_enter_body. cbv zeta.
  destruct (_ && _ && _ && _ && _ && _); [|exact H].
  destruct (rev _) as [|[last_line_content ?] ?]; [exact H|].
  repeat match goal with
         | |- context [if ?b then _ else _] => destruct b
         end; simpl; auto with block_heap.
Qed.

Lemma stage_exit_object_of_block bl above next line idx st :
  heap_of_block bl st -> entry_of_block bl (line, idx) ->
  heap_of_block bl (flow_state (Rule003.stage_exit_object above next line idx st)).
Proof.
  intros H He. unfold Rule003.stage_exit_object. cbv zeta.
  destruct (_ && _ && _); [|exact H].
  destruct (negb (Rule003.is_empty (Rule003.section_stack st))).
  - assert (H1 : heap_of_block bl
                   (if Rule003.is_empty (Rule003.current_value st) then st
                    else Rule003.push_section st))
      by (destruct (Rule003.is_empty _); auto with block_heap).
    set (st1 := if Rule003.is_empty (Rule003.current_value st) then st
                else Rule003.push_section st) in *.
    assert (H2 : heap_of_block bl
                   (Rule003.append_current (Rule003.pop_stack st1) (line, idx)))
      by auto with block_heap.
    set (st2 := Rule003.append_current (Rule003.pop_stack st1) (line, idx)) in *.
    cbn [flow_state].
    destruct next as [next_line|]; [|exact H2].
    destruct (Rule003.is_param_line next_line); [|exact H2].
    destruct (Rule003.declaration_indent _); [|exact H2].
    repeat match goal with
           | |- context [if ?b then _ else _] => destruct b
           end; auto with block_heap.
  - destruct (Rule003.brace_level st =? 0); [|exact H].
    cbn [flow_state].
    match goal with
    | |- context [if ?b then _ else _] => destruct b
    end; auto with block_heap.
Qed.

Lemma stage_exit_array_of_block bl line prev st :
  heap_of_block bl st -> heap_of_block bl (Rule003.stage_exit_array line prev st).
Proof.
  intros H. unfold Rule003.stage_exit_array. cbv zeta.
  repeat match goal with
         | |- context [if ?b then _ else _] => destruct b
         end; auto with block_heap.
Qed.

Lemma process_line_of_block bl above next idx line st :
  heap_of_block bl st ->
  (fst (Rule003.heredoc_track (Rule003.hstate st) line (strip line)) = false ->
   entry_of_block bl (line, idx)) ->
  heap_of_block bl (Rule003.process_line above next idx line st).
Proof.
  intros H He. unfold Rule003.process_line. cbv zeta.
  destruct (Rule003.heredoc_track _ _ _) as [skip hs].
  destruct skip; [exact H|]. specialize (He eq_refl).
  destruct (String.eqb _ ""); [apply flush_of_block; exact H|].
  destruct (startswith "#" _); [exact H|].
  set (st0 := Rule003.with_levels _ _ _).
  assert (H0 : heap_of_block bl st0) by exact H.
  pose proof (stage_list_object_of_block bl line idx st0 H0 He) as H1.
  destruct (Rule003.stage_list_object line idx st0) as [s1|s1]; [exact H1|].
  cbn [flow_state] in H1.
  pose proof (stage_array_element_of_block bl above line _
                (stage_array_decl_of_block bl above line _
                   (stage_object_decl_of_block bl above line _ H1))) as H2.
  set (s2 := Rule003.stage_array_element above line _) in *.
  pose proof (stage_enter_body_of_block bl line idx s2 H2 He) as H3.
  destruct (Rule003.stage_enter_body line idx s2) as [s3|s3]; [exact H3|].
  cbn [flow_state] in H3.
  pose proof (stage_exit_object_of_block bl above next line idx s3 H3 He) as H4.
  destruct (Rule003.stage_exit_object above next line idx s3) as [s4|s4]; [exact H4|].
  cbn [flow_state] in H4.
  apply append_current_of_block; [|exact He].
  apply stage_exit_array_of_block. exact H4.
Qed.

Lemma flow_hstate_list_object line idx st :
  Rule003.hstate (flow_state (Rule003.stage_list_object line idx st))
  = Rule003.hstate st.
Proof.
  unfold Rule003.stage_list_object. cbv zeta. destruct (_ && _ && _); reflexivity.
Qed.

Lemma hstate_split_by_indent st indent :
  Rule003.hstate (Rule003.split_by_indent st indent) = Rule003.hstate st.
Proof.
  unfold Rule003.split_by_indent. cbv zeta.
  destruct (Rule003.has_different_indent _ _); [|reflexivity].
  destruct (Rule003.is_empty _); reflexivity.
Qed.

Lemma hstate_merge_with_earlier st indent :
  Rule003.hstate (Rule003.merge_with_earlier_section st indent) = Rule003.hstate st.
Proof.
  unfold Rule003.merge_with_earlier_section.
  destruct (Rule003.last_section_at_indent _ _ _ _); reflexivity.
Qed.

Lemma hstate_flush st : Rule003.hstate (Rule003.flush st) = Rule003.hstate st.
Proof. unfold Rule003.flush. destruct (Rule003.is_empty _); reflexivity. Qed.

Lemma hstate_pop_stack st : Rule003.hstate (Rule003.pop_stack st) = Rule003.hstate st.
Proof. unfold Rule003.pop_stack. destruct (rev _); reflexivity. Qed.

Lemma hstate_object_decl above line st :
  Rule003.hstate (Rule003.stage_object_decl above line st) = Rule003.hstate st.
Proof.
  unfold Rule003.stage_object_decl. cbv zeta.
  repeat match goal with
         | |- context [if ?b then _ else _] => destruct b
         end;
    rewrite ?hstate_split_by_indent, ?hstate_merge_with_earlier; reflexivity.
Qed.

Lemma hstate_array_decl above line st :
  Rule003.hstate (Rule003.stage_array_decl above line st) = Rule003.hstate st.
Proof.
  unfold Rule003.stage_array_decl. cbv zeta.
  repeat match goal with
         | |- context [if ?b then _ else _] => destruct b
         end;
    rewrite ?hstate_split_by_indent, ?hstate_merge_with_earlier; reflexivity.
Qed.

Lemma hstate_array_element above line st :
  Rule003.hstate (Rule003.stage_array_element above line st) = Rule003.hstate st.
Proof.
  unfold Rule003.stage_array_element. cbv zeta.
  repeat match goal with
         | |- context [if ?b then _ else _] => destruct b
         end;
    rewrite ?hstate_flush; reflexivity.
Qed.

Lemma flow_hstate_enter_body line idx st :
  Rule003.hstate (flow_state (Rule003.stage_enter_body line idx st))
  = Rule003.hstate st.
Proof.
  unfold Rule003.stage_enter_body. cbv zeta.
  destruct (_ && _ && _ && _ && _ && _); [|reflexivity].
  destruct (rev _) as [|[last_line_content ?] ?]; [reflexivity|].
  repeat match goal with
         | |- context [if ?b then _ else _] => destruct b
         end; reflexivity.
Qed.

Lemma flow_hstate_exit_object above next line idx st :
  Rule003.hstate (flow_state (Rule003.stage_exit_object above next line idx st))
  = Rule003.hstate st.
Proof.
  unfold Rule003.stage_exit_object. cbv zeta.
  destruct (_ && _ && _); [|reflexivity].
  destruct (negb (Rule003.is_empty (Rule003.section_stack st))).
  - set (st1 := if Rule003.is_empty (Rule003.current_value st) then st
                else Rule003.push_section st).
    assert (H1 : Rule003.hstate st1 = Rule003.hstate st)
      by (subst st1; destruct (Rule003.is_empty _); reflexivity).
    set (st2 := Rule003.append_current (Rule003.pop_stack st1) (line, idx)).
    assert (H2 : Rule003.hstate st2 = Rule003.hstate st)
      by (subst st2; cbn [Rule003.append_current Rule003.with_heap Rule003.hstate];
          rewrite hstate_pop_stack; exact H1).
    cbn [flow_state].
    destruct next as [next_line|]; [|exact H2].
    destruct (Rule003.is_param_line next_line); [|exact H2].
    destruct (Rule003.declaration_indent _); [|exact H2].
    repeat match goal with
           | |- context [if ?b then _ else _] => destruct b
           end; try exact H2.
    cbn [Rule003.append_current Rule003.with_heap Rule003.hstate].
    rewrite hstate_pop_stack. exact H2.
  - destruct (Rule003.brace_level st =? 0); [|reflexivity].
    cbn [flow_state].
    match goal with
    | |- context [if ?b then _ else _] => destruct b
    end; rewrite ?hstate_flush; reflexivity.
Qed.

Lemma hstate_exit_array line prev st :
  Rule003.hstate (Rule003.stage_exit_array line prev st) = Rule003.hstate st.
Proof.
  unfold Rule003.stage_exit_array. cbv zeta.
  repeat match goal with
         | |- context [if ?b then _ else _] => destruct b
         end;
    rewrite ?hstate_flush; reflexivity.
Qed.

(** The loop body leaves the heredoc state to the tracker. *)
Lemma process_line_hstate above next idx line st :
  Rule003.hstate (Rule003.process_line above next idx line st)
  = snd (Rule003.heredoc_track (Rule003.hstate st) line (strip line)).
Proof.
  unfold Rule003.process_line. cbv zeta.
  destruct (Rule003.heredoc_track _ _ _) as [skip hs]. cbn [snd].
  destruct skip; [reflexivity|].
  destruct (String.eqb _ ""); [rewrite hstate_flush; reflexivity|].
  destruct (startswith "#" _); [reflexivity|].
  set (st0 := Rule003.with_levels _ _ _).
  assert (H0 : Rule003.hstate st0 = hs) by reflexivity.
  pose proof (flow_hstate_list_object line idx st0) as H1.
  destruct (Rule003.stage_list_object line idx st0) as [s1|s1];
    cbn [flow_state] in H1; [congruence|].
  set (s2 := Rule003.stage_array_element above line _).
  assert (H2 : Rule003.hstate s2 = hs).
  { subst s2. rewrite hstate_array_element, hstate_array_decl, hstate_object_decl.
    congruence. }
  pose proof (flow_hstate_enter_body line idx s2) as H3.
  destruct (Rule003.stage_enter_body line idx s2) as [s3|s3];
    cbn [flow_state] in H3; [congruence|].
  pose proof (flow_hstate_exit_object above next line idx s3) as H4.
  destruct (Rule003.stage_exit_object above next line idx s3) as [s4|s4];
    cbn [flow_state] in H4; [congruence|].
  cbn [Rule003.append_current Rule003.with_heap Rule003.hstate].
  rewrite hstate_exit_array. congruence.
Qed.

Lemma tracker_after_snoc hs (lines : list string) (line : string) :
  tracker_after hs (lines ++ [line])
  = snd (Rule003.heredoc_track (tracker_after hs lines) line (strip line)).
Proof. unfold tracker_after. rewrite fold_left_app. reflexivity. Qed.

Lemma tracker_skips_at (before : list string) (line : string) (rest : list string) :
  tracker_skips (before ++ line :: rest) (List.length before)
  = fst (Rule003.heredoc_track (tracker_after Rule003.no_heredoc before) line
           (strip line)).
Proof.
  unfold tracker_skips.
  rewrite nth_error_app2 by lia. rewrite Nat.sub_diag. cbn [nth_error].
  rewrite firstn_app, Nat.sub_diag, firstn_all. cbn [firstn]. rewrite app_nil_r.
  reflexivity.
Qed.

Lemma partition_loop_of_block bl (rest : list string) : forall above idx st,
  bl = (rev above ++ rest)%list -> idx = List.length above ->
  Rule003.hstate st = tracker_after Rule003.no_heredoc (rev above) ->
  heap_of_block bl st ->
  heap_of_block bl (Rule003.partition_loop above idx rest st).
Proof.
  induction rest as [|line rest IH]; intros above idx st Hbl Hidx Hh H; [exact H|].
  cbn [Rule003.partition_loop]. apply IH.
  - rewrite Hbl. cbn [rev]. rewrite <- app_assoc. reflexivity.
  - simpl. lia.
  - rewrite process_line_hstate. cbn [rev]. rewrite tracker_after_snoc, Hh. reflexivity.
  - apply process_line_of_block; [exact H|]. intros Hskip.
    unfold entry_of_block. cbn [fst snd]. rewrite Hbl, Hidx. split.
    + rewrite nth_error_app2 by (rewrite length_rev; lia).
      rewrite length_rev, Nat.sub_diag. reflexivity.
    + rewrite <- (length_rev above), tracker_skips_at, <- Hh. exact Hskip.
Qed.

Lemma raw_sections_of_block (block_lines : list string) :
  Forall (Forall (entry_of_block block_lines)) (Rule003.raw_sections block_lines).
Proof.
  unfold Rule003.raw_sections. cbv zeta.
  set (st := Rule003.partition_loop [] 0 block_lines Rule003.initial_pstate).
  assert (H : heap_of_block block_lines st).
  { apply partition_loop_of_block; [reflexivity | reflexivity | reflexivity|].
    unfold heap_of_block. simpl. repeat constructor. }
  assert (H' : heap_of_block block_lines
                 (if Rule003.is_empty (Rule003.current_value st) then st
                  else Rule003.push_section st))
    by (destruct (Rule003.is_empty _); exact H).
  apply Forall_forall. intros sec Hsec. apply in_map_iff in Hsec.
  destruct Hsec as (r & <- & _). apply deref_of_block. exact H'.
Qed.

Lemma merge_missing_of_block bl (next_sec : list Rule003.entry) : forall merged_sec,
  Forall (entry_of_block bl) merged_sec -> Forall (entry_of_block bl) next_sec ->
  Forall (entry_of_block bl) (Rule003.merge_missing merged_sec next_sec).
Proof.
  unfold Rule003.merge_missing.
  induction next_sec as [|e next_sec IH]; intros merged Hm Hn; [exact Hm|].
  inversion Hn as [|? ? He Hn']; subst. simpl. apply IH; [|exact Hn'].
  destruct (Rule003.entry_in e merged); [exact Hm|].
  apply Forall_app. split; [exact Hm | apply Forall_one; exact He].
Qed.

Lemma merge_following_of_block bl attr current_sec (rest : list (list Rule003.entry)) :
  forall merged_sec,
    Forall (entry_of_block bl) merged_sec ->
    Forall (Forall (entry_of_block bl)) rest ->
    Forall (entry_of_block bl)
      (fst (Rule003.merge_following attr current_sec merged_sec rest))
    /\ Forall (Forall (entry_of_block bl))
         (snd (Rule003.merge_following attr current_sec merged_sec rest))
    /\ (List.length (snd (Rule003.merge_following attr current_sec merged_sec rest))
        <= List.length rest)%nat.
Proof.
  induction rest as [|next_sec rest IH]; intros merged Hm Hr; simpl.
  - auto.
  - inversion Hr as [|? ? Hn Hr']; subst.
    destruct (Rule003.has_param_at_indent next_sec 2).
    + destruct (_ && _ && _ && _); [simpl; auto|].
      destruct (IH (Rule003.merge_missing merged next_sec)
                  (merge_missing_of_block bl next_sec merged Hm Hn) Hr')
        as (H1 & H2 & H3).
      split; [exact H1|]. split; [exact H2 | lia].
    + destruct (Rule003.is_empty_section next_sec); [simpl; auto|].
      destruct (IH merged Hm Hr') as (H1 & H2 & H3).
      destruct (Rule003.merge_following attr current_sec merged rest) as [m r].
      simpl in *. split; [exact H1|]. split; [constructor; assumption | lia].
Qed.

Lemma merge_top_level_of_block bl attr (fuel : nat) : forall secs,
  Forall (Forall (entry_of_block bl)) secs ->
  Forall (Forall (entry_of_block bl))
    (Rule003.merge_top_level_sections fuel attr secs).
Proof.
  induction fuel as [|fuel IH]; intros secs H; [exact H|].
  destruct secs as [|current_sec rest]; [constructor|].
  inversion H as [|? ? Hc Hr]; subst. simpl.
  destruct (Rule003.has_param_at_indent current_sec 2).
  - destruct (merge_following_of_block bl attr current_sec rest current_sec Hc Hr)
      as (H1 & H2 & _).
    destruct (Rule003.merge_following attr current_sec current_sec rest) as [m r].
    simpl in *. constructor; [exact H1 | apply IH; exact H2].
  - constructor; [exact Hc | apply IH; exact Hr].
Qed.

Lemma separate_section_of_block bl block_lines (current_sec : list Rule003.entry) :
  Forall (entry_of_block bl) current_sec ->
  Forall (Forall (entry_of_block bl)) (Rule003.separate_section block_lines current_sec).
Proof.
  intros H. unfold Rule003.separate_section. cbv zeta.
  destruct (Rule003.is_empty _); [apply Forall_one; exact H|].
  assert (Ha : forall params others,
            Forall (entry_of_block bl)
              (Rule003.section_around current_sec params others))
    by (intros; apply filter_of_block; exact H).
  apply Forall_app. split; [|apply Forall_app; split].
  - destruct (_ && _); [|constructor].
    apply Forall_forall. intros sec Hsec. apply filter_In in Hsec.
    destruct Hsec as [[<-|[]] _]. apply Ha.
  - apply Forall_forall. intros sec Hsec. apply filter_In in Hsec.
    destruct Hsec as [Hsec _]. apply in_map_iff in Hsec.
    destruct Hsec as (g & <- & _). apply Ha.
  - destruct (_ && _); [apply Forall_one; exact H | constructor].
Qed.

Lemma merge_matching_of_block bl block_lines indent content
  (rest : list (list Rule003.entry)) :
  forall merged_sec,
    Forall (entry_of_block bl) merged_sec ->
    Forall (Forall (entry_of_block bl)) rest ->
    Forall (entry_of_block bl)
      (fst (Rule003.merge_matching block_lines indent content merged_sec rest))
    /\ Forall (Forall (entry_of_block bl))
         (snd (Rule003.merge_matching block_lines indent content merged_sec rest)).
Proof.
  induction rest as [|next_sec rest IH]; intros merged Hm Hr; simpl.
  - auto.
  - inversion Hr as [|? ? Hn Hr']; subst.
    destruct (filter _ next_sec) as [|[l idx] ps].
    + destruct (IH merged Hm Hr') as (H1 & H2).
      destruct (Rule003.merge_matching block_lines indent content merged rest) as [m r].
      simpl in *. split; [exact H1 | constructor; assumption].
    + destruct (Rule003.same_call_param _ _ _ _).
      * apply IH; [apply merge_missing_of_block; assumption | exact Hr'].
      * destruct (_ <? indent); [simpl; auto|].
        destruct (IH merged Hm Hr') as (H1 & H2).
        destruct (Rule003.merge_matching block_lines indent content merged rest)
          as [m r].
        simpl in *. split; [exact H1 | constructor; assumption].
Qed.

Lemma merge_call_sections_of_block bl block_lines (fuel : nat) : forall secs,
  Forall (Forall (entry_of_block bl)) secs ->
  Forall (Forall (entry_of_block bl))
    (Rule003.merge_call_sections fuel block_lines secs).
Proof.
  induction fuel as [|fuel IH]; intros secs H; [exact H|].
  destruct secs as [|current_sec rest]; [constructor|].
  inversion H as [|? ? Hc Hr]; subst. simpl.
  destruct (filter _ current_sec) as [|[l idx] [|p ps]];
    try (constructor; [exact Hc | apply IH; exact Hr]).
  destruct (Rule003.call_above_idx _ _);
    [|constructor; [exact Hc | apply IH; exact Hr]].
  match goal with
  | |- context [Rule003.merge_matching ?a ?b ?c ?d ?e] =>
      destruct (merge_matching_of_block bl a b c e d Hc Hr) as (H1 & H2);
      destruct (Rule003.merge_matching a b c d e) as [m r]
  end.
  simpl in *. constructor; [exact H1 | apply IH; exact H2].
Qed.

(** X15. Every member [(line, idx)] of every section
    [_split_into_code_sections] returns is a line of the block with its own
    index: [block_lines[idx]] is [line]; and it is not a line the heredoc
    tracker of the partition skips.  The splits, the merges and the
    aliasing of section lists never invent a line nor shift an index. *)
Theorem sections_hold_block_lines (g : Rule003.globals) (block_lines : list string) :
  Forall (Forall (entry_of_block block_lines))
    (fst (Rule003._split_into_code_sections g block_lines)).
Proof.
  unfold Rule003._split_into_code_sections. cbv zeta. cbn [fst].
  apply merge_call_sections_of_block.
  apply Forall_forall. intros sec Hsec. apply in_flat_map in Hsec.
  destruct Hsec as (s & Hs & Hsec).
  pose proof (merge_top_level_of_block block_lines
                (Rule003.getattr_block_lines (Rule003.mkGlobals (Some block_lines)))
                (List.length (Rule003.raw_sections block_lines))
                (Rule003.raw_sections block_lines)
                (raw_sections_of_block block_lines)) as H.
  rewrite Forall_forall in H.
  pose proof (separate_section_of_block block_lines block_lines s (H s Hs)) as H'.
  rewrite Forall_forall in H'. apply H'. exact Hsec.
Qed.

(** ** The check of a block never fails and reports lines of the block *)

Lemma split_sections_of_block (g : Rule003.globals) (block_lines : list string)
  (section : list Rule003.entry) :
  In section (fst (Rule003._split_into_code_sections g block_lines)) ->
  Forall (entry_of_block block_lines) section.
Proof.
  intros Hin.
  assert (H : Forall (Forall (entry_of_block block_lines))
                (fst (Rule003._split_into_code_sections g block_lines))).
  { unfold Rule003._split_into_code_sections. cbv zeta. cbn [fst].
    apply merge_call_sections_of_block.
    apply Forall_forall. intros sec Hsec. apply in_flat_map in Hsec.
    destruct Hsec as (s & Hs & Hsec).
    pose proof (merge_top_level_of_block block_lines block_lines
                  (List.length (Rule003.raw_sections block_lines))
                  (Rule003.raw_sections block_lines)
                  (raw_sections_of_block block_lines)) as H.
    rewrite Forall_forall in H.
    pose proof (separate_section_of_block block_lines block_lines s (H s Hs)) as H'.
    rewrite Forall_forall in H'. apply H'. exact Hsec. }
  rewrite Forall_forall in H. apply H. exact Hin.
Qed.

Lemma entry_index_in_range bl (e : Rule003.entry) :
  entry_of_block bl e -> (snd e < List.length bl)%nat.
Proof. unfold entry_of_block. intros [H _]. apply nth_error_Some. congruence. Qed.

Lemma collect_spec {A : Type} (f : A -> Rule003.exc (list Rule003.error)) (l : list A) :
  (forall x, In x l -> f x <> None) ->
  exists es,
    Rule003.collect f l = Some es
    /\ forall err, In err es -> exists x ex, In x l /\ f x = Some ex /\ In err ex.
Proof.
  induction l as [|x l IH]; intros H.
  - exists []. split; [reflexivity | intros err []].
  - destruct (f x) as [ex|] eqn:Ex; [|exfalso; apply (H x (or_introl eq_refl) Ex)].
    destruct IH as (es & Hes & Hin); [intros y Hy; apply H; right; exact Hy|].
    exists (ex ++ es)%list. simpl. rewrite Ex. simpl. rewrite Hes. simpl.
    split; [reflexivity|]. intros err Herr. apply in_app_or in Herr.
    destruct Herr as [Herr|Herr].
    + exists x, ex. auto.
    + destruct (Hin err Herr) as (y & ey & Hy & Hfy & Hey). exists y, ey. auto.
Qed.

Lemma parameter_lines_from_origin (section rest : list Rule003.entry) :
  forall hs e, In e (Rule003.parameter_lines_from section hs rest) ->
  exists e0, In e0 rest /\ snd e = snd e0 /\ fst e = rstrip (fst e0).
Proof.
  induction rest as [|[lc idx] rest IH]; intros hs e; simpl; [intros []|].
  assert (Hrec : forall hs', In e (Rule003.parameter_lines_from section hs' rest) ->
                 exists e0, ((lc, idx) = e0 \/ In e0 rest)
                            /\ snd e = snd e0 /\ fst e = rstrip (fst e0)).
  { intros hs' H. destruct (IH _ _ H) as (e0 & H0 & H1). exists e0. auto. }
  destruct (Rule003.heredoc_track hs (rstrip lc) (strip (rstrip lc))) as [skip hs'].
  destruct skip; [apply Hrec|].
  destruct (_ && _); [|apply Hrec].
  destruct (is_match _); [apply Hrec|].
  destruct (_ && _); [apply Hrec|].
  destruct (_ && _); [apply Hrec|].
  intros [<-|H]; [|apply (Hrec _ H)].
  exists (lc, idx). auto.
Qed.

Lemma section_index_check_ok bl (section : list Rule003.entry) :
  Forall (entry_of_block bl) section ->
  Rule003.section_index_check section bl = Some tt.
Proof.
  intros H. unfold Rule003.section_index_check.
  destruct bl as [|b bl]; [reflexivity|]. destruct section as [|e section]; [reflexivity|].
  assert (Hf : forallb
                 (fun e0 : Rule003.entry =>
                    negb (contains "=" (fst e0)) || startswith "#" (strip (fst e0))
                    || match nth_error (b :: bl) (snd e0) with
                       | Some _ => true
                       | None => false
                       end) (e :: section) = true).
  { apply forallb_forall. intros x Hx. rewrite Forall_forall in H.
    specialize (H x Hx). destruct H as [H _]. rewrite H. apply orb_true_r. }
  rewrite Hf. reflexivity.
Qed.

Lemma group_alignment_total (group_lines : list Rule003.entry) (indent_level : Z)
  (block_type : string) (block_start_line : Z) (block_lines : list string) :
  (forall e, In e group_lines -> (snd e < List.length block_lines)%nat) ->
  exists errs,
    Rule003._check_group_alignment group_lines indent_level block_type
      block_start_line block_lines = Some errs
    /\ forall err, In err errs ->
         exists e, In e group_lines /\ fst err = block_start_line + Z.of_nat (snd e) + 1.
Proof.
  intros Hidx. unfold Rule003._check_group_alignment. cbv zeta.
  assert (Hp : forall p, In p (Rule003.param_data group_lines) ->
               exists e, In e group_lines /\ Rule003.p_idx p = snd e).
  { intros p Hp. destruct (param_data_in _ _ Hp) as (e & He & Hpe).
    destruct (param_of_fields _ _ Hpe) as (_ & Hi & _). exists e. auto. }
  assert (Hr : forall p, In p (Rule003.param_data group_lines) ->
               (Rule003.p_idx p <= List.length block_lines)%nat).
  { intros p Hin. destruct (Hp p Hin) as (e & He & ->). specialize (Hidx e He). lia. }
  destruct (Rule003.param_data group_lines) as [|p [|q pd]] eqn:E.
  - exists []. split; [reflexivity | intros err []].
  - rewrite (should_skip_in_range _ _ _ (Hr p (or_introl eq_refl))). cbn [Rule003.bind].
    destruct (Hp p (or_introl eq_refl)) as (e & He & Hpi).
    destruct (exempt block_lines p); [exists []; split; [reflexivity | intros err []]|].
    destruct (negb _).
    + eexists. split; [reflexivity|]. intros err [<-|[]]. exists e. rewrite Hpi. auto.
    + exists []. split; [reflexivity | intros err []].
  - set (expected := Rule003.expected_equals_location _ _ _).
    destruct (collect_spec
                (Rule003.check_one_alignment expected indent_level block_type
                   block_start_line block_lines) (p :: q :: pd)) as (es & Hes & Hin).
    + intros x Hx. unfold Rule003.check_one_alignment. cbv zeta.
      destruct (_ =? expected); [discriminate|].
      rewrite (should_skip_in_range _ _ _ (Hr x Hx)). cbn [Rule003.bind].
      destruct (exempt block_lines x); [discriminate|].
      destruct (_ <? expected); discriminate.
    + exists es. split; [exact Hes|]. intros err Herr.
      destruct (Hin err Herr) as (x & ex & Hx & Hfx & Hex).
      destruct (Hp x Hx) as (e & He & Hpi). exists e. split; [exact He|].
      unfold Rule003.check_one_alignment in Hfx. cbv zeta in Hfx.
      destruct (_ =? expected); [injection Hfx as <-; destruct Hex|].
      rewrite (should_skip_in_range _ _ _ (Hr x Hx)) in Hfx. cbn [Rule003.bind] in Hfx.
      destruct (exempt block_lines x); [injection Hfx as <-; destruct Hex|].
      destruct (_ <? expected); injection Hfx as <-; destruct Hex as [<-|[]];
        rewrite Hpi; reflexivity.
Qed.

Lemma parameter_spacing_line (line : string) (idx : nat) (block_type : string)
  (block_start_line : Z) (err : Rule003.error) :
  In err (Rule003._check_parameter_spacing line idx block_type block_start_line) ->
  fst err = block_start_line + Z.of_nat idx + 1.
Proof.
  unfold Rule003._check_parameter_spacing, Rule003._check_equals_after_spacing. cbv zeta.
  destruct (_ =? -1); [intros []|].
  destruct (negb _); [intros [<-|[]]; reflexivity|].
  destruct (startswith "  " _); [intros [<-|[]]; reflexivity | intros []].
Qed.

Lemma section_check_total (section : list Rule003.entry) (block_type : string)
  (block_start_line : Z) (block_lines : list string) :
  Forall (entry_of_block block_lines) section ->
  exists errs,
    Rule003._check_parameter_alignment_in_section section block_type block_start_line
      block_lines = Some errs
    /\ forall err, In err errs ->
         exists e, In e (Rule003.parameter_lines section)
                   /\ fst err = block_start_line + Z.of_nat (snd e) + 1.
Proof.
  intros Hsec. unfold Rule003._check_parameter_alignment_in_section.
  rewrite (section_index_check_ok _ _ Hsec). cbn [Rule003.bind].
  assert (Hpl : forall e, In e (Rule003.parameter_lines section) ->
                (snd e < List.length block_lines)%nat).
  { intros e He. destruct (parameter_lines_from_origin _ _ _ _ He) as (e0 & H0 & Hs & _).
    rewrite Hs. apply entry_index_in_range. rewrite Forall_forall in Hsec. auto. }
  assert (Hsub : forall g sub,
            In g (Rule003.indent_groups (Rule003.parameter_lines section)) ->
            In sub (Rule003.sub_groups_of block_lines (Rule003.sorted_by_idx (snd g))) ->
            forall e, In e sub -> In e (Rule003.parameter_lines section)).
  { intros g sub Hg Hs e He. apply (indent_groups_in _ g); [exact Hg|].
    apply sorted_by_idx_in. apply (sub_groups_of_in block_lines _ sub); assumption. }
  assert (Hgroup : forall g sub,
            In g (Rule003.indent_groups (Rule003.parameter_lines section)) ->
            In sub (Rule003.sub_groups_of block_lines (Rule003.sorted_by_idx (snd g))) ->
            exists errs,
              Rule003.check_sub_group (fst g) block_type block_start_line block_lines sub
              = Some errs
              /\ forall err, In err errs ->
                   exists e, In e (Rule003.parameter_lines section)
                             /\ fst err = block_start_line + Z.of_nat (snd e) + 1).
  { intros g sub Hg Hs. unfold Rule003.check_sub_group.
    destruct (group_alignment_total sub (fst g) block_type block_start_line block_lines)
      as (ge & Hge & Hin).
    { intros e He. apply Hpl. apply (Hsub g sub Hg Hs e He). }
    rewrite Hge. cbn [Rule003.bind]. eexists. split; [reflexivity|].
    intros err Herr. apply in_app_or in Herr. destruct Herr as [Herr|Herr].
    - destruct (Hin err Herr) as (e & He & Hl). exists e.
      split; [apply (Hsub g sub Hg Hs e He) | exact Hl].
    - apply in_flat_map in Herr. destruct Herr as (e & He & Herr). exists e.
      split; [apply (Hsub g sub Hg Hs e He)|].
      apply (parameter_spacing_line _ _ _ _ _ Herr). }
  destruct (collect_spec
              (Rule003.check_indent_group block_type block_start_line block_lines)
              (Rule003.indent_groups (Rule003.parameter_lines section)))
    as (es & Hes & Hin).
  - intros g Hg. unfold Rule003.check_indent_group.
    destruct (collect_spec
                (Rule003.check_sub_group (fst g) block_type block_start_line block_lines)
                (Rule003.sub_groups_of block_lines (Rule003.sorted_by_idx (snd g))))
      as (es & Hes & _).
    + intros sub Hs. destruct (Hgroup g sub Hg Hs) as (errs & -> & _). discriminate.
    + rewrite Hes. discriminate.
  - exists es. split; [exact Hes|]. intros err Herr.
    destruct (Hin err Herr) as (g & eg & Hg & Hfg & Heg).
    unfold Rule003.check_indent_group in Hfg.
    destruct (collect_spec
                (Rule003.check_sub_group (fst g) block_type block_start_line block_lines)
                (Rule003.sub_groups_of block_lines (Rule003.sorted_by_idx (snd g))))
      as (es' & Hes' & Hin').
    + intros sub Hs. destruct (Hgroup g sub Hg Hs) as (errs & -> & _). discriminate.
    + rewrite Hes' in Hfg. injection Hfg as <-.
      destruct (Hin' err Heg) as (sub & esub & Hs & Hfs & Hesub).
      destruct (Hgroup g sub Hg Hs) as (errs & Herrs & Hl).
      rewrite Herrs in Hfs. injection Hfs as <-. apply Hl. exact Hesub.
Qed.

Lemma contains_cons (sub : string) (x : ascii) (a : string) :
  contains sub (String x a) = String.prefix sub (String x a) || contains sub a.
Proof. reflexivity. Qed.

Lemma contains_prefix (sub a b : string) :
  String.prefix a b = true -> contains sub a = true -> contains sub b = true.
Proof.
  revert b. induction a as [|x a IH]; intros b Hp Hc.
  - simpl in Hc. rewrite orb_false_r in Hc.
    destruct sub; [destruct b; reflexivity | discriminate].
  - destruct b as [|y b]; [simpl in Hp; discriminate|].
    rewrite prefix_cons in Hp. apply andb_true_iff in Hp. destruct Hp as [Hxy Hp].
    apply Ascii.eqb_eq in Hxy. subst y.
    rewrite contains_cons in Hc. apply orb_true_iff in Hc.
    rewrite contains_cons. apply orb_true_iff.
    destruct Hc as [Hc|Hc].
    + left. apply (prefix_trans _ (String x a)); [exact Hc|].
      rewrite prefix_cons, Ascii.eqb_refl. exact Hp.
    + right. apply (IH b Hp Hc).
Qed.

(** ** Comment lines *)

Lemma rstrip_by_idempotent (p : ascii -> bool) (s : string) :
  rstrip_by p (rstrip_by p s) = rstrip_by p s.
Proof.
  induction s as [|c s IH]; [reflexivity|]. cbn [rstrip_by].
  destruct (rstrip_by p s) as [|d r] eqn:E.
  - destruct (p c) eqn:Hp; [reflexivity|]. cbn [rstrip_by]. rewrite Hp. reflexivity.
  - cbn [rstrip_by]. cbn [rstrip_by] in IH. rewrite IH. reflexivity.
Qed.

Lemma strip_rstrip (s : string) : strip (rstrip s) = strip s.
Proof. unfold strip, rstrip. rewrite rstrip_by_idempotent. reflexivity. Qed.

Lemma space_is_plain (c : ascii) :
  isspace c = true -> Rule003.is_quote c = false /\ Ascii.eqb c "#" = false.
Proof.
  destruct c as [[] [] [] [] [] [] [] []]; vm_compute; intros H;
    try discriminate H; split; reflexivity.
Qed.

Lemma strip_cons_space (c : ascii) (s : string) :
  isspace c = true -> strip (String c s) = strip s.
Proof.
  intros Hc. unfold strip, rstrip. cbn [rstrip_by].
  destruct (rstrip_by isspace s) as [|d r].
  - rewrite Hc. reflexivity.
  - change (lstrip (String c (String d r)))
      with (if isspace c then lstrip (String d r) else String c (String d r)).
    rewrite Hc. reflexivity.
Qed.

Lemma strip_cons_plain (c : ascii) (s : string) :
  isspace c = false -> exists r, strip (String c s) = String c r.
Proof.
  intros Hc. unfold strip, rstrip. cbn [rstrip_by].
  destruct (rstrip_by isspace s) as [|d r].
  - rewrite Hc. cbn [lstrip]. rewrite Hc. eauto.
  - change (lstrip (String c (String d r)))
      with (if isspace c then lstrip (String d r) else String c (String d r)).
    rewrite Hc. eauto.
Qed.

(** A line whose stripped text starts with [#] is a run of white space,
    the [#] and the rest. *)
Lemma comment_line_shape (line : string) :
  startswith "#" (strip line) = true ->
  exists ws rest,
    line = ws ++ String "#" rest /\ strip ws = "" /\
    forall i prev q,
      Rule003.comment_index line i prev false q = Some (i + String.length ws)%nat.
Proof.
  induction line as [|c s IH]; [discriminate|].
  destruct (isspace c) eqn:Hc.
  - rewrite (strip_cons_space c s Hc). intros H.
    destruct (IH H) as (ws & rest & -> & Hws & Hidx).
    exists (String c ws), rest. split; [reflexivity|]. split.
    + rewrite (strip_cons_space c ws Hc). exact Hws.
    + intros i prev q. cbn [Rule003.comment_index String.append].
      destruct (space_is_plain c Hc) as [Hq Hh]. rewrite Hq, Hh. cbn [andb].
      rewrite Hidx. f_equal. cbn [String.length]. lia.
  - destruct (strip_cons_plain c s Hc) as (r & ->).
    rewrite startswith_char_cons. intros H.
    apply Ascii.eqb_eq in H. subst c.
    exists "", s. split; [reflexivity|]. split; [reflexivity|].
    intros i prev q. cbn [Rule003.comment_index]. cbn. f_equal. lia.
Qed.

Lemma comment_line_kept (line : string) :
  startswith "#" (strip line) = true -> Rule003.remove_comment line = line.
Proof.
  intros H. destruct (comment_line_shape line H) as (ws & rest & Hl & Hws & Hidx).
  unfold Rule003.remove_comment. destruct (contains "#" line); [|reflexivity].
  rewrite Hidx. cbn [Nat.add]. cbv zeta.
  assert (Ht : take (String.length ws) line = ws).
  { rewrite Hl. clear. induction ws as [|c ws IH]; [destruct rest; reflexivity|].
    cbn. rewrite IH. reflexivity. }
  rewrite Ht, Hws. reflexivity.
Qed.

Lemma parameter_lines_from_not_comment (section rest : list Rule003.entry) :
  forall hs e, In e (Rule003.parameter_lines_from section hs rest) ->
               startswith "#" (strip (fst e)) = false.
Proof.
  induction rest as [|[lc idx] rest IH]; intros hs e; simpl; [intros []|].
  destruct (Rule003.heredoc_track hs (rstrip lc) (strip (rstrip lc))) as [skip hs'].
  destruct skip; [apply IH|].
  destruct (contains "=" (rstrip lc)) eqn:Heq; simpl; [|apply IH].
  destruct (startswith "#" (strip (rstrip lc))) eqn:Hc; simpl; [apply IH|].
  destruct (is_match _); [apply IH|].
  destruct (_ && _); [apply IH|].
  destruct (_ && _); [apply IH|].
  intros [<-|H]; [exact Hc | apply (IH _ _ H)].
Qed.

Lemma block_check_total (g : Rule003.globals) (block_type : string) (start_line : Z)
  (block_lines : list string) :
  exists errs,
    fst (Rule003.check_block g (block_type, start_line, block_lines)) = Some errs
    /\ forall err, In err errs ->
         exists idx line,
           nth_error block_lines idx = Some line /\ contains "=" line = true
           /\ fst err = start_line + Z.of_nat idx + 1
           /\ tracker_skips block_lines idx = false
           /\ startswith "#" (strip line) = false.
Proof.
  unfold Rule003.check_block.
  pose proof (split_sections_of_block g block_lines) as Hsec.
  destruct (Rule003._split_into_code_sections g block_lines) as [sections g'].
  cbn [fst] in *.
  destruct (collect_spec
              (fun section =>
                 Rule003._check_parameter_alignment_in_section section block_type
                   start_line block_lines) sections) as (es & Hes & Hin).
  - intros s Hs. destruct (section_check_total s block_type start_line block_lines
                             (Hsec s Hs)) as (errs & -> & _). discriminate.
  - exists es. split; [exact Hes|]. intros err Herr.
    destruct (Hin err Herr) as (s & ex & Hs & Hfs & Hex).
    destruct (section_check_total s block_type start_line block_lines (Hsec s Hs))
      as (errs & Herrs & Hl).
    rewrite Herrs in Hfs. injection Hfs as <-.
    destruct (Hl err Hex) as (e & He & Hline).
    pose proof (parameter_lines_from_has_equals s s Rule003.no_heredoc e He) as Heq.
    destruct (parameter_lines_from_origin _ _ _ _ He) as (e0 & H0 & Hsnd & Hfst).
    pose proof (Hsec s Hs) as Hall. rewrite Forall_forall in Hall.
    specialize (Hall e0 H0). destruct Hall as [Hall Hskip].
    pose proof (parameter_lines_from_not_comment s s Rule003.no_heredoc e He) as Hnc.
    rewrite Hfst, strip_rstrip in Hnc.
    exists (snd e0), (fst e0). split; [exact Hall|].
    split; [|split; [rewrite <- Hsnd; exact Hline | split; [exact Hskip | exact Hnc]]].
    rewrite Hfst in Heq.
    apply (contains_prefix "=" (rstrip (fst e0)) (fst e0)); [|exact Heq].
    apply rstrip_by_prefix.
Qed.

Lemma blocks_check_total (blocks : list Rule003.block) : forall g,
  exists errs,
    fst (Rule003.check_blocks g blocks) = Some errs
    /\ forall err, In err errs ->
         exists b idx line,
           In b blocks /\ nth_error (snd b) idx = Some line
           /\ contains "=" line = true
           /\ fst err = snd (fst b) + Z.of_nat idx + 1
           /\ tracker_skips (snd b) idx = false
           /\ startswith "#" (strip line) = false.
Proof.
  induction blocks as [|[[bt start] bl] blocks IH]; intros g.
  - exists []. split; [reflexivity | intros err []].
  - cbn [Rule003.check_blocks].
    destruct (block_check_total g bt start bl) as (e & He & Hin).
    destruct (Rule003.check_block g (bt, start, bl)) as [errs g1]. cbn [fst] in He.
    subst errs.
    destruct (IH g1) as (es & Hes & Hin').
    destruct (Rule003.check_blocks g1 blocks) as [rest g2]. cbn [fst] in Hes. subst rest.
    exists (e ++ es)%list. split; [reflexivity|].
    intros err Herr. apply in_app_or in Herr. destruct Herr as [Herr|Herr].
    + destruct (Hin err Herr) as (idx & line & H1 & H2 & H3 & H4 & H5).
      exists (bt, start, bl), idx, line. cbn [fst snd].
      repeat split;
        [left; reflexivity | exact H1 | exact H2 | exact H3 | exact H4 | exact H5].
    + destruct (Hin' err Herr) as (b & idx & line & H0 & H1 & H2 & H3 & H4 & H5).
      exists b, idx, line.
      repeat split;
        [right; exact H0 | exact H1 | exact H2 | exact H3 | exact H4 | exact H5].
Qed.

Lemma block_file_check (g : Rule003.globals) (file_path content : string) :
  endswith ".tfvars" file_path = false ->
  exists reports,
    fst (Rule003.check_st003_parameter_alignment g file_path content) = Some reports
    /\ forall r, In r reports ->
         r_file r = file_path /\ r_rule r = "ST.003" /\ 1 <= r_line r
         /\ exists line,
              nth_error (split_lines (Rule003._remove_comments_for_parsing content))
                (Z.to_nat (r_line r - 1)) = Some line
              /\ contains "=" line = true
              /\ startswith "#" (strip line) = false.
Proof.
  intros Htf. unfold Rule003.check_st003_parameter_alignment. cbv zeta. rewrite Htf.
  set (clean := Rule003._remove_comments_for_parsing content).
  destruct (blocks_check_total (Rule003._extract_code_blocks clean) g)
    as (errs & Herrs & Hin).
  destruct (Rule003.check_blocks g (Rule003._extract_code_blocks clean)) as [all g'].
  cbn [fst] in *. subst all. eexists. split; [reflexivity|].
  intros r Hr. unfold Rule003.report_errors in Hr. apply in_map_iff in Hr.
  destruct Hr as (err & <- & Herr). cbn [r_file r_rule r_line].
  split; [reflexivity|]. split; [reflexivity|].
  unfold Rule003.unique_errors in Herr.
  apply (proj2 (unique_errors_from_spec _ [])) in Herr. destruct Herr as [Herr _].
  apply (proj1 (sort_by_line_in _ _)) in Herr.
  destruct (Hin err Herr) as (b & idx & line & Hb & Hnth & Heq & Hline & _ & Hnc).
  unfold Rule003._extract_code_blocks in Hb.
  destruct (scan_blocks_spec (List.length (split_lines clean)) (split_lines clean) 0
              (le_n _)) as [Hf _].
  rewrite Forall_forall in Hf.
  destruct (Hf b Hb) as (k & header & tail & Hk & Hs & _ & Hbody).
  split; [lia|]. exists line. split; [|split; [exact Heq | exact Hnc]].
  replace (Z.to_nat (fst err - 1)) with (S k + idx)%nat by lia.
  rewrite <- nth_error_skipn, Hbody.
  rewrite nth_error_app1; [exact Hnth|]. apply nth_error_Some. congruence.
Qed.

(** ** The sections of a [.tfvars] file *)

Lemma assignment_lines_of_file (lines rest : list string) : forall hs i before,
  lines = (before ++ rest)%list -> i = Z.of_nat (List.length before) ->
  hs = tracker_after Rule003.no_heredoc before ->
  Forall (tentry_of_file lines) (Rule003.assignment_lines_from hs i rest).
Proof.
  induction rest as [|line rest IH]; intros hs i before Hl Hi Hh; [constructor|].
  cbn [Rule003.assignment_lines_from]. cbv zeta.
  assert (Hrec : Forall (tentry_of_file lines)
                   (Rule003.assignment_lines_from
                      (snd (Rule003.heredoc_track hs line (strip line))) (i + 1) rest)).
  { apply (IH _ (i + 1) (before ++ [line])%list).
    - rewrite <- app_assoc. exact Hl.
    - rewrite length_app. simpl. lia.
    - rewrite tracker_after_snoc, Hh. reflexivity. }
  assert (He : fst (Rule003.heredoc_track hs line (strip line)) = false ->
               tentry_of_file lines (i + 1, line)).
  { intros Hskip. unfold tentry_of_file. cbn [fst snd]. split; [lia|].
    replace (Z.to_nat (i + 1 - 1)) with (List.length before) by lia.
    rewrite Hl. split.
    - rewrite nth_error_app2 by lia. rewrite Nat.sub_diag. reflexivity.
    - rewrite tracker_skips_at, <- Hh. exact Hskip. }
  destruct (Rule003.heredoc_track hs line (strip line)) as [skip hs'].
  cbn [fst snd] in *.
  destruct skip; [apply Hrec|]. specialize (He eq_refl).
  destruct (_ && _); [constructor; [exact He | apply Hrec]|].
  destruct (Rule003.is_marker _); [constructor; [exact He | apply Hrec]|].
  apply Hrec.
Qed.

Lemma removelast_in {A : Type} (l : list A) (x : A) : In x (removelast l) -> In x l.
Proof.
  induction l as [|y l IH]; [intros []|]. simpl.
  destruct l as [|z l]; [intros []|]. intros [<-|H]; [left; reflexivity|].
  right. apply IH. exact H.
Qed.

Lemma drop_last_of_file lines secs :
  sections_of_file lines secs -> sections_of_file lines (Rule003.drop_last secs).
Proof.
  unfold sections_of_file, Rule003.drop_last. rewrite !Forall_forall.
  intros H x Hx. apply H. apply removelast_in. exact Hx.
Qed.

Lemma last_section_of_file lines secs s :
  sections_of_file lines secs -> Rule003.last_section secs = Some s ->
  s <> [] /\ Forall (tentry_of_file lines) s.
Proof.
  unfold sections_of_file, Rule003.last_section. intros H.
  destruct (rev secs) as [|x l] eqn:E; [discriminate|]. intros [= <-].
  rewrite Forall_forall in H. apply H. apply in_rev. rewrite E. left. reflexivity.
Qed.

Lemma sections_of_file_snoc lines secs s :
  sections_of_file lines secs -> s <> [] -> Forall (tentry_of_file lines) s ->
  sections_of_file lines (secs ++ [s]).
Proof.
  intros H Hn Hs. apply Forall_app. split; [exact H|]. constructor; [split; assumption|].
  constructor.
Qed.

Lemma is_empty_false {A : Type} (l : list A) : Rule003.is_empty l = false -> l <> [].
Proof. destruct l; [discriminate | intros _; discriminate]. Qed.

Lemma snoc_not_nil {A : Type} (l : list A) (x : A) : (l ++ [x])%list <> [].
Proof. destruct l; discriminate. Qed.

Lemma regular_grouping_of_file lines pb pk n line st :
  sections_of_file lines (Rule003.t_sections st) ->
  Forall (tentry_of_file lines) (Rule003.t_current st) ->
  tentry_of_file lines (n, line) ->
  sections_of_file lines
    (Rule003.t_sections (Rule003.regular_grouping lines pb pk n line st))
  /\ Forall (tentry_of_file lines)
       (Rule003.t_current (Rule003.regular_grouping lines pb pk n line st)).
Proof.
  intros Hs Hc He. unfold Rule003.regular_grouping. cbv zeta.
  destruct (Rule003.is_empty (Rule003.t_current st)) eqn:Hemp.
  - simpl. split; [exact Hs | apply Forall_one; exact He].
  - apply is_empty_false in Hemp.
    assert (Hnew : sections_of_file lines
                     (Rule003.t_sections (Rule003.start_new_section st (n, line)))
                   /\ Forall (tentry_of_file lines)
                        (Rule003.t_current (Rule003.start_new_section st (n, line)))).
    { simpl. split; [apply sections_of_file_snoc; assumption | apply Forall_one; exact He]. }
    assert (Hif : sections_of_file lines
                    (Rule003.t_sections (Rule003.start_new_section_if st (n, line)))
                  /\ Forall (tentry_of_file lines)
                       (Rule003.t_current (Rule003.start_new_section_if st (n, line)))).
    { simpl. split; [|apply Forall_one; exact He].
      destruct (Rule003.is_empty _); [exact Hs | apply sections_of_file_snoc; assumption]. }
    assert (Happ : sections_of_file lines
                     (Rule003.t_sections (Rule003.append_line st (n, line)))
                   /\ Forall (tentry_of_file lines)
                        (Rule003.t_current (Rule003.append_line st (n, line)))).
    { simpl. split; [exact Hs|]. apply Forall_app. split; [exact Hc|].
      apply Forall_one; exact He. }
    destruct (_ || _).
    + destruct (_ && _); [exact Hnew|].
      destruct (_ && _ && _).
      * destruct (Rule003.last_section (Rule003.t_sections st)) as [prev|] eqn:Hl;
          [|exact Hif].
        destruct (_ && _); [|exact Hif].
        destruct (negb _); [|exact Hif].
        simpl. split; [apply drop_last_of_file; exact Hs|].
        destruct (last_section_of_file _ _ _ Hs Hl) as [_ Hp].
        apply Forall_app. split; [exact Hp|]. apply Forall_app. split; [exact Hc|].
        apply Forall_one; exact He.
      * destruct (_ && _); [destruct (_ && _); [exact Hnew | exact Happ]|].
        destruct (_ && _ && _); [exact Hnew | exact Happ].
    + destruct (Rule003.gap_after _ _ _); [exact Hnew | exact Happ].
Qed.

Lemma group_line_of_file lines st e :
  sections_of_file lines (Rule003.t_sections st) ->
  Forall (tentry_of_file lines) (Rule003.t_current st) ->
  tentry_of_file lines e ->
  sections_of_file lines (Rule003.t_sections (Rule003.tfvars_group_line lines st e))
  /\ Forall (tentry_of_file lines)
       (Rule003.t_current (Rule003.tfvars_group_line lines st e)).
Proof.
  intros Hs Hc He. unfold Rule003.tfvars_group_line. destruct e as [n line]. cbv zeta.
  destruct (Rule003.char_levels _ _ _) as [b k].
  destruct (_ && _ && _ && _).
  { simpl. split; [exact Hs|]. apply Forall_app. split; [exact Hc|].
    apply Forall_one; exact He. }
  set (st0 := Rule003.mkT (Rule003.t_sections st) (Rule003.t_current st) b k
                (Rule003.t_top_level_indent st)).
  assert (H0 : sections_of_file lines (Rule003.t_sections st0)
               /\ Forall (tentry_of_file lines) (Rule003.t_current st0))
    by (split; assumption).
  set (st1 := if _ && _ && _ && _ && _ then _ else st0).
  assert (H1 : sections_of_file lines (Rule003.t_sections st1)
               /\ Forall (tentry_of_file lines) (Rule003.t_current st1)).
  { subst st1. destruct (_ && _ && _ && negb (Rule003.is_empty (Rule003.t_current st0)) && _)
      eqn:E; [|exact H0].
    apply andb_true_iff in E. destruct E as [E _].
    apply andb_true_iff in E. destruct E as [_ E].
    apply negb_true_iff in E. apply is_empty_false in E.
    simpl. split; [|constructor].
    apply sections_of_file_snoc; [exact Hs | exact E | exact Hc]. }
  clearbody st1. clear H0 st0.
  set (st2 := if _ && _ && _ then _ else st1).
  assert (H2 : sections_of_file lines (Rule003.t_sections st2)
               /\ Forall (tentry_of_file lines) (Rule003.t_current st2)).
  { subst st2. destruct (_ && _ && _); [|exact H1].
    destruct (Rule003.last_section (Rule003.t_sections st1)) as [prev|] eqn:Hl;
      [|exact H1].
    destruct (_ && _); [|exact H1].
    destruct H1 as [Hs1 Hc1]. simpl. split; [apply drop_last_of_file; exact Hs1|].
    destruct (last_section_of_file _ _ _ Hs1 Hl) as [_ Hp].
    apply Forall_app. split; assumption. }
  clearbody st2. clear H1 st1. destruct H2 as [Hs2 Hc2].
  destruct (_ && _).
  - destruct (negb _).
    + simpl. split; [exact Hs2|]. apply Forall_app. split; [exact Hc2|].
      apply Forall_one; exact He.
    + destruct (Rule003.last_section (Rule003.t_sections st2)) as [last|] eqn:Hl.
      * simpl. split; [|exact Hc2].
        destruct (last_section_of_file _ _ _ Hs2 Hl) as [_ Hp].
        apply sections_of_file_snoc;
          [apply drop_last_of_file; exact Hs2 | apply snoc_not_nil|].
        apply Forall_app. split; [exact Hp | apply Forall_one; exact He].
      * simpl. split; [exact Hs2 | apply Forall_one; exact He].
  - apply regular_grouping_of_file; assumption.
Qed.

Lemma final_merge_of_file lines merged section :
  sections_of_file lines merged -> section <> [] ->
  Forall (tentry_of_file lines) section ->
  sections_of_file lines (Rule003.final_merge_step lines merged section).
Proof.
  intros Hm Hn Hs. unfold Rule003.final_merge_step.
  destruct (Rule003.last_section merged) as [prev|] eqn:Hl;
    [|apply sections_of_file_snoc; assumption].
  cbv zeta.
  match goal with
  | |- context [if ?b then _ else _] => destruct b
  end; [|apply sections_of_file_snoc; assumption].
  destruct (last_section_of_file _ _ _ Hm Hl) as [_ Hp].
  apply sections_of_file_snoc; [apply drop_last_of_file; exact Hm | |].
  - destruct prev; [exact Hn | discriminate].
  - apply Forall_app. split; assumption.
Qed.

Lemma tfvars_sections_of_file (lines : list string)
  (assignment_lines : list Rule003.tentry) :
  Forall (tentry_of_file lines) assignment_lines ->
  sections_of_file lines (Rule003.tfvars_sections lines assignment_lines).
Proof.
  intros Ha. unfold Rule003.tfvars_sections. cbv zeta.
  assert (Hfold : forall l st,
            Forall (tentry_of_file lines) l ->
            sections_of_file lines (Rule003.t_sections st) ->
            Forall (tentry_of_file lines) (Rule003.t_current st) ->
            sections_of_file lines
              (Rule003.t_sections (fold_left (Rule003.tfvars_group_line lines) l st))
            /\ Forall (tentry_of_file lines)
                 (Rule003.t_current (fold_left (Rule003.tfvars_group_line lines) l st))).
  { induction l as [|e l IH]; intros st Hl Hs Hc; [split; assumption|].
    inversion Hl as [|? ? He Hl']; subst. simpl.
    destruct (group_line_of_file lines st e Hs Hc He) as [Hs' Hc'].
    apply IH; assumption. }
  destruct (Hfold assignment_lines (Rule003.mkT [] [] 0 0 0) Ha) as [Hs Hc];
    [constructor | constructor |].
  set (st := fold_left _ assignment_lines _) in *.
  assert (Hsecs : sections_of_file lines
                    (if Rule003.is_empty (Rule003.t_current st) then Rule003.t_sections st
                     else (Rule003.t_sections st ++ [Rule003.t_current st])%list)).
  { destruct (Rule003.is_empty _) eqn:E; [exact Hs|].
    apply sections_of_file_snoc; [exact Hs | apply is_empty_false; exact E | exact Hc]. }
  set (secs := if Rule003.is_empty _ then _ else _) in *. clearbody secs.
  assert (Hm : forall l merged,
            sections_of_file lines l -> sections_of_file lines merged ->
            sections_of_file lines (fold_left (Rule003.final_merge_step lines) l merged)).
  { induction l as [|s l IH]; intros merged Hl Hmerged; [exact Hmerged|].
    inversion Hl as [|? ? [Hn Hsec] Hl']; subst. simpl.
    apply IH; [exact Hl'|]. apply final_merge_of_file; assumption. }
  apply Hm; [exact Hsecs | constructor].
Qed.

(** ** The errors of a [.tfvars] section *)

Lemma dict_get_all {A : Type} (V : A -> Prop) (k : Z) (d : list (Z * A)) (v : A) :
  Forall (fun kv => V (snd kv)) d -> Rule003.dict_get k d = Some v -> V v.
Proof.
  induction d as [|[k' v'] d IH]; intros H; simpl; [discriminate|].
  inversion H as [|? ? Hv Hd]; subst.
  destruct (k' =? k); [intros [= <-]; exact Hv | apply IH; exact Hd].
Qed.

Lemma dict_set_all {A : Type} (V : A -> Prop) (k : Z) (v : A) (d : list (Z * A)) :
  Forall (fun kv => V (snd kv)) d -> V v ->
  Forall (fun kv => V (snd kv)) (Rule003.dict_set k v d).
Proof.
  induction d as [|[k' v'] d IH]; intros H Hv; simpl.
  - constructor; [exact Hv | constructor].
  - inversion H as [|? ? Hv' Hd]; subst.
    destruct (k' =? k); constructor; auto.
Qed.

Lemma dict_append_all {A : Type} (Q : A -> Prop) (k : Z) (x : A)
  (d : list (Z * list A)) :
  Forall (fun kv => Forall Q (snd kv)) d -> Q x ->
  Forall (fun kv => Forall Q (snd kv)) (Rule003.dict_append k x d).
Proof.
  intros H Hx. unfold Rule003.dict_append.
  destruct (Rule003.dict_get k d) as [l|] eqn:E.
  - apply dict_set_all; [exact H|]. apply Forall_app. split.
    + apply (dict_get_all (Forall Q) k d l H E).
    + constructor; [exact Hx | constructor].
  - apply dict_set_all; [exact H|]. constructor; [exact Hx | constructor].
Qed.

Lemma dict_ensure_all {A : Type} (Q : A -> Prop) (k : Z) (d : list (Z * list A)) :
  Forall (fun kv => Forall Q (snd kv)) d ->
  Forall (fun kv => Forall Q (snd kv)) (Rule003.dict_ensure k d).
Proof.
  intros H. unfold Rule003.dict_ensure. destruct (Rule003.dict_get k d); [exact H|].
  apply dict_set_all; [exact H | constructor].
Qed.

Lemma grouping_step_all (Q : Rule003.tentry -> Prop) pl original_lines
  (st : Rule003.grouping) (e : Rule003.tline) :
  Forall (fun kv => Forall (Forall Q) (snd kv)) (fst (fst st)) ->
  Forall (fun kv => Forall Q (snd kv)) (snd (fst st)) ->
  Q (snd e, fst e) ->
  Forall (fun kv => Forall (Forall Q) (snd kv))
    (fst (fst (Rule003.grouping_step pl original_lines st e)))
  /\ Forall (fun kv => Forall Q (snd kv))
       (snd (fst (Rule003.grouping_step pl original_lines st e))).
Proof.
  destruct st as [[groups current] prev]. destruct e as [line n]. cbn [fst snd].
  intros Hg Hc He. unfold Rule003.grouping_step. cbv zeta.
  destruct (negb _); [split; assumption|].
  match goal with
  | |- context [if ?b then _ else (groups, current)] => destruct b
  end.
  - destruct (Rule003.dict_get _ current) as [[|x g]|] eqn:E; cbn [fst snd].
    + split; [apply dict_ensure_all; exact Hg | apply dict_append_all; assumption].
    + pose proof (dict_get_all (Forall Q) _ _ _ Hc E) as Hxg.
      split.
      * apply (dict_ensure_all (Forall Q)). apply (dict_append_all (Forall Q)); assumption.
      * apply dict_append_all; [|exact He].
        apply (dict_set_all (Forall Q)); [exact Hc | constructor].
    + split; [apply dict_ensure_all; exact Hg | apply dict_append_all; assumption].
  - cbn [fst snd].
    split; [apply dict_ensure_all; exact Hg | apply dict_append_all; assumption].
Qed.

Lemma tfvars_groups_all (Q : Rule003.tentry -> Prop) (pl : list Rule003.tline)
  (original_lines : list string) :
  Forall (fun e : Rule003.tline => Q (snd e, fst e)) pl ->
  Forall (fun kv => Forall (Forall Q) (snd kv)) (Rule003.tfvars_groups pl original_lines).
Proof.
  intros Hpl. unfold Rule003.tfvars_groups.
  assert (Hfold : forall l st,
            Forall (fun e : Rule003.tline => Q (snd e, fst e)) l ->
            Forall (fun kv => Forall (Forall Q) (snd kv)) (fst (fst st)) ->
            Forall (fun kv => Forall Q (snd kv)) (snd (fst st)) ->
            Forall (fun kv => Forall (Forall Q) (snd kv))
              (fst (fst (fold_left (Rule003.grouping_step pl original_lines) l st)))
            /\ Forall (fun kv => Forall Q (snd kv))
                 (snd (fst (fold_left (Rule003.grouping_step pl original_lines) l st)))).
  { induction l as [|e l IH]; intros st Hl Hg Hc; [split; assumption|].
    inversion Hl as [|? ? He Hl']; subst. simpl.
    destruct (grouping_step_all Q pl original_lines st e Hg Hc He) as [Hg' Hc'].
    apply IH; assumption. }
  destruct (Hfold pl ([], [], None) Hpl) as [Hg Hc]; [constructor | constructor|].
  destruct (fold_left _ pl _) as [[groups current] prev]. cbn [fst snd] in *.
  clear Hfold. revert groups Hg.
  induction current as [|[k g] current IH]; intros groups Hg; [exact Hg|].
  inversion Hc as [|? ? Hk Hc']; subst. simpl. apply IH; [exact Hc'|].
  destruct g as [|x g]; [exact Hg|].
  apply (dict_append_all (Forall Q)); assumption.
Qed.

Lemma find_char_from_contains (c : ascii) (s : string) : forall i,
  find_char_from c s i <> -1 -> contains (String c "") s = true.
Proof.
  induction s as [|a s IH]; intros i H; [contradiction H; reflexivity|].
  rewrite contains_char_cons. simpl in H.
  destruct (Ascii.eqb a c); [reflexivity|]. apply (IH _ H).
Qed.

Lemma contains_char_app (c : ascii) (a b : string) :
  contains (String c "") (a ++ b)
  = contains (String c "") a || contains (String c "") b.
Proof.
  induction a as [|x a IH].
  - simpl. destruct b; reflexivity.
  - change (String x a ++ b)%string with (String x (a ++ b)).
    rewrite !contains_char_cons, IH. apply orb_assoc.
Qed.

Lemma spaces_without (c : ascii) (n : nat) :
  c <> " "%char -> contains (String c "") (spaces n) = false.
Proof.
  intros Hc. induction n as [|n IH]; [reflexivity|].
  change (spaces (S n)) with (String " " (spaces n)).
  rewrite contains_char_cons, IH.
  destruct (Ascii.eqb_spec " " c); [congruence | reflexivity].
Qed.

Lemma expandtabs_contains (c : ascii) (s : string) : forall col,
  c <> " "%char ->
  contains (String c "") (expandtabs_from col s) = true ->
  contains (String c "") s = true.
Proof.
  induction s as [|a s IH]; intros col Hc H; [exact H|].
  rewrite contains_char_cons. simpl in H.
  destruct (Ascii.eqb a tab).
  - rewrite contains_char_app, spaces_without in H by exact Hc.
    rewrite (IH _ Hc H). apply orb_true_r.
  - destruct (_ || _); rewrite contains_char_cons in H;
      apply orb_true_iff in H; destruct H as [H|H];
      try (rewrite H; reflexivity); rewrite (IH _ Hc H); apply orb_true_r.
Qed.

Lemma sort_tentries_in (l : list Rule003.tentry) (x : Rule003.tentry) :
  In x (Rule003.sort_tentries l) -> In x l.
Proof.
  unfold Rule003.sort_tentries.
  assert (Hins : forall e acc, In x (Rule003.insert_tentry e acc) -> x = e \/ In x acc).
  { intros e acc. induction acc as [|y acc IH]; simpl; [intros [<-|[]]; auto|].
    destruct (Rule003.tentry_ltb e y); simpl.
    - intros [<-|[<-|H]]; auto.
    - intros [<-|H]; auto. destruct (IH H); auto. }
  assert (H : forall acc,
            In x (fold_left (fun acc e => Rule003.insert_tentry e acc) l acc) ->
            In x l \/ In x acc).
  { induction l as [|e l IH]; intros acc Hx; simpl in Hx; [right; exact Hx|].
    destruct (IH _ Hx) as [H|H]; [left; right; exact H|].
    destruct (Hins _ _ H) as [->|H']; [left; left; reflexivity | right; exact H']. }
  intros Hx. destruct (H [] Hx) as [Hin|[]]. exact Hin.
Qed.

Lemma spacing_tfvars_error (line : string) (n : Z) (block_type : string)
  (err : Rule003.error) :
  In err (Rule003._check_parameter_spacing_tfvars line n block_type) ->
  fst err = n /\ contains "=" line = true.
Proof.
  unfold Rule003._check_parameter_spacing_tfvars. cbv zeta.
  destruct (Z.eqb_spec (find_char "=" line) (-1)) as [|Hf]; [intros []|].
  intros H. split; [|apply (find_char_from_contains "=" line 0 Hf)].
  apply in_app_or in H. destruct H as [H|H].
  - destruct (_ || _); [destruct H as [<-|[]]; reflexivity | destruct H].
  - destruct (Rule003.lacks_leading_space _); [destruct H as [<-|[]]; reflexivity|].
    destruct (_ && _); [destruct H as [<-|[]]; reflexivity | destruct H].
Qed.

Lemma tfvars_group_error_member (group_lines : list Rule003.tentry) (indent_level : Z)
  (block_type : string) (e : Rule003.error) :
  In e (Rule003._check_group_alignment_tfvars group_lines indent_level block_type) ->
  exists line, In (fst e, line) group_lines /\ contains "=" line = true.
Proof.
  intros He.
  assert (H : exists p, In p (tfvars_members group_lines)
                        /\ Rule003.tp_should_skip p = false
                        /\ fst e = Rule003.tp_line_num p).
  { unfold Rule003._check_group_alignment_tfvars in He. cbv zeta in He.
    fold (tfvars_members group_lines) in He.
    destruct (_ <? 2); [destruct He|].
    destruct (Rule003.tfvars_positions (tfvars_members group_lines))
      as [|[a z] [|e2 rest]].
    - destruct (_ && _).
      + apply (most_common_errors _ _ _ _ _ _ He).
      + apply (against_formula_errors _ _ _ _ _ _ _ _ He).
    - apply (single_position_errors _ _ _ _ _ He).
    - destruct (Rule003.first_most_common (a, z) (e2 :: rest)) as [mp mc].
      destruct (_ && _).
      + apply (most_common_errors _ _ _ _ _ _ He).
      + apply (against_formula_errors _ _ _ _ _ _ _ _ He). }
  destruct H as (p & Hp & _ & Hl).
  destruct (member_is_group_line _ _ Hp) as [Hin Hf].
  exists (Rule003.tp_line p). rewrite Hl. split; [exact Hin|].
  apply (expandtabs_contains "=" _ 0%nat); [discriminate|].
  apply (find_char_from_contains "=" _ 0 Hf).
Qed.

Lemma tfvars_group_check_error (indent_level : Z) (block_type : string)
  (override : option Z) (group_lines : list Rule003.tentry) (err : Rule003.error) :
  In err (Rule003.check_tfvars_group indent_level block_type override group_lines) ->
  exists line, In (fst err, line) group_lines /\ contains "=" line = true.
Proof.
  unfold Rule003.check_tfvars_group. cbv zeta.
  set (sorted := Rule003.sort_tentries group_lines).
  assert (Hsorted : forall x, In x sorted -> In x group_lines)
    by (intros x; apply sort_tentries_in).
  assert (Hov : forall e, In e (fst (Rule003.override_check indent_level block_type
                                       override sorted)) ->
                exists line, In (fst e, line) sorted /\ contains "=" line = true).
  { intros e. unfold Rule003.override_check.
    destruct sorted as [|[n line] [|x l]]; try (intros []).
    destruct override as [ov|]; [|intros []].
    destruct (indent_level =? 0); [|intros []]. cbv zeta.
    assert (Hsp : In e (Rule003._check_parameter_spacing_tfvars line n block_type) ->
                  exists line0, In (fst e, line0) [(n, line)]
                                /\ contains "=" line0 = true).
    { intros H. destruct (spacing_tfvars_error _ _ _ _ H) as [-> Hc].
      exists line. split; [left; reflexivity | exact Hc]. }
    destruct (Z.eqb_spec (find_char "=" (expandtabs line)) (-1)) as [|Hf];
      cbn [negb andb]; [exact Hsp|].
    destruct (_ && _ && _); [|exact Hsp].
    destruct (_ <? 0); [exact Hsp|]. cbn [fst].
    intros [<-|H]; [|exact (Hsp H)].
    exists line. split; [left; reflexivity|].
    apply (expandtabs_contains "=" _ 0%nat); [discriminate|].
    apply (find_char_from_contains "=" _ 0 Hf). }
  destruct (Rule003.override_check indent_level block_type override sorted)
    as [override_errors done]. cbn [fst] in Hov.
  assert (Hov' : In err override_errors ->
                 exists line, In (fst err, line) group_lines /\ contains "=" line = true).
  { intros H. destruct (Hov err H) as (line & Hin & Hc). exists line. auto. }
  destruct done; [exact Hov'|].
  intros H. apply in_app_or in H. destruct H as [H|H]; [exact (Hov' H)|].
  apply in_app_or in H. destruct H as [H|H].
  - destruct (tfvars_group_error_member _ _ _ _ H) as (line & Hin & Hc).
    exists line. auto.
  - apply in_flat_map in H. destruct H as ([n line] & Hin & H). cbn [fst snd] in H.
    destruct (spacing_tfvars_error _ _ _ _ H) as [-> Hc]. exists line. auto.
Qed.

Lemma tfvars_parameter_lines_origin (section : list Rule003.tline) (e : Rule003.tline) :
  In e (Rule003.tfvars_parameter_lines section) ->
  exists lc, In (lc, snd e) section /\ fst e = rstrip lc.
Proof.
  induction section as [|[lc n] section IH]; simpl; [intros []|].
  destruct (_ && _ && _ && _).
  - intros [<-|H]; [exists lc; auto|].
    destruct (IH H) as (l & Hl & Hf). exists l. auto.
  - intros H. destruct (IH H) as (l & Hl & Hf). exists l. auto.
Qed.

Lemma tfvars_parameter_lines_not_comment (section : list Rule003.tline)
  (e : Rule003.tline) :
  In e (Rule003.tfvars_parameter_lines section) ->
  startswith "#" (strip (fst e)) = false.
Proof.
  induction section as [|[lc n] section IH]; simpl; [intros []|].
  destruct (startswith "#" (strip (rstrip lc))) eqn:Hc.
  - rewrite andb_false_r. simpl. exact IH.
  - destruct (_ && _ && _ && _); [|exact IH].
    intros [<-|H]; [exact Hc | exact (IH H)].
Qed.

Lemma tfvars_section_error (section : list Rule003.tline) (block_type : string)
  (override : option Z) (original_lines : list string) (err : Rule003.error) :
  In err (Rule003._check_tfvars_parameter_alignment_in_section section block_type
            override original_lines) ->
  exists line, In (line, fst err) section /\ contains "=" line = true
               /\ startswith "#" (strip line) = false.
Proof.
  unfold Rule003._check_tfvars_parameter_alignment_in_section. cbv zeta. intros H.
  apply in_flat_map in H. destruct H as (kv & Hkv & H).
  apply in_flat_map in H. destruct H as (g & Hg & H).
  destruct (tfvars_group_check_error _ _ _ _ _ H) as (line & Hin & Hc).
  assert (Hpl : In (line, fst err) (Rule003.tfvars_parameter_lines section)).
  { assert (Hpre : Forall
                     (fun e : Rule003.tline =>
                        In (snd (snd e, fst e), fst (snd e, fst e))
                          (Rule003.tfvars_parameter_lines section))
                     (Rule003.tfvars_parameter_lines section)).
    { apply Forall_forall. intros [l n] Hl. exact Hl. }
    pose proof (tfvars_groups_all
                  (fun e : Rule003.tentry =>
                     In (snd e, fst e) (Rule003.tfvars_parameter_lines section))
                  (Rule003.tfvars_parameter_lines section) original_lines Hpre) as Hall.
    rewrite Forall_forall in Hall. specialize (Hall kv Hkv).
    rewrite Forall_forall in Hall. specialize (Hall g Hg).
    rewrite Forall_forall in Hall. apply (Hall (fst err, line) Hin). }
  destruct (tfvars_parameter_lines_origin _ _ Hpl) as (lc & Hlc & Hf).
  pose proof (tfvars_parameter_lines_not_comment _ _ Hpl) as Hnc.
  cbn [fst snd] in *. exists lc. split; [exact Hlc|]. split.
  - apply (contains_prefix "=" (rstrip lc) lc); [apply rstrip_by_prefix|].
    rewrite <- Hf. exact Hc.
  - rewrite Hf, strip_rstrip in Hnc. exact Hnc.
Qed.

Lemma keep_unprocessed_in (errors : list Rule003.error) : forall processed x,
  In x (fst (Rule003.keep_unprocessed processed errors)) -> In x errors.
Proof.
  induction errors as [|[n m] errors IH]; intros processed x; simpl; [intros []|].
  destruct (existsb (Z.eqb n) processed).
  - intros H. right. apply (IH _ _ H).
  - destruct (Rule003.keep_unprocessed (n :: processed) errors) as [kept p] eqn:E.
    simpl. intros [<-|H]; [left; reflexivity|]. right.
    apply (IH (n :: processed)). rewrite E. exact H.
Qed.

Lemma tfvars_all_errors_total (lines : list string)
  (sections : list (list Rule003.tentry)) (rest : list (list Rule003.tentry)) :
  forall os section_idx processed,
    Forall (fun s => s <> []) rest ->
    exists errs,
      Rule003.tfvars_all_errors lines sections os section_idx processed rest = Some errs
      /\ forall err, In err errs ->
           exists section line,
             In section rest /\ In (fst err, line) section
             /\ contains "=" line = true
             /\ startswith "#" (strip line) = false.
Proof.
  induction rest as [|section rest IH]; intros os idx processed Hne.
  - exists []. split; [reflexivity | intros err []].
  - inversion Hne as [|? ? Hs Hr]; subst.
    destruct section as [|e0 section0]; [contradiction|].
    cbn [Rule003.tfvars_all_errors]. cbv zeta.
    destruct (Rule003.section_override lines sections os idx (e0 :: section0))
      as [override os'].
    set (errors := Rule003._check_tfvars_parameter_alignment_in_section _ _ _ _).
    pose proof (keep_unprocessed_in errors processed) as Hkept.
    destruct (Rule003.keep_unprocessed processed errors) as [kept processed'].
    cbn [fst] in Hkept.
    destruct (IH os' (S idx) processed' Hr) as (later & Hl & Hin).
    rewrite Hl. cbn [Rule003.bind]. exists (kept ++ later)%list.
    split; [reflexivity|]. intros err Herr. apply in_app_or in Herr.
    destruct Herr as [Herr|Herr].
    + apply Hkept in Herr. subst errors.
      destruct (tfvars_section_error _ _ _ _ _ Herr) as (line & Hline & Hc).
      apply in_map_iff in Hline. destruct Hline as ([n l] & Heq & Hsec).
      cbn [fst snd] in Heq. injection Heq as Hl' Hn'. subst l n.
      exists (e0 :: section0), line. split; [left; reflexivity|]. split; assumption.
    + destruct (Hin err Herr) as (s & line & H1 & H2 & H3).
      exists s, line. split; [right; exact H1|]. split; assumption.
Qed.

Lemma tfvars_file_check (file_path clean : string) :
  exists reports,
    Rule003._check_tfvars_parameter_alignment file_path clean = Some reports
    /\ forall r, In r reports ->
         r_file r = file_path /\ r_rule r = "ST.003" /\ 1 <= r_line r
         /\ tracker_skips (split_lines clean) (Z.to_nat (r_line r - 1)) = false
         /\ exists line,
              nth_error (split_lines clean) (Z.to_nat (r_line r - 1)) = Some line
              /\ contains "=" line = true
              /\ startswith "#" (strip line) = false.
Proof.
  unfold Rule003._check_tfvars_parameter_alignment. cbv zeta.
  destruct (Rule003.is_empty _); [exists []; split; [reflexivity | intros r []]|].
  pose proof (tfvars_sections_of_file (split_lines clean)
                (Rule003.assignment_lines_from Rule003.no_heredoc 0 (split_lines clean))
                (assignment_lines_of_file (split_lines clean) (split_lines clean)
                   Rule003.no_heredoc 0 [] eq_refl eq_refl eq_refl)) as Hsecs.
  set (sections := Rule003.tfvars_sections _ _) in *.
  destruct (tfvars_all_errors_total (split_lines clean) sections sections
              (Rule003.mkO None None None) 0 [])
    as (errs & Herrs & Hin).
  { eapply Forall_impl; [|exact Hsecs]. intros s [Hs _]. exact Hs. }
  rewrite Herrs. cbn [Rule003.bind]. eexists. split; [reflexivity|].
  intros r Hr. unfold Rule003.report_errors in Hr. apply in_map_iff in Hr.
  destruct Hr as (err & <- & Herr). cbn [r_file r_rule r_line].
  split; [reflexivity|]. split; [reflexivity|].
  apply (proj1 (sort_by_line_in _ _)) in Herr.
  destruct (Hin err Herr) as (s & line & Hs & Hline & Hc).
  unfold sections_of_file in Hsecs. rewrite Forall_forall in Hsecs.
  destruct (Hsecs s Hs) as [_ Hall]. rewrite Forall_forall in Hall.
  destruct (Hall _ Hline) as (H1 & Hnth & Hskip). cbn [fst snd] in *.
  split; [exact H1|]. split; [exact Hskip|]. exists line. auto.
Qed.

Lemma alignment_file_check (g : Rule003.globals) (file_path content : string) :
  exists reports,
    fst (Rule003.check_st003_parameter_alignment g file_path content) = Some reports
    /\ forall r, In r reports ->
         r_file r = file_path /\ r_rule r = "ST.003" /\ 1 <= r_line r
         /\ exists line,
              nth_error (split_lines (Rule003._remove_comments_for_parsing content))
                (Z.to_nat (r_line r - 1)) = Some line
              /\ contains "=" line = true
              /\ startswith "#" (strip line) = false.
Proof.
  destruct (endswith ".tfvars" file_path) eqn:Htf; [|apply block_file_check; exact Htf].
  unfold Rule003.check_st003_parameter_alignment. cbv zeta. rewrite Htf. cbn [fst].
  destruct (tfvars_file_check file_path (Rule003._remove_comments_for_parsing content))
    as (reports & Hr & H).
  exists reports. split; [exact Hr|]. intros r Hin.
  destruct (H r Hin) as (H1 & H2 & H3 & _ & H4). auto.
Qed.

(** X16. The alignment checker never raises: whatever the file path and
    the content, for block files and for [.tfvars] files, the run ends
    with the list of its calls of the report callback.  No index of a
    section leaves its block, and no section of a [.tfvars] file is
    empty. *)
Theorem alignment_check_never_raises (g : Rule003.globals)
  (file_path content : string) :
  exists reports,
    fst (Rule003.check_st003_parameter_alignment g file_path content) = Some reports.
Proof.
  destruct (alignment_file_check g file_path content) as (reports & H & _).
  exists reports. exact H.
Qed.

(** X17. Every error the alignment checker reports carries the file path
    and the rule ST.003, and the number of a line of the content that holds
    an equals sign. *)
Theorem alignment_reports_point_at_assignments (g : Rule003.globals)
  (file_path content : string) :
  Forall
    (fun r =>
       r_file r = file_path /\ r_rule r = "ST.003" /\ 1 <= r_line r
       /\ exists line,
            nth_error (split_lines content) (Z.to_nat (r_line r - 1)) = Some line
            /\ contains "=" line = true)
    (reported (fst (Rule003.check_st003_parameter_alignment g file_path content))).
Proof.
  destruct (alignment_file_check g file_path content) as (reports & -> & H).
  cbn [reported]. apply Forall_forall. intros r Hr.
  destruct (H r Hr) as (Hf & Hrule & Hl & cleaned & Hnth & Hc & _).
  split; [exact Hf|]. split; [exact Hrule|]. split; [exact Hl|].
  rewrite removed_lines, nth_error_map in Hnth.
  destruct (nth_error (split_lines content) (Z.to_nat (r_line r - 1)))
    as [original|] eqn:Ho; [|discriminate].
  injection Hnth as <-.
  exists original. split; [reflexivity|].
  apply (contains_prefix "=" (Rule003.remove_comment original) original);
    [apply remove_comment_prefix | exact Hc].
Qed.

(** ** Lines inside a heredoc are not reported *)

Lemma sorted_blocks_related (l : list Rule003.block) (a b : Rule003.block) :
  StronglySorted block_before l -> In a l -> In b l ->
  a = b \/ block_before a b \/ block_before b a.
Proof.
  induction l as [|x l IH]; intros Hs Ha Hb; [destruct Ha|].
  inversion Hs as [|? ? Hl Hx]; subst. rewrite Forall_forall in Hx.
  destruct Ha as [->|Ha], Hb as [->|Hb]; auto.
Qed.

Lemma tracker_skips_in_range (lines : list string) (i : nat) :
  tracker_skips lines i = true -> (i < List.length lines)%nat.
Proof.
  unfold tracker_skips. destruct (nth_error lines i) eqn:E; [|discriminate].
  intros _. apply nth_error_Some. congruence.
Qed.

(** X18. In a [.tfvars] file, a line the heredoc tracker skips, that is a
    line inside a heredoc, is never reported by the alignment checker,
    whatever it holds. *)
Theorem tfvars_heredoc_lines_are_not_reported (g : Rule003.globals)
  (file_path content : string) (i : nat) :
  endswith ".tfvars" file_path = true ->
  tracker_skips (split_lines (Rule003._remove_comments_for_parsing content)) i = true ->
  Forall (fun r => r_line r <> Z.of_nat i + 1)
    (reported (fst (Rule003.check_st003_parameter_alignment g file_path content))).
Proof.
  intros Htf Hskip. unfold Rule003.check_st003_parameter_alignment. cbv zeta.
  rewrite Htf. cbn [fst].
  destruct (tfvars_file_check file_path (Rule003._remove_comments_for_parsing content))
    as (reports & -> & H).
  cbn [reported]. apply Forall_forall. intros r Hr Hline.
  destruct (H r Hr) as (_ & _ & _ & Hno & _).
  replace (Z.to_nat (r_line r - 1)) with i in Hno by lia. congruence.
Qed.

Lemma tfvars_heredoc_lines_are_not_reported_witness :
  Forall (fun r => r_line r <> 2)
    (reported (fst (Rule003.check_st003_parameter_alignment (Rule003.mkGlobals None)
                      "terraform.tfvars" tfvars_heredoc_content))).
Proof.
  apply (tfvars_heredoc_lines_are_not_reported (Rule003.mkGlobals None)
           "terraform.tfvars" tfvars_heredoc_content 1); vm_compute; reflexivity.
Defined.

(** X19. In a block file, a body line of a block that the heredoc tracker
    of the block skips, that is a line inside a heredoc, is never reported
    by the alignment checker, whatever it holds. *)
Theorem block_heredoc_lines_are_not_reported (g : Rule003.globals)
  (file_path content : string) (block_type : string) (start_line : Z)
  (block_lines : list string) (idx : nat) :
  endswith ".tfvars" file_path = false ->
  In (block_type, start_line, block_lines)
    (Rule003._extract_code_blocks (Rule003._remove_comments_for_parsing content)) ->
  tracker_skips block_lines idx = true ->
  Forall (fun r => r_line r <> start_line + Z.of_nat idx + 1)
    (reported (fst (Rule003.check_st003_parameter_alignment g file_path content))).
Proof.
  intros Htf Hb Hskip. unfold Rule003.check_st003_parameter_alignment. cbv zeta.
  rewrite Htf.
  set (clean := Rule003._remove_comments_for_parsing content) in *.
  destruct (blocks_check_total (Rule003._extract_code_blocks clean) g)
    as (errs & Herrs & Hin).
  destruct (Rule003.check_blocks g (Rule003._extract_code_blocks clean)) as [all g'].
  cbn [fst] in *. subst all. cbn [reported].
  apply Forall_forall. intros r Hr Hline.
  unfold Rule003.report_errors in Hr. apply in_map_iff in Hr.
  destruct Hr as (err & <- & Herr). cbn [r_line] in Hline.
  unfold Rule003.unique_errors in Herr.
  apply (proj2 (unique_errors_from_spec _ [])) in Herr. destruct Herr as [Herr _].
  apply (proj1 (sort_by_line_in _ _)) in Herr.
  destruct (Hin err Herr) as (b & idx' & line & Hb' & Hnth & _ & Herrline & Hno & _).
  assert (Hsorted : StronglySorted block_before (Rule003._extract_code_blocks clean)).
  { unfold Rule003._extract_code_blocks.
    apply (scan_blocks_spec (List.length (split_lines clean)) (split_lines clean) 0
             (le_n _)). }
  pose proof (tracker_skips_in_range _ _ Hskip) as Hidx.
  assert (Hidx' : (idx' < List.length (snd b))%nat)
    by (apply nth_error_Some; congruence).
  destruct (sorted_blocks_related _ _ _ Hsorted Hb' Hb) as [->|[Hlt|Hlt]].
  - cbn [fst snd] in *. assert (idx' = idx) by lia. subst idx'. congruence.
  - unfold block_before in Hlt. cbn [fst snd] in Hlt. lia.
  - unfold block_before in Hlt. cbn [fst snd] in Hlt. lia.
Qed.

Lemma block_heredoc_lines_are_not_reported_witness :
  Forall (fun r => r_line r <> 3)
    (reported (fst (Rule003.check_st003_parameter_alignment (Rule003.mkGlobals None)
                      "main.tf" block_heredoc_content))).
Proof.
  apply (block_heredoc_lines_are_not_reported (Rule003.mkGlobals None) "main.tf"
           block_heredoc_content "locals" 1 ["  a = <<EOT"; "x   =1"; "EOT"] 1);
    vm_compute; auto.
Defined.

(** ** Odd indentation is always reported *)

Lemma validate_odd_indentation (line_content : string) (indent_level : Z)
  (is_tfvars_file : bool) (depth b k : Z) :
  0 < indent_level -> indent_level mod 2 = 1 ->
  exists e,
    Rule005.validate_expected line_content indent_level is_tfvars_file depth b k = Some e
    /\ 0 <= e /\ e mod 2 = 0.
Proof.
  intros Hpos Hodd. unfold Rule005.validate_expected.
  destruct (_ && _ && _ && _).
  - assert (H : (0 <? indent_level) = true) by lia. rewrite H.
    exists 0. repeat split; lia.
  - assert (H : ((0 <? indent_level) && negb (indent_level mod 2 =? 0)) = true).
    { apply andb_true_iff. split; [lia|]. apply negb_true_iff. lia. }
    rewrite H. eexists. split; [reflexivity|].
    destruct (indent_level =? 1) eqn:E1; [split; [lia|reflexivity]|].
    destruct (indent_level =? 3) eqn:E3; [split; [lia|reflexivity]|].
    destruct (indent_level =? 5) eqn:E5; [split; [lia|reflexivity]|].
    destruct (indent_level =? 7) eqn:E7; [split; [lia|reflexivity]|].
    destruct (indent_level =? 9) eqn:E9; [split; [lia|reflexivity]|].
    split; [lia|].
    rewrite Zminus_mod, Hodd. reflexivity.
Qed.

(** X20. A line with an odd number of leading spaces that the loop
    validates (it is not blank, not inside a heredoc and not a comment) is
    always reported, whatever the nesting depth, and the indentation the
    report expects is an even number. *)
Theorem odd_indentation_is_reported (file_path content : string) (i : nat)
  (line : string) :
  let lines := split_lines content in
  let is_tfvars_file := endswith ".tfvars" file_path in
  let st := Rule005.scan_state_after file_path is_tfvars_file lines
              Rule005.initial_scan 1 (firstn i lines) in
  let indent_level := Rule005._get_indentation_level line in
  nth_error lines i = Some line ->
  strip line <> "" ->
  Rule005.in_heredoc
    (Rule005._check_heredoc_state line (Rule005.in_heredoc (Rule005.heredoc st))
       (Rule005.terminator (Rule005.heredoc st))) = false ->
  startswith "#" (strip line) = false ->
  0 < indent_level -> indent_level mod 2 = 1 ->
  exists expected,
    0 <= expected /\ expected mod 2 = 0
    /\ In (mkReport file_path "ST.005"
             (Rule005.indent_message indent_level expected) (Z.of_nat i + 1))
         (Rule005.check_st005_indentation_level file_path content).
Proof.
  intros lines tf st lvl Hnth Hblank Hdoc Hcomment Hpos Hodd.
  unfold Rule005.check_st005_indentation_level. cbv zeta.
  change (split_lines content) with lines. change (endswith ".tfvars" file_path) with tf.
  destruct (nth_error_split _ _ Hnth) as (before & after & Hl & Hlen).
  assert (Hfirst : firstn i lines = before).
  { rewrite Hl, <- Hlen, firstn_app, Nat.sub_diag, firstn_all. cbn.
    apply app_nil_r. }
  unfold st in Hdoc. rewrite Hfirst in Hdoc. clear st Hfirst.
  assert (Hscan : forall l0,
            l0 = (before ++ line :: after)%list ->
            Rule005.scan_lines file_path tf lines Rule005.initial_scan 1 l0
            = (Rule005.scan_lines file_path tf lines Rule005.initial_scan 1 before
               ++ Rule005.scan_lines file_path tf lines
                    (Rule005.scan_state_after file_path tf lines Rule005.initial_scan 1
                       before)
                    (1 + Z.of_nat (List.length before)) (line :: after))%list).
  { intros l0 ->. apply scan_lines_app. }
  rewrite (Hscan lines Hl). clear Hscan.
  set (st0 := Rule005.scan_state_after file_path tf lines Rule005.initial_scan 1 before)
    in *.
  destruct (validate_odd_indentation (strip line) lvl tf
              (Rule005.brace_level st0 + Rule005.bracket_level st0)
              (Z.max 0 (Rule005.brace_level st0
                        + (count_char "{" line - count_char "}" line)))
              (Z.max 0 (Rule005.bracket_level st0
                        + (count_char "[" line - count_char "]" line)))
              Hpos Hodd) as (e & He & Hnn & Heven).
  exists e. split; [exact Hnn|]. split; [exact Heven|].
  apply in_or_app. right. cbn [Rule005.scan_lines].
  unfold Rule005.scan_line.
  destruct (String.eqb (strip line) "") eqn:Eb;
    [apply String.eqb_eq in Eb; contradiction|].
  cbv zeta. rewrite Hdoc, Hcomment.
  fold lvl. assert (Hm : (lvl =? -1) = false) by lia. rewrite Hm.
  unfold Rule005._validate_line_indentation. rewrite He.
  apply in_or_app. left. left. f_equal. lia.
Qed.

Lemma odd_indentation_is_reported_witness :
  exists expected,
    0 <= expected /\ expected mod 2 = 0
    /\ In (mkReport "main.tf" "ST.005" (Rule005.indent_message 3 expected) 2)
         (Rule005.check_st005_indentation_level "main.tf" odd_indent_content).
Proof.
  apply (odd_indentation_is_reported "main.tf" odd_indent_content 1 "   a = 1");
    vm_compute; try reflexivity; intro H; discriminate H.
Defined.

(** ** Where the alignment checker reports *)

(** X21. In a block file, every report of the alignment checker lies in
    the body of a block that [_extract_code_blocks] finds in the content
    without its comments: after the header line of the block and not after
    its last body line.  Lines outside of these blocks, and the header
    lines, are never reported. *)
Theorem alignment_reports_lie_in_blocks (g : Rule003.globals)
  (file_path content : string) :
  endswith ".tfvars" file_path = false ->
  Forall
    (fun r =>
       exists block_type start_line block_lines,
         In (block_type, start_line, block_lines)
           (Rule003._extract_code_blocks (Rule003._remove_comments_for_parsing content))
         /\ start_line < r_line r <= start_line + Z.of_nat (List.length block_lines))
    (reported (fst (Rule003.check_st003_parameter_alignment g file_path content))).
Proof.
  intros Htf. unfold Rule003.check_st003_parameter_alignment. cbv zeta. rewrite Htf.
  set (clean := Rule003._remove_comments_for_parsing content).
  destruct (blocks_check_total (Rule003._extract_code_blocks clean) g)
    as (errs & Herrs & Hin).
  destruct (Rule003.check_blocks g (Rule003._extract_code_blocks clean)) as [all g'].
  cbn [fst] in *. subst all. cbn [reported].
  apply Forall_forall. intros r Hr.
  unfold Rule003.report_errors in Hr. apply in_map_iff in Hr.
  destruct Hr as (err & <- & Herr). cbn [r_line].
  unfold Rule003.unique_errors in Herr.
  apply (proj2 (unique_errors_from_spec _ [])) in Herr. destruct Herr as [Herr _].
  apply (proj1 (sort_by_line_in _ _)) in Herr.
  destruct (Hin err Herr) as ([[bt start] bl] & idx & line & Hb & Hnth & _ & Hline & _).
  cbn [fst snd] in *. exists bt, start, bl. split; [exact Hb|].
  assert (idx < List.length bl)%nat by (apply nth_error_Some; congruence). lia.
Qed.

Lemma alignment_reports_lie_in_blocks_witness :
  Forall
    (fun r =>
       exists block_type start_line block_lines,
         In (block_type, start_line, block_lines)
           (Rule003._extract_code_blocks
              (Rule003._remove_comments_for_parsing e1_content))
         /\ start_line < r_line r <= start_line + Z.of_nat (List.length block_lines))
    (reported (fst (Rule003.check_st003_parameter_alignment (Rule003.mkGlobals None)
                      "main.tf" e1_content))).
Proof.
  apply (alignment_reports_lie_in_blocks (Rule003.mkGlobals None) "main.tf" e1_content).
  vm_compute. reflexivity.
Defined.

Lemma scan_blocks_without_header (rest : list string) : forall i,
  Forall (fun line => Rule003.header_block_type (strip line) = None) rest ->
  Rule003.scan_blocks rest i = [].
Proof.
  induction rest as [|l rest IH]; intros i H; [reflexivity|].
  inversion H as [|? ? Hl Hrest]; subst.
  cbn [Rule003.scan_blocks]. cbv zeta. rewrite Hl. apply IH. exact Hrest.
Qed.

(** X22. A block file in which no line of the content without its comments
    is a header of a data, resource, provider, locals, terraform, variable
    or output block gets no report from the alignment checker: what stands
    in other blocks or at top level is not checked. *)
Theorem file_without_blocks_is_not_checked (g : Rule003.globals)
  (file_path content : string) :
  endswith ".tfvars" file_path = false ->
  Forall (fun line => Rule003.header_block_type (strip line) = None)
    (split_lines (Rule003._remove_comments_for_parsing content)) ->
  fst (Rule003.check_st003_parameter_alignment g file_path content) = Some [].
Proof.
  intros Htf H. unfold Rule003.check_st003_parameter_alignment. cbv zeta.
  rewrite Htf. unfold Rule003._extract_code_blocks.
  rewrite (scan_blocks_without_header _ 0 H). reflexivity.
Qed.

Lemma file_without_blocks_is_not_checked_witness :
  fst (Rule003.check_st003_parameter_alignment (Rule003.mkGlobals None) "main.tf"
         module_content) = Some [].
Proof.
  apply (file_without_blocks_is_not_checked (Rule003.mkGlobals None) "main.tf"
           module_content); [reflexivity|].
  match goal with
  | |- Forall _ ?l => let l' := eval vm_compute in l in change l with l'
  end.
  repeat (apply Forall_cons; [vm_compute; reflexivity|]). apply Forall_nil.
Defined.

(** X23. A line whose first character after the leading white space is [#]
    is never reported by the alignment checker, neither in a block file nor
    in a [.tfvars] file: an assignment that is commented out is not
    checked. *)
Theorem comment_lines_are_not_reported (g : Rule003.globals)
  (file_path content : string) (i : nat) (line : string) :
  nth_error (split_lines content) i = Some line ->
  startswith "#" (strip line) = true ->
  Forall (fun r => r_line r <> Z.of_nat i + 1)
    (reported (fst (Rule003.check_st003_parameter_alignment g file_path content))).
Proof.
  intros Hnth Hcomment.
  destruct (alignment_file_check g file_path content) as (reports & -> & H).
  cbn [reported]. apply Forall_forall. intros r Hr Hline.
  destruct (H r Hr) as (_ & _ & _ & cleaned & Hc & _ & Hnc).
  replace (Z.to_nat (r_line r - 1)) with i in Hc by lia.
  rewrite removed_lines, nth_error_map, Hnth in Hc. cbn in Hc.
  injection Hc as <-. rewrite (comment_line_kept line Hcomment) in Hnc. congruence.
Qed.

Lemma comment_lines_are_not_reported_witness :
  Forall (fun r => r_line r <> 3)
    (reported (fst (Rule003.check_st003_parameter_alignment (Rule003.mkGlobals None)
                      "main.tf" commented_content))).
Proof.
  apply (comment_lines_are_not_reported (Rule003.mkGlobals None) "main.tf"
           commented_content 2 "  # bbbbbb = 2"); reflexivity.
Defined.

(** ** The grouping of the parameter lines of a section *)

Lemma add_to_group_holds (k : Z) (e : Rule003.entry) (d : list (Z * list Rule003.entry)) :
  exists g, In g (Rule003.add_to_group k e d) /\ fst g = k /\ In e (snd g).
Proof.
  induction d as [|[k' l] d IH]; simpl.
  - exists (k, [e]). simpl. auto.
  - destruct (Z.eqb_spec k' k) as [->|Hne].
    + exists (k, (l ++ [e])%list). simpl. split; [left; reflexivity|].
      split; [reflexivity|]. apply in_or_app. right. left. reflexivity.
    + destruct IH as (g & Hg & Hk & He). exists g. simpl. auto.
Qed.

Lemma add_to_group_keeps (k : Z) (e : Rule003.entry) (d : list (Z * list Rule003.entry))
  (g : Z * list Rule003.entry) (x : Rule003.entry) :
  In g d -> In x (snd g) ->
  exists g', In g' (Rule003.add_to_group k e d) /\ fst g' = fst g /\ In x (snd g').
Proof.
  induction d as [|[k' l] d IH]; simpl; [intros []|].
  intros [<-|Hg] Hx.
  - destruct (k' =? k).
    + exists (k', (l ++ [e])%list). simpl. split; [left; reflexivity|].
      split; [reflexivity|]. apply in_or_app. left. exact Hx.
    + exists (k', l). simpl. auto.
  - destruct (IH Hg Hx) as (g' & Hg' & Hk & Hx').
    destruct (k' =? k).
    + exists g. simpl. auto.
    + exists g'. simpl. auto.
Qed.

Lemma add_to_group_levels (k : Z) (e : Rule003.entry) (d : list (Z * list Rule003.entry)) :
  k = Rule003.indent_level_of (fst e) ->
  (forall g x, In g d -> In x (snd g) -> Rule003.indent_level_of (fst x) = fst g) ->
  forall g x, In g (Rule003.add_to_group k e d) -> In x (snd g) ->
              Rule003.indent_level_of (fst x) = fst g.
Proof.
  intros Hk. induction d as [|[k' l] d IH]; intros Hd g x; simpl.
  - intros [<-|[]] [<-|[]]. symmetry. exact Hk.
  - destruct (Z.eqb_spec k' k) as [->|Hne].
    + intros [<-|Hg] Hx; simpl in *.
      * apply in_app_or in Hx. destruct Hx as [Hx|[<-|[]]]; [|symmetry; exact Hk].
        apply (Hd (k, l) x); [left; reflexivity | exact Hx].
      * apply (Hd g x); [right; exact Hg | exact Hx].
    + intros [<-|Hg] Hx.
      * apply (Hd (k', l) x); [left; reflexivity | exact Hx].
      * apply IH; [|exact Hg | exact Hx].
        intros g0 x0 Hg0. apply Hd. right. exact Hg0.
Qed.

Lemma indent_groups_hold (params : list Rule003.entry) (e : Rule003.entry) :
  In e params ->
  exists g, In g (Rule003.indent_groups params)
            /\ fst g = Rule003.indent_level_of (fst e) /\ In e (snd g).
Proof.
  unfold Rule003.indent_groups.
  set (step := fun d e => Rule003.add_to_group (Rule003.indent_level_of (fst e)) e d).
  assert (Hkeep : forall l d g x,
            In g d -> In x (snd g) ->
            exists g', In g' (fold_left step l d) /\ fst g' = fst g /\ In x (snd g')).
  { induction l as [|a l IH]; intros d g x Hg Hx; simpl; [exists g; auto|].
    destruct (add_to_group_keeps (Rule003.indent_level_of (fst a)) a d g x Hg Hx)
      as (g1 & Hg1 & Hk1 & Hx1).
    destruct (IH (step d a) g1 x Hg1 Hx1) as (g2 & Hg2 & Hk2 & Hx2).
    exists g2. split; [exact Hg2|]. split; [congruence | exact Hx2]. }
  assert (H : forall l d,
            In e l ->
            exists g, In g (fold_left step l d)
                      /\ fst g = Rule003.indent_level_of (fst e) /\ In e (snd g)).
  { induction l as [|a l IH]; intros d; simpl; [intros []|].
    intros [->|Hin]; [|apply IH; exact Hin].
    destruct (add_to_group_holds (Rule003.indent_level_of (fst e)) e d)
      as (g1 & Hg1 & Hk1 & He1).
    destruct (Hkeep l (step d e) g1 e Hg1 He1) as (g2 & Hg2 & Hk2 & He2).
    exists g2. split; [exact Hg2|]. split; [congruence | exact He2]. }
  apply H.
Qed.

Lemma indent_groups_levels (params : list Rule003.entry) (g : Z * list Rule003.entry)
  (x : Rule003.entry) :
  In g (Rule003.indent_groups params) -> In x (snd g) ->
  Rule003.indent_level_of (fst x) = fst g.
Proof.
  unfold Rule003.indent_groups.
  assert (H : forall l d,
            (forall g x, In g d -> In x (snd g) ->
                         Rule003.indent_level_of (fst x) = fst g) ->
            forall g x,
              In g (fold_left
                      (fun d e =>
                         Rule003.add_to_group (Rule003.indent_level_of (fst e)) e d) l d) ->
              In x (snd g) -> Rule003.indent_level_of (fst x) = fst g).
  { induction l as [|a l IH]; intros d Hd; simpl; [exact Hd|].
    apply IH. apply add_to_group_levels; [reflexivity | exact Hd]. }
  apply (H params []). intros g0 x0 [].
Qed.

Lemma insert_by_idx_holds (e x : Rule003.entry) (l : list Rule003.entry) :
  x = e \/ In x l -> In x (Rule003.insert_by_idx e l).
Proof.
  induction l as [|y l IH]; simpl; [intros [->|[]]; left; reflexivity|].
  destruct (snd e <? snd y)%nat; simpl.
  - intros [->|[->|H]]; auto.
  - intros [->|[->|H]]; auto.
Qed.

Lemma sorted_by_idx_holds (l : list Rule003.entry) (x : Rule003.entry) :
  In x l -> In x (Rule003.sorted_by_idx l).
Proof.
  unfold Rule003.sorted_by_idx.
  assert (H : forall acc,
            In x l \/ In x acc ->
            In x (fold_left (fun acc e => Rule003.insert_by_idx e acc) l acc)).
  { induction l as [|e l IH]; intros acc; simpl; [intros [[]|H]; exact H|].
    intros [[->|H]|H]; apply IH.
    - right. apply insert_by_idx_holds. left. reflexivity.
    - left. exact H.
    - right. apply insert_by_idx_holds. right. exact H. }
  intros Hx. apply H. left. exact Hx.
Qed.

Lemma sub_groups_of_hold (block_lines : list string) (l : list Rule003.entry)
  (x : Rule003.entry) :
  In x l -> exists sub, In sub (Rule003.sub_groups_of block_lines l) /\ In x sub.
Proof.
  unfold Rule003.sub_groups_of.
  set (covered := fun (st : list (list Rule003.entry) * list Rule003.entry * option nat) y =>
                    In y (snd (fst st)) \/ exists s, In s (fst (fst st)) /\ In y s).
  assert (Hstep : forall st e y,
            y = e \/ covered st y ->
            covered (Rule003.sub_group_step block_lines st e) y).
  { intros [[sgs cur] prev] e y Hy. unfold covered in *. cbn [fst snd] in *.
    assert (Happ : In y (cur ++ [e])%list \/ exists s, In s sgs /\ In y s).
    { destruct Hy as [->|[Hy|Hy]]; [left|left|right; exact Hy]; apply in_or_app.
      - right. left. reflexivity.
      - left. exact Hy. }
    unfold Rule003.sub_group_step.
    destruct prev as [prev|]; [destruct block_lines as [|b0 bl]|]; cbn [fst snd];
      try exact Happ.
    destruct (Rule003.has_empty_line_between (b0 :: bl) prev (snd e)); cbn [fst snd];
      [|exact Happ].
    destruct Hy as [->|[Hy|(s & Hs & Hy)]].
    - left. left. reflexivity.
    - right. destruct cur as [|c0 cur0]; [destruct Hy|].
      exists (c0 :: cur0). split; [|exact Hy]. apply in_or_app. right. left. reflexivity.
    - right. exists s. split; [|exact Hy].
      destruct cur; [exact Hs | apply in_or_app; left; exact Hs]. }
  assert (H : forall st,
            In x l \/ covered st x ->
            covered (fold_left (Rule003.sub_group_step block_lines) l st) x).
  { induction l as [|e l IH]; intros st; simpl; [intros [[]|H]; exact H|].
    intros [[->|H]|H]; apply IH.
    - right. apply Hstep. left. reflexivity.
    - left. exact H.
    - right. apply Hstep. right. exact H. }
  intros Hx. specialize (H ([], [], None) (or_introl Hx)).
  destruct (fold_left _ l _) as [[sgs cur] prev]. unfold covered in H. cbn [fst snd] in H.
  destruct H as [H|(s & Hs & H)].
  - destruct cur as [|c0 cur0]; [destruct H|].
    exists (c0 :: cur0). split; [|exact H]. apply in_or_app. right. left. reflexivity.
  - exists s. split; [|exact H].
    destruct cur; [exact Hs | apply in_or_app; left; exact Hs].
Qed.

(** X24. The grouping of [_check_parameter_alignment_in_section] loses no
    parameter line and mixes no indentation levels: every parameter line
    of the section is a member of a sub-group of the group of its own
    indentation level, and every member of a group has the indentation
    level of the group. *)
Theorem parameter_lines_are_all_grouped (section : list Rule003.entry)
  (block_lines : list string) (e : Rule003.entry) :
  In e (Rule003.parameter_lines section) ->
  (exists g sub,
     In g (Rule003.indent_groups (Rule003.parameter_lines section))
     /\ fst g = Rule003.indent_level_of (fst e)
     /\ In sub (Rule003.sub_groups_of block_lines (Rule003.sorted_by_idx (snd g)))
     /\ In e sub)
  /\ (forall g x,
        In g (Rule003.indent_groups (Rule003.parameter_lines section)) ->
        In x (snd g) -> Rule003.indent_level_of (fst x) = fst g).
Proof.
  intros He. split; [|apply indent_groups_levels].
  destruct (indent_groups_hold _ e He) as (g & Hg & Hk & Hin).
  destruct (sub_groups_of_hold block_lines (Rule003.sorted_by_idx (snd g)) e
              (sorted_by_idx_holds _ _ Hin)) as (sub & Hsub & Hes).
  exists g, sub. auto.
Qed.

Lemma parameter_lines_are_all_grouped_witness :
  (exists g sub,
     In g (Rule003.indent_groups (Rule003.parameter_lines e1_group))
     /\ fst g = Rule003.indent_level_of "  a = 1"
     /\ In sub (Rule003.sub_groups_of e1_lines (Rule003.sorted_by_idx (snd g)))
     /\ In ("  a = 1", 0%nat) sub)
  /\ (forall g x,
        In g (Rule003.indent_groups (Rule003.parameter_lines e1_group)) ->
        In x (snd g) -> Rule003.indent_level_of (fst x) = fst g).
Proof.
  apply (parameter_lines_are_all_grouped e1_group e1_lines ("  a = 1", 0%nat)).
  vm_compute. left. reflexivity.
Defined.

(** ** An equals sign in a string value *)

(** X25. An assignment whose line does not start with a quote and has
    some text before its first equals sign is never taken for a line whose
    equals sign stands in a string value, whatever its value holds. *)
Theorem plain_assignment_is_not_string_value (line : string) :
  Rule003.starts_with_quote (strip line) = false ->
  strip (slice_to line (find_char "=" line)) <> "" ->
  Rule003._is_equals_in_string_value line = false.
Proof.
  intros Hq Hname. unfold Rule003._is_equals_in_string_value. cbv zeta.
  destruct (find_char "=" line =? -1); [reflexivity|].
  unfold Rule003.starts_with_quote in Hq. apply orb_false_iff in Hq.
  destruct Hq as [Hd Hs]. rewrite Hd, Hs. cbn [andb].
  assert (Ht : truthy (strip (slice_to line (find_char "=" line))) = true).
  { unfold truthy. apply negb_true_iff. apply String.eqb_neq. exact Hname. }
  rewrite Ht. cbn [negb]. rewrite !andb_false_r. reflexivity.
Qed.

Lemma plain_assignment_is_not_string_value_witness :
  Rule003._is_equals_in_string_value "op = '>='" = false.
Proof.
  apply (plain_assignment_is_not_string_value "op = '>='");
    [vm_compute; reflexivity | vm_compute; intro H; discriminate H].
Defined.

(** ** Lines above without an opener *)

Lemma contains_lstrip (sub s : string) :
  contains sub (lstrip s) = true -> contains sub s = true.
Proof.
  induction s as [|c s IH]; [intros H; exact H|].
  cbn [lstrip]. destruct (isspace c); [|intros H; exact H].
  intros H. rewrite contains_cons. rewrite (IH H). apply orb_true_r.
Qed.

Lemma contains_strip (sub s : string) :
  contains sub (strip s) = true -> contains sub s = true.
Proof.
  unfold strip. intros H. apply contains_lstrip in H.
  apply (contains_prefix sub (rstrip s) s); [apply rstrip_by_prefix | exact H].
Qed.

Lemma count_char_absent (c : ascii) (s : string) :
  contains (String c "") s = false -> count_char c s = 0.
Proof.
  induction s as [|a s IH]; [reflexivity|].
  rewrite contains_char_cons. intros H. apply orb_false_iff in H.
  destruct H as [Ha Hs]. cbn [count_char]. rewrite Ha, (IH Hs). reflexivity.
Qed.

Lemma endswith_char_contains (c : ascii) (s : string) :
  endswith (String c "") s = true -> contains (String c "") s = true.
Proof.
  induction s as [|a s IH]; [intros H; discriminate H|].
  cbn [endswith]. rewrite contains_char_cons. intros H.
  apply orb_true_iff in H. destruct H as [H|H].
  - apply String.eqb_eq in H. injection H as -> _. rewrite Ascii.eqb_refl. reflexivity.
  - rewrite (IH H). apply orb_true_r.
Qed.

Lemma inside_block_scan_without_opener (all_lines : list string) : forall n b k,
  b <= 0 -> k <= 0 ->
  Forall (fun l => contains "{" l = false /\ contains "[" l = false)
    (firstn n all_lines) ->
  Rule003.inside_block_scan all_lines n b k = false.
Proof.
  induction n as [|i IH]; intros b k Hb Hk Hall; [reflexivity|].
  cbn [Rule003.inside_block_scan].
  assert (Hi : Forall (fun l => contains "{" l = false /\ contains "[" l = false)
                 (firstn i all_lines)).
  { apply Forall_forall. intros l Hl. rewrite Forall_forall in Hall. apply Hall.
    rewrite <- (firstn_skipn i (firstn (S i) all_lines)).
    apply in_or_app. left. rewrite firstn_firstn.
    replace (Nat.min i (S i)) with i by lia. exact Hl. }
  destruct (nth_error all_lines i) as [l|] eqn:Hnth; [|apply IH; assumption].
  cbv zeta. destruct (negb (truthy (strip l))); [apply IH; assumption|].
  assert (Hl : contains "{" l = false /\ contains "[" l = false).
  { rewrite Forall_forall in Hall. apply Hall.
    apply (nth_error_In _ i). rewrite nth_error_firstn.
    destruct (Nat.ltb_spec i (S i)); [exact Hnth | lia]. }
  destruct Hl as [Hbrace Hbracket].
  assert (Hsb : contains "{" (strip l) = false).
  { destruct (contains "{" (strip l)) eqn:E; [|reflexivity].
    apply contains_strip in E. congruence. }
  assert (Hsk : contains "[" (strip l) = false).
  { destruct (contains "[" (strip l)) eqn:E; [|reflexivity].
    apply contains_strip in E. congruence. }
  rewrite (count_char_absent "{" _ Hsb), (count_char_absent "[" _ Hsk).
  pose proof (count_char_nonneg "}" (strip l)).
  pose proof (count_char_nonneg "]" (strip l)).
  assert (H1 : (0 <? b + 0 - count_char "}" (strip l)) = false) by lia.
  assert (H2 : (0 <? k + 0 - count_char "]" (strip l)) = false) by lia.
  rewrite H1, H2. cbn [orb].
  assert (He1 : endswith "{" (strip l) = false).
  { destruct (endswith "{" (strip l)) eqn:E; [|reflexivity].
    apply endswith_char_contains in E. congruence. }
  assert (He2 : endswith "[" (strip l) = false).
  { destruct (endswith "[" (strip l)) eqn:E; [|reflexivity].
    apply endswith_char_contains in E. congruence. }
  rewrite He1, He2. cbn [orb]. apply IH; [lia | lia | exact Hi].
Qed.

(** X26. When no line above the current line holds an opening brace or an
    opening bracket, [_is_inside_block_structure_tfvars] answers [False],
    whatever the current line and whatever the closing braces and brackets
    above it. *)
Theorem no_opener_above_is_outside_blocks (current_line : string)
  (all_lines : list string) (current_line_num : Z) :
  Forall (fun l => contains "{" l = false /\ contains "[" l = false)
    (firstn (Z.to_nat (current_line_num - 1)) all_lines) ->
  Rule003._is_inside_block_structure_tfvars current_line all_lines current_line_num
  = false.
Proof.
  intros H. unfold Rule003._is_inside_block_structure_tfvars. cbv zeta.
  destruct (_ && _); [|reflexivity].
  apply inside_block_scan_without_opener; [lia | lia | exact H].
Qed.

Lemma no_opener_above_is_outside_blocks_witness :
  Rule003._is_inside_block_structure_tfvars "c = 3" ["a = 1"; "}"; "c = 3"] 3 = false.
Proof.
  apply (no_opener_above_is_outside_blocks "c = 3" ["a = 1"; "}"; "c = 3"] 3).
  repeat (apply Forall_cons; [vm_compute; split; reflexivity|]). apply Forall_nil.
Defined.

(** ** What the heredoc tracker skips *)

Lemma tracker_after_body (t : string) (body : list string) :
  Forall (fun l => strip l <> t) body ->
  tracker_after (Rule003.mkHeredoc true (Some t)) body
  = Rule003.mkHeredoc true (Some t)
  /\ Forall (fun l =>
               fst (Rule003.heredoc_track (Rule003.mkHeredoc true (Some t)) l (strip l))
               = true) body.
Proof.
  assert (Hone : forall l, strip l <> t ->
            Rule003.heredoc_track (Rule003.mkHeredoc true (Some t)) l (strip l)
            = (true, Rule003.mkHeredoc true (Some t))).
  { intros l Hl. unfold Rule003.heredoc_track.
    cbn [Rule003.in_heredoc Rule003.heredoc_terminator Rule003.opt_eqb].
    apply String.eqb_neq in Hl. rewrite Hl, andb_false_r. reflexivity. }
  induction body as [|l body IH]; intros H; [split; [reflexivity | constructor]|].
  inversion H as [|? ? Hl Hb]; subst. unfold tracker_after. cbn [fold_left].
  rewrite (Hone l Hl). cbn [snd fst]. destruct (IH Hb) as [IH1 IH2].
  split; [exact IH1|]. constructor; [rewrite (Hone l Hl); reflexivity | exact IH2].
Qed.

(** X27. The heredoc tracker of the alignment checker, met outside a
    heredoc with a line that ends in a start marker of terminator [t]:
    that line is not skipped, every line after it is skipped as long as its
    stripped text is not [t], and the line whose stripped text is [t] is
    not skipped. *)
Theorem tracker_skips_the_heredoc_body (head body rest : list string)
  (start closing t : string) :
  Rule003.in_heredoc (tracker_after Rule003.no_heredoc head) = false ->
  group 1 (re_search Rule003.heredoc_start_re start) = Some t ->
  t <> "" ->
  Forall (fun l => strip l <> t) body ->
  strip closing = t ->
  let lines := (head ++ start :: body ++ closing :: rest)%list in
  tracker_skips lines (List.length head) = false
  /\ (forall j, (j < List.length body)%nat ->
        tracker_skips lines (List.length head + 1 + j) = true)
  /\ tracker_skips lines (List.length head + 1 + List.length body) = false.
Proof.
  intros Hout Hgroup Ht Hbody Hclose lines.
  destruct (re_search Rule003.heredoc_start_re start) as [c|] eqn:Hre;
    [|discriminate Hgroup].
  cbn [group] in Hgroup. rename Hgroup into Hcap.
  assert (Hstart : Rule003.heredoc_track (tracker_after Rule003.no_heredoc head) start
                     (strip start)
                   = (false, Rule003.mkHeredoc true (Some t))).
  { unfold Rule003.heredoc_track. rewrite Hout. cbn [andb]. rewrite Hout, Hre, Hcap.
    reflexivity. }
  assert (Hafter : forall l, tracker_after Rule003.no_heredoc (head ++ start :: l)
                             = tracker_after (Rule003.mkHeredoc true (Some t)) l).
  { intros l. unfold tracker_after. rewrite fold_left_app. cbn [fold_left].
    fold (tracker_after Rule003.no_heredoc head). rewrite Hstart. reflexivity. }
  split; [|split].
  - unfold lines. rewrite tracker_skips_at, Hstart. reflexivity.
  - intros j Hj.
    destruct (nth_error body j) as [l|] eqn:Hl;
      [|apply nth_error_None in Hl; lia].
    destruct (nth_error_split _ _ Hl) as (b1 & b2 & Hb & Hlen).
    unfold lines. rewrite Hb.
    replace (head ++ start :: (b1 ++ l :: b2) ++ closing :: rest)%list
      with ((head ++ start :: b1) ++ l :: (b2 ++ closing :: rest))%list
      by (repeat (rewrite <- app_assoc; cbn [app]); reflexivity).
    replace (List.length head + 1 + j)%nat with (List.length (head ++ start :: b1))
      by (rewrite length_app; cbn; lia).
    rewrite tracker_skips_at, Hafter.
    rewrite Hb in Hbody. apply Forall_app in Hbody. destruct Hbody as [H1 H2].
    destruct (tracker_after_body t b1 H1) as [-> _].
    inversion H2 as [|? ? Hl' _]; subst.
    unfold Rule003.heredoc_track.
    cbn [Rule003.in_heredoc Rule003.heredoc_terminator Rule003.opt_eqb].
    apply String.eqb_neq in Hl'. rewrite Hl', andb_false_r. reflexivity.
  - unfold lines.
    replace (head ++ start :: body ++ closing :: rest)%list
      with ((head ++ start :: body) ++ closing :: rest)%list
      by (repeat (rewrite <- app_assoc; cbn [app]); reflexivity).
    replace (List.length head + 1 + List.length body)%nat
      with (List.length (head ++ start :: body)) by (rewrite length_app; cbn; lia).
    rewrite tracker_skips_at, Hafter.
    destruct (tracker_after_body t body Hbody) as [-> _].
    unfold Rule003.heredoc_track.
    cbn [Rule003.in_heredoc Rule003.heredoc_terminator Rule003.opt_eqb
         Rule003.opt_truthy].
    rewrite Hclose, String.eqb_refl.
    assert (Htr : truthy t = true)
      by (unfold truthy; apply negb_true_iff, String.eqb_neq; exact Ht).
    rewrite Htr. cbn [andb Rule003.in_heredoc].
    destruct (re_search Rule003.heredoc_start_re closing); reflexivity.
Qed.

Lemma tracker_skips_the_heredoc_body_witness :
  tracker_skips tracker_example 1 = false
  /\ (forall j, (j < 1)%nat -> tracker_skips tracker_example (1 + 1 + j) = true)
  /\ tracker_skips tracker_example 3 = false.
Proof.
  apply (tracker_skips_the_heredoc_body ["a = 1"] ["x   =1"] ["c = 2"] "b = <<EOT"
           "  EOT" "EOT");
    [vm_compute; reflexivity | vm_compute; reflexivity | intro H; discriminate H
    | apply Forall_cons; [vm_compute; intro H; discriminate H | apply Forall_nil]
    | vm_compute; reflexivity].
Defined.

(* ------------------------------------------------------------------ *)
(** ** ST.003 and ST.005: what is reported of what is collected *)

Lemma keep_unprocessed_app (a b : list Rule003.error) : forall processed,
  Rule003.keep_unprocessed processed (a ++ b)
  = (fst (Rule003.keep_unprocessed processed a)
     ++ fst (Rule003.keep_unprocessed (snd (Rule003.keep_unprocessed processed a)) b),
     snd (Rule003.keep_unprocessed (snd (Rule003.keep_unprocessed processed a)) b))%list.
Proof.
  induction a as [|[n m] a IH]; intros processed; cbn [app Rule003.keep_unprocessed].
  - cbn [fst snd app]. destruct (Rule003.keep_unprocessed processed b). reflexivity.
  - destruct (existsb (Z.eqb n) processed); [apply IH|].
    rewrite (IH (n :: processed)).
    destruct (Rule003.keep_unprocessed (n :: processed) a) as [kept p]. reflexivity.
Qed.

Lemma keep_unprocessed_first (errors : list Rule003.error) : forall processed e,
  In e (fst (Rule003.keep_unprocessed processed errors))
  <-> first_of_line errors e /\ ~ In (fst e) processed.
Proof.
  induction errors as [|[n m] errors IH]; intros processed e;
    cbn [Rule003.keep_unprocessed].
  - cbn [fst]. split; [intros []|]. intros [(before & after & H & _) _].
    destruct before; discriminate H.
  - destruct (existsb (Z.eqb n) processed) eqn:Ex.
    + apply (existsb_Z_in n processed) in Ex. rewrite IH. split.
      * intros [(before & after & -> & Hb) Hp]. split; [|exact Hp].
        exists ((n, m) :: before), after. split; [reflexivity|].
        cbn [map fst In]. intros [Hn|Hn]; [|exact (Hb Hn)].
        apply Hp. rewrite <- Hn. exact Ex.
      * intros [(before & after & H & Hb) Hp]. split; [|exact Hp].
        destruct before as [|x before].
        -- cbn [app] in H. injection H as He _. subst e. cbn [fst] in Hp. contradiction.
        -- cbn [app] in H. injection H as Hx Hrest. exists before, after.
           split; [exact Hrest|]. intros Hin. apply Hb. right. exact Hin.
    + assert (Hnp : ~ In n processed).
      { intros Hin. apply (existsb_Z_in n processed) in Hin. congruence. }
      specialize (IH (n :: processed) e).
      destruct (Rule003.keep_unprocessed (n :: processed) errors) as [kept p].
      cbn [fst] in *. split.
      * intros [<-|Hin].
        -- split; [|exact Hnp]. exists [], errors. split; [reflexivity | intros []].
        -- apply IH in Hin. destruct Hin as [(before & after & -> & Hb) Hp].
           split; [|intros Hin; apply Hp; right; exact Hin].
           exists ((n, m) :: before), after. split; [reflexivity|].
           cbn [map fst In]. intros [Hn|Hn]; [|exact (Hb Hn)].
           apply Hp. left. exact Hn.
      * intros [(before & after & H & Hb) Hp].
        destruct before as [|x before].
        -- cbn [app] in H. injection H as He _. left. exact He.
        -- cbn [app] in H. injection H as Hx Hrest. right. apply IH. subst x.
           split.
           ++ exists before, after. split; [exact Hrest|].
              intros Hin. apply Hb. right. exact Hin.
           ++ intros [Hn|Hin]; [|exact (Hp Hin)]. apply Hb. left. exact Hn.
Qed.

Lemma tfvars_all_errors_of_collected (lines : list string)
  (sections : list (list Rule003.tentry)) (rest : list (list Rule003.tentry)) :
  forall os section_idx processed all,
    Rule003.tfvars_all_errors lines sections os section_idx processed rest = Some all ->
    all = fst (Rule003.keep_unprocessed processed
                 (tfvars_collected lines sections os section_idx rest)).
Proof.
  induction rest as [|section rest IH]; intros os idx processed all H.
  - cbn in H. injection H as <-. reflexivity.
  - destruct section as [|e0 section0]; [discriminate H|].
    cbn [Rule003.tfvars_all_errors tfvars_collected] in *. cbv zeta in *.
    destruct (Rule003.section_override lines sections os idx (e0 :: section0))
      as [override os'].
    rewrite keep_unprocessed_app. cbn [fst].
    destruct (Rule003.keep_unprocessed processed _) as [kept processed'].
    cbn [fst snd].
    destruct (Rule003.tfvars_all_errors lines sections os' (S idx) processed' rest)
      as [later|] eqn:E; [|discriminate H].
    cbn [Rule003.bind] in H. injection H as <-.
    rewrite (IH os' (S idx) processed' later E). reflexivity.
Qed.

Lemma report_errors_lines (file_path : string) (l : list Rule003.error) :
  map r_line (Rule003.report_errors file_path l) = map fst l.
Proof.
  unfold Rule003.report_errors. rewrite map_map. reflexivity.
Qed.

(** C5, as stated, fails on a [.tfvars] file: the entry point keeps the
    first error of each line number and drops the others, also those with
    another message.  Of the three errors collected for line 1 of the
    example, only the first is reported. *)
Lemma tfvars_messages_of_one_line_dropped :
  collected_in_tfvars unspaced_tfvars
  = [(1, Rule003.msg_not_aligned "tfvars" 2 3);
     (1, Rule003.msg_space_before "tfvars");
     (1, Rule003.msg_space_after "tfvars");
     (2, Rule003.msg_after_multiple "tfvars")]
  /\ fst (Rule003.check_st003_parameter_alignment (Rule003.mkGlobals None) "x.tfvars"
            unspaced_tfvars)
     = Some [mkReport "x.tfvars" "ST.003" (Rule003.msg_not_aligned "tfvars" 2 3) 1;
             mkReport "x.tfvars" "ST.003" (Rule003.msg_after_multiple "tfvars") 2]
  /\ Rule003.msg_space_before "tfvars" <> Rule003.msg_not_aligned "tfvars" 2 3
  /\ Rule003.msg_space_after "tfvars" <> Rule003.msg_not_aligned "tfvars" 2 3.
Proof.
  split; [vm_compute; reflexivity|]. split; [vm_compute; reflexivity|].
  split; vm_compute; intro H; discriminate H.
Qed.

(** C5 (amended). The diagnostics a checker passes to the report callback
    come in ascending order of line number, and no two of them have the
    same line number and message.  In a block file they are the errors
    collected from the blocks, each pair of a line number and a message
    once.  In a [.tfvars] file at most one diagnostic is reported for a
    line number: the first error collected for it from the sections; later
    errors of that line, whatever their message, are dropped. *)
Theorem diagnostics_sorted_and_deduplicated (file_path content : string) :
  (forall g,
     let l := reported (fst (Rule003.check_st003_parameter_alignment g file_path
                               content)) in
     ascending l /\ no_duplicate l
     /\ (endswith ".tfvars" file_path = false ->
         exists errs,
           collected_in_blocks g content = Some errs
           /\ forall e, In e (map pair_of l) <-> In e errs)
     /\ (endswith ".tfvars" file_path = true ->
         NoDup (map r_line l)
         /\ forall e,
              In e (map pair_of l) <-> first_of_line (collected_in_tfvars content) e))
  /\ ascending (Rule005.check_st005_indentation_level file_path content)
  /\ no_duplicate (Rule005.check_st005_indentation_level file_path content).
Proof.
  split.
  - intros g l.
    assert (Hsorted : ascending l /\ no_duplicate l).
    { unfold l, Rule003.check_st003_parameter_alignment.
      destruct (endswith ".tfvars" file_path).
      + cbn [fst]. unfold Rule003._check_tfvars_parameter_alignment.
        destruct (Rule003.is_empty _); [split; constructor|].
        destruct (Rule003.tfvars_all_errors _ _ _ _ _ _) as [errs|] eqn:E;
          [|split; constructor].
        cbn [Rule003.bind reported].
        split.
        * apply report_errors_ascending, sort_by_line_sorted.
        * unfold no_duplicate. rewrite report_errors_pairs.
          apply (Permutation_NoDup (sort_by_line_perm errs)).
          apply NoDup_of_fst. apply (tfvars_all_errors_lines _ _ _ _ _ _ _ E).
      + destruct (Rule003.check_blocks g _) as [[errs|] g']; cbn [fst reported];
          [|split; constructor].
        split.
        * apply report_errors_ascending. apply unique_errors_from_sorted.
          apply sort_by_line_sorted.
        * unfold no_duplicate. rewrite report_errors_pairs.
          apply unique_errors_from_spec. }
    destruct Hsorted as [Hasc Hnd]. split; [exact Hasc|]. split; [exact Hnd|]. split.
    + intros Htf. unfold collected_in_blocks.
      set (clean := Rule003._remove_comments_for_parsing content).
      destruct (blocks_check_total (Rule003._extract_code_blocks clean) g)
        as (errs & Herrs & _).
      exists errs. split; [exact Herrs|].
      unfold l, Rule003.check_st003_parameter_alignment. cbv zeta. rewrite Htf.
      fold clean.
      destruct (Rule003.check_blocks g (Rule003._extract_code_blocks clean))
        as [all g']. cbn [fst] in *. subst all. cbn [reported].
      unfold pair_of. rewrite report_errors_pairs. intros e.
      unfold Rule003.unique_errors.
      rewrite (proj2 (unique_errors_from_spec _ [])), sort_by_line_in.
      split; [intros [H _]; exact H | intros H; split; [exact H | intros []]].
    + intros Htf.
      destruct (tfvars_file_check file_path (Rule003._remove_comments_for_parsing content))
        as (reports & Hreports & _).
      unfold l, Rule003.check_st003_parameter_alignment. cbv zeta. rewrite Htf.
      cbn [fst]. unfold collected_in_tfvars. cbv zeta.
      unfold Rule003._check_tfvars_parameter_alignment in *. cbv zeta in *.
      set (lines := split_lines (Rule003._remove_comments_for_parsing content)) in *.
      destruct (Rule003.is_empty (Rule003.assignment_lines_from Rule003.no_heredoc 0
                                    lines)).
      * cbn [reported map]. split; [constructor|]. intros e. split; [intros []|].
        intros (before & after & H & _). destruct before; discriminate H.
      * set (sections := Rule003.tfvars_sections lines _) in *.
        destruct (Rule003.tfvars_all_errors lines sections (Rule003.mkO None None None)
                    0 [] sections) as [all|] eqn:E; [|discriminate Hreports].
        cbn [Rule003.bind reported]. split.
        -- rewrite report_errors_lines.
           apply (Permutation_NoDup (Permutation_map fst (sort_by_line_perm all))).
           apply (tfvars_all_errors_lines _ _ _ _ _ _ _ E).
        -- intros e. unfold pair_of. rewrite report_errors_pairs, sort_by_line_in.
           rewrite (tfvars_all_errors_of_collected _ _ _ _ _ _ _ E).
           rewrite keep_unprocessed_first.
           split; [intros [H _]; exact H | intros H; split; [exact H | intros []]].
  - apply strictly_sorted_reports.
    unfold Rule005.check_st005_indentation_level. apply scan_lines_strictly_sorted.
Qed.

(* ------------------------------------------------------------------ *)
(** ** ST.003: the space after the equals sign *)

Lemma check_blocks_hold (blocks : list Rule003.block) :
  forall g all b,
    fst (Rule003.check_blocks g blocks) = Some all -> In b blocks ->
    exists eb, fst (Rule003.check_block g b) = Some eb /\ incl eb all.
Proof.
  induction blocks as [|b0 blocks IH]; intros g all b Hall Hb; [destruct Hb|].
  cbn [Rule003.check_blocks] in Hall.
  destruct (Rule003.check_block g b0) as [e0 g1] eqn:E0.
  destruct e0 as [e0|]; [|discriminate Hall].
  destruct (Rule003.check_blocks g1 blocks) as [rest g2] eqn:Er.
  destruct rest as [rest|]; [|discriminate Hall].
  cbn [fst] in Hall. injection Hall as <-.
  destruct Hb as [<-|Hb].
  - exists e0. rewrite E0. split; [reflexivity | apply incl_appl, incl_refl].
  - destruct (IH g1 rest b) as (eb & Heb & Hincl); [rewrite Er; reflexivity | exact Hb|].
    exists eb. rewrite (check_block_ignores_state g g1 b).
    split; [exact Heb | apply incl_appr, Hincl].
Qed.

(** C7, as stated, fails in a [.tfvars] file: on the first line of the
    example no space follows the equals sign, the check of its group does
    collect the error of the missing space, but the entry point reports
    the first error of the line only, the alignment error. *)
Lemma tfvars_space_after_not_reported :
  groups_of_file unspaced_tfvars = [(0, [(1, "a=1"); (2, "bb =  2")])]
  /\ In (1, Rule003.msg_space_after "tfvars") (collected_in_tfvars unspaced_tfvars)
  /\ fst (Rule003.check_st003_parameter_alignment (Rule003.mkGlobals None) "x.tfvars"
            unspaced_tfvars)
     = Some [mkReport "x.tfvars" "ST.003" (Rule003.msg_not_aligned "tfvars" 2 3) 1;
             mkReport "x.tfvars" "ST.003" (Rule003.msg_after_multiple "tfvars") 2].
Proof.
  split; [vm_compute; reflexivity|]. split; [|vm_compute; reflexivity].
  vm_compute. right. right. left. reflexivity.
Qed.

(** C7 (amended). In a block file, in every alignment group of a section
    of a block, for every member: when the equals sign is not followed by a
    space, the error of the first kind is logged on the line of the member;
    when it is followed by two spaces or more, the error of the second kind
    is; the spacing check logs nothing for the member exactly when one
    space and not two follows the equals sign; the two messages differ; and
    every error the section logs is reported by the entry point. *)
Theorem space_after_equals_in_every_group (section : list Rule003.entry)
  (block_type : string) (block_start_line : Z) (block_lines : list string)
  (errs : list Rule003.error) :
  Rule003._check_parameter_alignment_in_section section block_type
    block_start_line block_lines = Some errs ->
  (forall g sub line idx,
     In g (Rule003.indent_groups (Rule003.parameter_lines section)) ->
     In sub (Rule003.sub_groups_of block_lines (Rule003.sorted_by_idx (snd g))) ->
     In (line, idx) sub ->
     let after_equals := slice_from line (find_char "=" line + 1) in
     let n := block_start_line + Z.of_nat idx + 1 in
     (startswith " " after_equals = false ->
      In (n, Rule003.msg_after_one block_type) errs)
     /\ (startswith "  " after_equals = true ->
         In (n, Rule003.msg_after_multiple block_type) errs)
     /\ (Rule003._check_parameter_spacing line idx block_type block_start_line = []
         <-> one_space_after line))
  /\ Rule003.msg_after_one block_type <> Rule003.msg_after_multiple block_type
  /\ (forall state file_path content,
        endswith ".tfvars" file_path = false ->
        In (block_type, block_start_line, block_lines)
          (Rule003._extract_code_blocks (Rule003._remove_comments_for_parsing content)) ->
        In section (fst (Rule003._split_into_code_sections state block_lines)) ->
        forall e, In e errs ->
          In (mkReport file_path "ST.003" (snd e) (fst e))
            (reported (fst (Rule003.check_st003_parameter_alignment state file_path
                              content)))).
Proof.
  intros Hres. split; [|split].
  - intros g sub line idx Hg Hsub Hmem after_equals n.
    pose proof (group_member_has_equals section block_lines g sub (line, idx) Hg Hsub Hmem)
      as Hfind. simpl in Hfind.
    destruct (equals_after_spacing_cases line idx block_type block_start_line Hfind)
      as (Hzero & Htwo & Hone).
    assert (Hincl : incl (Rule003._check_parameter_spacing line idx block_type
                            block_start_line) errs).
    { unfold Rule003._check_parameter_alignment_in_section in Hres.
      destruct (Rule003.section_index_check section block_lines); [|discriminate].
      cbn [Rule003.bind] in Hres.
      destruct (collect_some_in _ _ _ g Hres Hg) as (eg & Heg & Hincl_g).
      unfold Rule003.check_indent_group in Heg.
      destruct (collect_some_in _ _ _ sub Heg Hsub) as (es & Hes & Hincl_s).
      unfold Rule003.check_sub_group in Hes.
      destruct (Rule003._check_group_alignment _ _ _ _ _) as [ga|]; [|discriminate].
      cbn [Rule003.bind] in Hes. injection Hes as <-.
      intros x Hx. apply Hincl_g, Hincl_s. apply in_or_app. right.
      apply in_flat_map. exists (line, idx). split; [exact Hmem | exact Hx]. }
    split; [|split].
    + intros H. apply Hincl. unfold Rule003._check_parameter_spacing.
      rewrite (Hzero H). left. reflexivity.
    + intros H. apply Hincl. unfold Rule003._check_parameter_spacing.
      rewrite (Htwo H). left. reflexivity.
    + exact Hone.
  - unfold Rule003.msg_after_one, Rule003.msg_after_multiple.
    intros H. apply append_inj_l in H.
    apply (append_neq_self block_type ", found multiple spaces"); [discriminate|].
    symmetry. exact H.
  - intros state file_path content Htf Hb Hsec e He.
    unfold Rule003.check_st003_parameter_alignment. cbv zeta. rewrite Htf.
    set (clean := Rule003._remove_comments_for_parsing content) in *.
    destruct (blocks_check_total (Rule003._extract_code_blocks clean) state)
      as (all & Hall & _).
    destruct (check_blocks_hold _ state all _ Hall Hb) as (eb & Heb & Hincl).
    destruct (Rule003.check_blocks state (Rule003._extract_code_blocks clean))
      as [res g']. cbn [fst] in Hall. subst res. cbn [reported].
    unfold Rule003.check_block in Heb.
    destruct (Rule003._split_into_code_sections state block_lines) as [sections g1].
    cbn [fst] in Heb, Hsec.
    destruct (collect_some_in _ _ _ section Heb Hsec) as (ex & Hex & Hincl').
    rewrite Hres in Hex. injection Hex as <-.
    unfold Rule003.report_errors.
    apply (in_map (fun e0 : Rule003.error => mkReport file_path "ST.003" (snd e0) (fst e0))).
    unfold Rule003.unique_errors. apply (proj2 (unique_errors_from_spec _ [])).
    split; [|intros []]. apply sort_by_line_in. apply Hincl, Hincl'. exact He.
Qed.

Lemma space_after_equals_in_every_group_witness :
  In (2, Rule003.msg_after_one "locals")
    [(2, Rule003.msg_after_one "locals"); (3, Rule003.msg_after_multiple "locals")]
  /\ In (3, Rule003.msg_after_multiple "locals")
       [(2, Rule003.msg_after_one "locals"); (3, Rule003.msg_after_multiple "locals")].
Proof.
  pose proof (space_after_equals_in_every_group spacing_section "locals" 1
                ["  a =1"; "  b =  2"]
                [(2, Rule003.msg_after_one "locals");
                 (3, Rule003.msg_after_multiple "locals")] eq_refl) as [H _].
  split.
  - apply (H (1, spacing_section) spacing_section "  a =1" 0%nat);
      [left; reflexivity | left; reflexivity | left; reflexivity | reflexivity].
  - apply (H (1, spacing_section) spacing_section "  b =  2" 1%nat);
      [left; reflexivity | left; reflexivity | right; left; reflexivity | reflexivity].
Defined.
